(** * geoipupdate: the MaxMind update client (geoipupdate.go)

    A shallow embedding of the program: the pure helpers are Rocq
    functions, the effectful ones (network, file system, logging, the
    global [clientIp]) are computations in a state-and-outcome monad over
    an explicit [world].  Go library functions that the program calls but
    does not define (gzip decoding, path cleaning, duration parsing) are
    the fields of the class [GoLib]; MD5 and hex encoding are written
    out. *)

From Stdlib Require Import ZArith List Bool Lia.
From Stdlib.Strings Require Import Ascii String Byte.
From stdpp Require Import base option list gmap strings.
Import ListNotations.

Open Scope string_scope.
Open Scope list_scope.
Open Scope Z_scope.

(** Go's [[]byte] is a list of bytes, Go's [string] a [string]. *)
Abbreviation bytes := (list byte).

(** [[]byte(s)] and [string(b)]. *)
Definition bytes_of_string (s : string) : bytes := list_byte_of_string s.
Definition string_of_bytes (b : bytes) : string := string_of_list_byte b.

Definition byte_to_Z (b : byte) : Z := Z.of_N (Byte.to_N b).

Definition byte_of_Z (z : Z) : byte :=
  match Byte.of_N (Z.to_N (z mod 256)) with
  | Some b => b
  | None => x00
  end.

(** ** crypto/md5 and encoding/hex *)
Module MD5.

Definition wrap32 (x : Z) : Z := x mod 2 ^ 32.

Definition rotl32 (x c : Z) : Z :=
  wrap32 (Z.lor (Z.shiftl x c) (Z.shiftr x (32 - c))).

Definition not32 (x : Z) : Z := Z.lxor x 0xffffffff.

Definition shifts : list Z :=
  [7; 12; 17; 22; 7; 12; 17; 22; 7; 12; 17; 22; 7; 12; 17; 22;
   5; 9; 14; 20; 5; 9; 14; 20; 5; 9; 14; 20; 5; 9; 14; 20;
   4; 11; 16; 23; 4; 11; 16; 23; 4; 11; 16; 23; 4; 11; 16; 23;
   6; 10; 15; 21; 6; 10; 15; 21; 6; 10; 15; 21; 6; 10; 15; 21].

Definition sines : list Z :=
  [0xd76aa478; 0xe8c7b756; 0x242070db; 0xc1bdceee;
   0xf57c0faf; 0x4787c62a; 0xa8304613; 0xfd469501;
   0x698098d8; 0x8b44f7af; 0xffff5bb1; 0x895cd7be;
   0x6b901122; 0xfd987193; 0xa679438e; 0x49b40821;
   0xf61e2562; 0xc040b340; 0x265e5a51; 0xe9b6c7aa;
   0xd62f105d; 0x02441453; 0xd8a1e681; 0xe7d3fbc8;
   0x21e1cde6; 0xc33707d6; 0xf4d50d87; 0x455a14ed;
   0xa9e3e905; 0xfcefa3f8; 0x676f02d9; 0x8d2a4c8a;
   0xfffa3942; 0x8771f681; 0x6d9d6122; 0xfde5380c;
   0xa4beea44; 0x4bdecfa9; 0xf6bb4b60; 0xbebfbc70;
   0x289b7ec6; 0xeaa127fa; 0xd4ef3085; 0x04881d05;
   0xd9d4d039; 0xe6db99e5; 0x1fa27cf8; 0xc4ac5665;
   0xf4292244; 0x432aff97; 0xab9423a7; 0xfc93a039;
   0x655b59c3; 0x8f0ccc92; 0xffeff47d; 0x85845dd1;
   0x6fa87e4f; 0xfe2ce6e0; 0xa3014314; 0x4e0811a1;
   0xf7537e82; 0xbd3af235; 0x2ad7d2bb; 0xeb86d391].

(** Little-endian encoding of [x] on [n] bytes. *)
Fixpoint le_bytes (n : nat) (x : Z) : bytes :=
  match n with
  | O => []
  | S n' => byte_of_Z x :: le_bytes n' (Z.shiftr x 8)
  end.

Fixpoint le_word (bs : bytes) : Z :=
  match bs with
  | [] => 0
  | b :: bs' => byte_to_Z b + 256 * le_word bs'
  end.

(** The message, a 1 bit, zeros up to 56 mod 64, the bit length on 8 bytes. *)
Definition pad (msg : bytes) : bytes :=
  let len := Z.of_nat (length msg) in
  let zeros := Z.to_nat ((55 - len) mod 64) in
  msg ++ x80 :: repeat x00 zeros ++ le_bytes 8 ((8 * len) mod 2 ^ 64).

Fixpoint words (n : nat) (bs : bytes) : list Z :=
  match n with
  | O => []
  | S n' => le_word (firstn 4 bs) :: words n' (skipn 4 bs)
  end.

Record state := State { sA : Z; sB : Z; sC : Z; sD : Z }.

Definition init : state :=
  State 0x67452301 0xefcdab89 0x98badcfe 0x10325476.

Definition round (m : list Z) (i : Z) (st : state) : state :=
  let '(State a b c d) := st in
  let '(f, g) :=
    if i <? 16 then (Z.lor (Z.land b c) (Z.land (not32 b) d), i)
    else if i <? 32 then
      (Z.lor (Z.land d b) (Z.land (not32 d) c), (5 * i + 1) mod 16)
    else if i <? 48 then (Z.lxor b (Z.lxor c d), (3 * i + 5) mod 16)
    else (Z.lxor c (Z.lor b (not32 d)), (7 * i) mod 16) in
  let k := nth (Z.to_nat i) sines 0 in
  let s := nth (Z.to_nat i) shifts 0 in
  let x := nth (Z.to_nat g) m 0 in
  let f' := wrap32 (f + a + k + x) in
  State d (wrap32 (b + rotl32 f' s)) b c.

Definition block (st : state) (chunk : bytes) : state :=
  let m := words 16 chunk in
  let st' := fold_left (fun acc i => round m (Z.of_nat i) acc) (seq 0 64) st in
  State (wrap32 (sA st + sA st')) (wrap32 (sB st + sB st'))
        (wrap32 (sC st + sC st')) (wrap32 (sD st + sD st')).

Fixpoint blocks (n : nat) (st : state) (bs : bytes) : state :=
  match n with
  | O => st
  | S n' => blocks n' (block st (firstn 64 bs)) (skipn 64 bs)
  end.

(** [md5.New(); Write(data); Sum(nil)]: the 16-byte digest. *)
Definition sum (data : bytes) : bytes :=
  let p := pad data in
  let st := blocks (Nat.div (length p) 64) init p in
  le_bytes 4 (sA st) ++ le_bytes 4 (sB st)
    ++ le_bytes 4 (sC st) ++ le_bytes 4 (sD st).

End MD5.

Module Hex.

Definition digit (n : Z) : ascii :=
  nth (Z.to_nat n)
    (list_ascii_of_string "0123456789abcdef") "0"%char.

(** [hex.EncodeToString]. *)
Fixpoint EncodeToString (bs : bytes) : string :=
  match bs with
  | [] => ""
  | b :: bs' =>
      String (digit (byte_to_Z b / 16))
        (String (digit (byte_to_Z b mod 16)) (EncodeToString bs'))
  end.

End Hex.

(** [hex.EncodeToString(hasher.Sum(nil))] after [hasher.Write(data)]. *)
Definition md5hex (data : bytes) : string :=
  Hex.EncodeToString (MD5.sum data).

(** ** bytes.HasPrefix, strings.Split *)

Fixpoint HasPrefix (s prefix : bytes) : bool :=
  match prefix, s with
  | [], _ => true
  | _ :: _, [] => false
  | p :: prefix', c :: s' => Byte.eqb c p && HasPrefix s' prefix'
  end.

(** [strings.Split(s, sep)] for a separator of one byte, which is how
    [main] calls it. *)
Fixpoint strings_Split (s : string) (sep : ascii) : list string :=
  match s with
  | EmptyString => [""]
  | String c s' =>
      if Ascii.eqb c sep then "" :: strings_Split s' sep
      else match strings_Split s' sep with
           | [] => [String c ""]
           | x :: xs => String c x :: xs
           end
  end.

(** Go's [int] and [int64]: 64 bits, two's complement. *)
Definition int64_wrap (z : Z) : Z := (z + 2 ^ 63) mod 2 ^ 64 - 2 ^ 63.

(** [binary.BigEndian.Uint64]. *)
Definition BigEndian_Uint64 (b : bytes) : Z :=
  fold_left (fun acc x => 256 * acc + byte_to_Z x) (firstn 8 b) 0.

(** ** The library functions the program imports but does not define *)

Class GoLib := {
  (** compress/gzip: [gzip.NewReader] parses the header, reading the
      reader to the end inflates and checks the trailer. *)
  gzreader : Type;
  gzip_NewReader : bytes -> string + gzreader;
  gzip_ReadAll : gzreader -> string + bytes;
  (** path *)
  path_Base : string -> string;
  path_Join : string -> string -> string;
  (** [time.ParseDuration]: an error or a number of nanoseconds. *)
  time_ParseDuration : string -> string + Z;
}.

(** ** Errors and outcomes *)

(** The values of Go's [error] that the program can hold, by origin. *)
Inductive err :=
  | errors_New (msg : string)
  | ReadBodyError (e : string)
  | GzipError (e : string)
  | PathError (op path : string)
  | LinkError (op old new : string).

(** An [error] is [nil] or an error value. *)
Abbreviation error := (option err).

Inductive fatal :=
  | FatalGet (e : string)
  | FatalRand (e : err)
  | FatalParseDuration (s e : string)
  | FatalClientIp (e : err).

(** How a computation ends: it returns, [log.Fatal] exits the process, the
    run time panics, or the fuel of a loop ran out. *)
Inductive outcome (A : Type) :=
  | Ret (a : A)
  | Exit (m : fatal)
  | Panic (m : string)
  | NoFuel.
Arguments Ret {A} a.
Arguments Exit {A} m.
Arguments Panic {A} m.
Arguments NoFuel {A}.

(** ** The world *)

Record response := Response { StatusCode : Z; Status : string }.

(** What one [http.Get] meets: the request cannot be sent, or a response
    arrives whose body reads to the end or fails on the way. *)
Inductive http_outcome :=
  | GetFails (e : string)
  | GetResponds (res : response) (body : string + bytes).

Record url := Url {
  Scheme : string;
  Host : string;
  Path : string;
  RawQuery : gmap string string;
}.

Inductive io_fault :=
  | NoFault
  | Fault
  | FaultAfter (n : nat).

Inductive logmsg :=
  | LogDownloadError (u : url) (e : string)
  | LogAttempting (filename : string)
  | LogUpdateRetrieved (filename : string)
  | LogNoNewUpdates (filename : string)
  | LogWaiting (rdur dur : Z)
  | LogUpdating (dir host proto : string)
  | LogMakingLinks (dir : string)
  | LogDone.

Inductive event :=
  | EvGet (u : url)
  | EvReadFile (fn : string)
  | EvWriteFile (fn : string) (data : bytes)
  | EvRename (old new : string)
  | EvSymlink (old new : string)
  | EvSleep (d : Z)
  | EvLog (m : logmsg).

(** [w_net k] is what the [k]-th [http.Get] of the run meets and
    [w_fault k] what the [k]-th file-system call meets; [w_sent] and
    [w_ios] count the calls made so far.  [w_files] maps the path of each
    regular file to its content, [w_links] each symbolic link to its
    target (paths are not resolved through links).  [w_entropy] is what
    [rand.Read] yields, [w_clientIp] the global [clientIp], and [w_trace]
    the calls made so far, oldest first. *)
Record world := World {
  w_net : nat -> http_outcome;
  w_sent : nat;
  w_fault : nat -> io_fault;
  w_ios : nat;
  w_files : gmap string bytes;
  w_links : gmap string string;
  w_entropy : string + bytes;
  w_clientIp : string;
  w_trace : list event;
}.

Definition emit (e : event) (w : world) : world :=
  World (w_net w) (w_sent w) (w_fault w) (w_ios w) (w_files w) (w_links w)
        (w_entropy w) (w_clientIp w) (w_trace w ++ [e]).

Definition sent_one (w : world) : world :=
  World (w_net w) (S (w_sent w)) (w_fault w) (w_ios w) (w_files w) (w_links w)
        (w_entropy w) (w_clientIp w) (w_trace w).

Definition io_one (w : world) : world :=
  World (w_net w) (w_sent w) (w_fault w) (S (w_ios w)) (w_files w) (w_links w)
        (w_entropy w) (w_clientIp w) (w_trace w).

Definition with_files (f : gmap string bytes) (w : world) : world :=
  World (w_net w) (w_sent w) (w_fault w) (w_ios w) f (w_links w)
        (w_entropy w) (w_clientIp w) (w_trace w).

Definition with_links (l : gmap string string) (w : world) : world :=
  World (w_net w) (w_sent w) (w_fault w) (w_ios w) (w_files w) l
        (w_entropy w) (w_clientIp w) (w_trace w).

Definition with_clientIp (ip : string) (w : world) : world :=
  World (w_net w) (w_sent w) (w_fault w) (w_ios w) (w_files w) (w_links w)
        (w_entropy w) ip (w_trace w).

(** ** The monad *)

Definition M (A : Type) : Type := world -> outcome A * world.

Definition ret {A} (a : A) : M A := fun w => (Ret a, w).

Definition bind {A B} (c : M A) (k : A -> M B) : M B :=
  fun w =>
    match c w with
    | (Ret a, w') => k a w'
    | (Exit m, w') => (Exit m, w')
    | (Panic m, w') => (Panic m, w')
    | (NoFuel, w') => (NoFuel, w')
    end.

Declare Scope go_scope.
Delimit Scope go_scope with go.
Notation "x <- c ;; k" := (bind c (fun x => k))
  (at level 100, c at next level, right associativity) : go_scope.
Notation "c ;; k" := (bind c (fun _ => k))
  (at level 100, right associativity) : go_scope.
Open Scope go_scope.

Definition log_Printf (m : logmsg) : M unit :=
  fun w => (Ret tt, emit (EvLog m) w).

(** [log.Fatal], [log.Fatalf]: the process exits, nothing after it runs. *)
Definition log_Fatal {A} (m : fatal) : M A := fun w => (Exit m, w).

Definition panic {A} (m : string) : M A := fun w => (Panic m, w).

Definition no_fuel {A} : M A := fun w => (NoFuel, w).

(** [http.Get(u.String())] followed by [ioutil.ReadAll(res.Body)]. *)
Definition http_Get (u : url) : M (string + response * (string + bytes)) :=
  fun w =>
    let w' := sent_one (emit (EvGet u) w) in
    match w_net w (w_sent w) with
    | GetFails e => (Ret (inl e), w')
    | GetResponds res body => (Ret (inr (res, body)), w')
    end.

Definition ioutil_ReadFile (fn : string) : M (bytes * error) :=
  fun w =>
    let w' := io_one (emit (EvReadFile fn) w) in
    match w_fault w (w_ios w), w_files w !! fn with
    | NoFault, Some data => (Ret (data, None), w')
    | _, _ => (Ret ([], Some (PathError "open" fn)), w')
    end.

(** [ioutil.WriteFile]: open with create and truncate, write, close.  A
    fault at the open leaves the file system as it was; a fault after [n]
    bytes leaves the first [n] bytes of [data] in the file. *)
Definition ioutil_WriteFile (fn : string) (data : bytes) : M error :=
  fun w =>
    let w' := io_one (emit (EvWriteFile fn data) w) in
    match w_fault w (w_ios w) with
    | NoFault => (Ret None, with_files (<[fn := data]> (w_files w)) w')
    | Fault => (Ret (Some (PathError "open" fn)), w')
    | FaultAfter n =>
        (Ret (Some (PathError "write" fn)),
         with_files (<[fn := take n data]> (w_files w)) w')
    end.

(** [os.Rename]: all or nothing. *)
Definition os_Rename (old new : string) : M error :=
  fun w =>
    let w' := io_one (emit (EvRename old new) w) in
    match w_fault w (w_ios w), w_files w !! old with
    | NoFault, Some data =>
        (Ret None, with_files (<[new := data]> (delete old (w_files w))) w')
    | _, _ => (Ret (Some (LinkError "rename" old new)), w')
    end.

Definition os_Symlink (old new : string) : M error :=
  fun w =>
    let w' := io_one (emit (EvSymlink old new) w) in
    match w_fault w (w_ios w), w_files w !! new, w_links w !! new with
    | NoFault, None, None =>
        (Ret None, with_links (<[new := old]> (w_links w)) w')
    | _, _, _ => (Ret (Some (LinkError "symlink" old new)), w')
    end.

(** [rand.Read(b)] on a buffer of [n] zero bytes. *)
Definition rand_Read (n : nat) : M (bytes * error) :=
  fun w =>
    match w_entropy w with
    | inl e => (Ret (repeat x00 n, Some (errors_New e)), w)
    | inr bs => (Ret (take n (bs ++ repeat x00 n), None), w)
    end.

Definition time_Sleep (d : Z) : M unit :=
  fun w => (Ret tt, emit (EvSleep d) w).

(** Reading and assigning the global [clientIp]. *)
Definition read_clientIp : M string := fun w => (Ret (w_clientIp w), w).

Definition assign_clientIp (ip : string) : M unit :=
  fun w => (Ret tt, with_clientIp ip w).

(** ** The program *)

Record flags := Flags {
  sourceHost : string;
  protocol : string;
  directory : string;
  userId : string;
  licenseKey : string;
  dolinks : bool;
  productIds : string;
  randomDelay : string;
}.

(** The flags of the program as declared, with their default values. *)
Definition default_flags : flags :=
  Flags "updates.maxmind.com" "https" "/usr/local/var/GeoIP" "999999"
        "000000000000" true "506,533,517" "".

Definition isSuccess (statusCode : Z) : bool :=
  (statusCode >=? 200) && (statusCode <=? 209).

(** The local variables of the loop of [getProduct]. *)
Record session := Session {
  attempts : Z;
  uncompressed : bytes;
  oldDigest : string;
}.

(** How one turn of the loop ends: it goes round again, it leaves the
    loop through [break], or [getProduct] returns. *)
Inductive turn :=
  | Continue (st : session)
  | Break
  | Return (e : error).

Section Program.

Context `{GoLib}.
Variable fl : flags.

Definition download (location : string) (query : gmap string string)
  : M (response * bytes * error) :=
  let u := Url (protocol fl) (sourceHost fl) location query in
  got <- http_Get u ;;
  match got with
  | inl e => log_Fatal (FatalGet e)
  | inr (res, inl e) =>
      log_Printf (LogDownloadError u e) ;;
      ret (res, [], Some (ReadBodyError e))
  | inr (res, inr data) => ret (res, data, None)
  end.

Definition md5File (fn : string) : M string :=
  r <- ioutil_ReadFile fn ;;
  let '(data, e) := r in
  match e with
  | Some _ => ret "00000000000000000000000000000000"
  | None => ret (md5hex data)
  end.

Definition updateSecure (oldDigest productId challenge : string)
  : M (bytes * error) :=
  r <- download "/app/update_secure"
         (<["db_md5" := oldDigest]>
            (<["challenge_md5" := challenge]>
               (<["user_id" := userId fl]>
                  (<["edition_id" := productId]> ∅)))) ;;
  let '(response, data, e) := r in
  if negb (isSuccess (StatusCode response)) then
    ret ([], Some (errors_New ("Status " +:+ Status response +:+ " received")))
  else ret (data, e).

(** The body of the [for] loop of [getProduct]. *)
Definition getProduct_turn (productId filename challenge : string)
    (st : session) : M turn :=
  r <- updateSecure (oldDigest st) productId challenge ;;
  let '(data, e) := r in
  match e with
  | Some e => ret (Return (Some e))
  | None =>
      if HasPrefix data (bytes_of_string "No new updates available") then
        if Z.of_nat (length (uncompressed st)) >? 0 then
          log_Printf (LogUpdateRetrieved filename) ;;
          ret Break
        else
          log_Printf (LogNoNewUpdates filename) ;;
          ret (Return None)
      else if negb (HasPrefix data [x1f; x8b]) then
        ret (Return (Some (errors_New "Not a gzip file")))
      else
        let attempts' := int64_wrap (attempts st + 1) in
        if attempts' >? 5 then
          ret (Return
                 (Some (errors_New "Too many attempts at downloading file")))
        else
          match gzip_NewReader data with
          | inl e => ret (Return (Some (GzipError e)))
          | inr gzr =>
              match gzip_ReadAll gzr with
              | inl e => ret (Return (Some (GzipError e)))
              | inr u => ret (Continue (Session attempts' u (md5hex u)))
              end
          end
  end.

(** The [for] loop of [getProduct]: the error the function returns from
    inside the loop, or the local variables at the [break]. *)
Fixpoint getProduct_loop (fuel : nat) (productId filename challenge : string)
    (st : session) : M (error + session) :=
  match fuel with
  | O => no_fuel
  | S fuel' =>
      t <- getProduct_turn productId filename challenge st ;;
      match t with
      | Continue st' =>
          getProduct_loop fuel' productId filename challenge st'
      | Break => ret (inr st)
      | Return e => ret (inl e)
      end
  end.

(** Lines 141 to 147 of [getProduct]: the temporary file and the rename. *)
Definition publish (filePath : string) (uncompressed : bytes) : M error :=
  let tmpFilePath := filePath +:+ ".tmp" in
  e <- ioutil_WriteFile tmpFilePath uncompressed ;;
  match e with
  | Some e => ret (Some e)
  | None =>
      e <- os_Rename tmpFilePath filePath ;;
      match e with
      | Some e => ret (Some e)
      | None => ret None
      end
  end.

(** The loop is given the fuel of six turns; [getProduct_loop_fuel]
    below shows that it never uses more. *)
Definition getProduct (productId : string) : M error :=
  r <- download "/app/update_getfilename" {["product_id" := productId]} ;;
  let '(response, data, e) := r in
  match e with
  | Some e => ret (Some e)
  | None =>
      if negb (isSuccess (StatusCode response)) then
        ret (Some (errors_New
                     ("Status " +:+ Status response +:+ " received")))
      else
        let filename := path_Base (string_of_bytes data) in
        log_Printf (LogAttempting filename) ;;
        let filePath := path_Join (directory fl) filename in
        oldDigest <- md5File filePath ;;
        clientIp <- read_clientIp ;;
        let challenge :=
          md5hex (bytes_of_string (licenseKey fl)
                    ++ bytes_of_string clientIp) in
        r <- getProduct_loop 6 productId filename challenge
               (Session 0 [] oldDigest) ;;
        match r with
        | inl e => ret e
        | inr st => publish filePath (uncompressed st)
        end
  end.

Definition getClientIp : M error :=
  r <- download "/app/update_getipaddr" ∅ ;;
  let '(response, data, e) := r in
  match e with
  | Some e => ret (Some e)
  | None =>
      if negb (isSuccess (StatusCode response)) then
        ret (Some (errors_New
                     ("Status " +:+ Status response +:+ " received")))
      else
        assign_clientIp (string_of_bytes data) ;;
        ret None
  end.

(** [data % max] panics when [max] is zero; Go's [%] truncates. *)
Definition randInt64 (max : Z) : M Z :=
  r <- rand_Read 8 ;;
  let '(b, e) := r in
  match e with
  | Some e => log_Fatal (FatalRand e)
  | None =>
      let data :=
        int64_wrap (Z.land (BigEndian_Uint64 b) 0x7fffffffffffffff) in
      if max =? 0 then panic "runtime error: integer divide by zero"
      else ret (Z.rem data max)
  end.

(** [for _, p := range ... { getProduct(p) }]: the error is dropped. *)
Fixpoint range_getProduct (ps : list string) : M unit :=
  match ps with
  | [] => ret tt
  | p :: ps' => _ <- getProduct p ;; range_getProduct ps'
  end.

Definition main : M unit :=
  (if negb (String.eqb (randomDelay fl) "") then
     match time_ParseDuration (randomDelay fl) with
     | inl e => log_Fatal (FatalParseDuration (randomDelay fl) e)
     | inr dur =>
         rdur <- randInt64 dur ;;
         log_Printf (LogWaiting rdur dur) ;;
         time_Sleep rdur
     end
   else ret tt) ;;
  log_Printf (LogUpdating (directory fl) (sourceHost fl) (protocol fl)) ;;
  e <- getClientIp ;;
  match e with
  | Some e => log_Fatal (FatalClientIp e)
  | None =>
      range_getProduct (strings_Split (productIds fl) ","%char) ;;
      (if dolinks fl then
         log_Printf (LogMakingLinks (directory fl)) ;;
         _ <- os_Symlink (path_Join (directory fl) "GeoLiteCity.dat")
                         (path_Join (directory fl) "GeoIPCity.dat") ;;
         _ <- os_Symlink (path_Join (directory fl) "GeoLiteCountry.dat")
                         (path_Join (directory fl) "GeoIP.dat") ;;
         ret tt
       else ret tt) ;;
      log_Printf LogDone
  end.

End Program.

(** ** Vocabulary of the statements *)

(** The three kinds of reply the loop of [getProduct] tells apart, by the
    two prefix tests it makes, in the order it makes them. *)
Inductive ServerReply :=
  | NoUpdate
  | GzipPayload
  | Malformed.

Definition classify (body : bytes) : ServerReply :=
  if HasPrefix body (bytes_of_string "No new updates available") then NoUpdate
  else if HasPrefix body [x1f; x8b] then GzipPayload
  else Malformed.

(** The body of a reply that arrived whole with a status [isSuccess]
    accepts. *)
Definition reply_body (o : http_outcome) : option bytes :=
  match o with
  | GetResponds res (inr data) =>
      if isSuccess (StatusCode res) then Some data else None
  | _ => None
  end.

(** The requests from the [k]-th on are answered with [bodies], in order. *)
Fixpoint served (net : nat -> http_outcome) (k : nat) (bodies : list bytes)
    : Prop :=
  match bodies with
  | [] => True
  | b :: bs => reply_body (net k) = Some b /\ served net (S k) bs
  end.

Definition sends (o : http_outcome) : bool :=
  match o with
  | GetFails _ => false
  | GetResponds _ _ => true
  end.

(** [gzip.NewReader] and then [ioutil.ReadAll]. *)
Definition gunzip `{GoLib} (data : bytes) : string + bytes :=
  match gzip_NewReader data with
  | inl e => inl e
  | inr gzr => gzip_ReadAll gzr
  end.

(** The request of a poll, and of the file-name lookup. *)
Definition poll_url (fl : flags) (productId challenge digest : string) : url :=
  Url (protocol fl) (sourceHost fl) "/app/update_secure"
      (<["db_md5" := digest]>
         (<["challenge_md5" := challenge]>
            (<["user_id" := userId fl]>
               (<["edition_id" := productId]> ∅)))).

Definition filename_url (fl : flags) (productId : string) : url :=
  Url (protocol fl) (sourceHost fl) "/app/update_getfilename"
      {["product_id" := productId]}.

(** The digests the polls of a trace carry, and the products whose file
    name a trace asks for. *)
Definition poll_digest (e : event) : option string :=
  match e with
  | EvGet u =>
      if String.eqb (Path u) "/app/update_secure"
      then RawQuery u !! "db_md5" else None
  | _ => None
  end.

Definition attempted_product (e : event) : option string :=
  match e with
  | EvGet u =>
      if String.eqb (Path u) "/app/update_getfilename"
      then RawQuery u !! "product_id" else None
  | _ => None
  end.

Definition poll_digests (t : list event) : list string :=
  omap poll_digest t.

Definition attempted (t : list event) : list string :=
  omap attempted_product t.

(** The events that change a file. *)
Definition writes (e : event) : bool :=
  match e with
  | EvWriteFile _ _ | EvRename _ _ | EvSymlink _ _ => true
  | _ => false
  end.

(** The errors by the taxonomy of the design; the errors of the gzip
    reader, which the taxonomy does not name, are [DecodeError]. *)
Inductive error_class :=
  | TransportError
  | ProtocolError
  | DecodeError
  | IOError.

Definition class_of (e : err) : error_class :=
  match e with
  | errors_New _ => ProtocolError
  | ReadBodyError _ => TransportError
  | GzipError _ => DecodeError
  | PathError _ _ | LinkError _ _ _ => IOError
  end.

(** The state of the loop agrees with the digest rule: before the first
    payload the digest is [d0], afterwards it is the digest of the payload
    held. *)
Definition digest_fresh (d0 : string) (st : session) : Prop :=
  (attempts st = 0 /\ uncompressed st = [] /\ oldDigest st = d0)
  \/ (0 < attempts st <= 5 /\ oldDigest st = md5hex (uncompressed st)).

(** The world after one request to [u]. *)
Definition requested (u : url) (w : world) : world :=
  sent_one (emit (EvGet u) w).

(** The world after [n] more requests and the events [t]. *)
Definition advance (n : nat) (t : list event) (w : world) : world :=
  World (w_net w) (n + w_sent w) (w_fault w) (w_ios w) (w_files w) (w_links w)
        (w_entropy w) (w_clientIp w) (w_trace w ++ t).

(** The events of the loop of [getProduct]: polls and log lines. *)
Definition polling (e : event) : bool :=
  match e with
  | EvGet u => String.eqb (Path u) "/app/update_secure"
  | EvLog _ => true
  | _ => false
  end.

(** What [md5File fn] returns in the world [w]. *)
Definition local_digest (fn : string) (w : world) : string :=
  match w_fault w (w_ios w), w_files w !! fn with
  | NoFault, Some data => md5hex data
  | _, _ => "00000000000000000000000000000000"
  end.

(** The file name, the file path and the challenge of the session that
    [getProduct] opens when the file-name lookup is answered with [b0]. *)
Definition session_filename `{GoLib} (b0 : bytes) : string :=
  path_Base (string_of_bytes b0).

Definition session_filePath `{GoLib} (fl : flags) (b0 : bytes) : string :=
  path_Join (directory fl) (session_filename b0).

Definition session_challenge (fl : flags) (w : world) : string :=
  md5hex (bytes_of_string (licenseKey fl) ++ bytes_of_string (w_clientIp w)).

(** The world in which the loop of that session starts. *)
Definition session_world `{GoLib} (fl : flags) (productId : string)
    (b0 : bytes) (w : world) : world :=
  io_one
    (emit (EvReadFile (session_filePath fl b0))
       (emit (EvLog (LogAttempting (session_filename b0)))
          (requested (filename_url fl productId) w))).

(** A reply that is a gzip payload decompressing to [u]. *)
Definition payload `{GoLib} (b u : bytes) : Prop :=
  classify b = GzipPayload /\ gunzip b = inr u.

(** The local variables after the rounds that decompressed [us], and the
    polls of those rounds, the first of which carries [d]. *)
Definition round_state (st : session) (us : list bytes) : session :=
  fold_left (fun s u => Session (attempts s + 1) u (md5hex u)) us st.

Fixpoint round_polls (fl : flags) (productId challenge d : string)
    (us : list bytes) : list event :=
  match us with
  | [] => []
  | u :: us' =>
      EvGet (poll_url fl productId challenge d)
        :: round_polls fl productId challenge (md5hex u) us'
  end.

(** The requests a session of [productId] with the challenge [ch] may
    make: the file-name lookup, and polls that carry the user id, the
    product id and that challenge. *)
Definition session_request (fl : flags) (productId ch : string) (u : url)
    : Prop :=
  u = filename_url fl productId \/ exists d, u = poll_url fl productId ch d.

(** The events of the loop of a session, with what its polls carry. *)
Definition loop_event (fl : flags) (productId ch : string) (e : event)
    : Prop :=
  match e with
  | EvGet u => exists d, u = poll_url fl productId ch d
  | EvLog _ => True
  | _ => False
  end.

(** The flags with the random delay switched off. *)
Definition without_delay (fl : flags) : flags :=
  Flags (sourceHost fl) (protocol fl) (directory fl) (userId fl)
        (licenseKey fl) (dolinks fl) (productIds fl) "".

(** How often the byte [sep] occurs in [s]. *)
Fixpoint count_sep (sep : ascii) (s : string) : nat :=
  match s with
  | EmptyString => 0
  | String c s' => (if Ascii.eqb c sep then 1 else 0) + count_sep sep s'
  end.

(** The requests made between the worlds [w] and [w'] of a computation
    that ended as [r]: every request but the last could be sent; and
    either the computation returned and the last could be sent as well,
    or the process exited through the [log.Fatal] of [download], with the
    error of the last request, which could not be sent. *)
Definition ends_at_unsendable {A} (w : world) (r : outcome A) (w' : world)
    : Prop :=
  w_net w' = w_net w
  /\ (w_sent w <= w_sent w')%nat
  /\ (forall k,
        (w_sent w <= k)%nat -> (S k < w_sent w')%nat ->
        sends (w_net w k) = true)
  /\ match r with
     | Ret _ =>
         forall k, (w_sent w <= k < w_sent w')%nat -> sends (w_net w k) = true
     | Exit m =>
         exists e,
           m = FatalGet e
           /\ (w_sent w < w_sent w')%nat
           /\ w_net w (pred (w_sent w')) = GetFails e
     | Panic _ | NoFuel => False
     end.

(** ** A library instance for the examples

    gzip members whose deflate stream is made of stored blocks, with the
    CRC-32 and length of the trailer checked; every other input is an
    error.  [path.Base] as in Go; [path.Join] of a clean directory and a
    clean name; durations in whole seconds. *)
Module Sample.

Definition crc32_byte (crc : Z) (b : byte) : Z :=
  fold_left
    (fun c _ =>
       if Z.testbit c 0 then Z.lxor (Z.shiftr c 1) 0xedb88320
       else Z.shiftr c 1)
    (seq 0 8) (Z.lxor crc (byte_to_Z b)).

Definition crc32 (data : bytes) : Z :=
  Z.lxor (fold_left crc32_byte data 0xffffffff) 0xffffffff.

Definition NewReader (data : bytes) : string + bytes :=
  match data with
  | x1f :: x8b :: x08 :: x00 :: _ :: _ :: _ :: _ :: _ :: _ :: rest =>
      inr rest
  | _ => inl "gzip: invalid header"
  end.

Fixpoint stored (fuel : nat) (acc rest : bytes) : string + bytes :=
  match fuel with
  | O => inl "unexpected EOF"
  | S fuel' =>
      match rest with
      | hdr :: l0 :: l1 :: n0 :: n1 :: rest' =>
          let len := MD5.le_word [l0; l1] in
          if negb (Z.land (byte_to_Z hdr) 6 =? 0) then
            inl "flate: unsupported block"
          else if negb (len + MD5.le_word [n0; n1] =? 0xffff) then
            inl "flate: corrupt input"
          else if Z.of_nat (length rest') <? len then inl "unexpected EOF"
          else
            let acc' := acc ++ take (Z.to_nat len) rest' in
            let rest'' := drop (Z.to_nat len) rest' in
            if Z.testbit (byte_to_Z hdr) 0 then
              if (MD5.le_word (take 4 rest'') =? crc32 acc')
                 && (MD5.le_word (take 4 (drop 4 rest''))
                     =? Z.of_nat (length acc') mod 2 ^ 32)
                 && (length rest'' =? 8)%nat
              then inr acc'
              else inl "gzip: invalid checksum"
            else stored fuel' acc' rest''
      | _ => inl "unexpected EOF"
      end
  end.

Definition ReadAll (rest : bytes) : string + bytes :=
  stored (length rest) [] rest.

Fixpoint last_element (cur : string) (s : string) : string :=
  match s with
  | EmptyString => cur
  | String "/" s' => last_element "" s'
  | String c s' => last_element (cur +:+ String c "") s'
  end.

Fixpoint strip_slashes (s : string) : string :=
  match s with
  | EmptyString => ""
  | String c s' =>
      match strip_slashes s' with
      | EmptyString => if Ascii.eqb c "/" then "" else String c ""
      | t => String c t
      end
  end.

Definition Base (p : string) : string :=
  if String.eqb p "" then "."
  else
    let p' := strip_slashes p in
    if String.eqb p' "" then "/" else last_element "" p'.

Definition Join (dir name : string) : string :=
  if String.eqb dir "" then name
  else if String.eqb name "" then dir
  else dir +:+ "/" +:+ name.

Fixpoint digits (acc : Z) (s : string) : option (Z * string) :=
  match s with
  | String c s' =>
      let n := Z.of_nat (nat_of_ascii c) - 48 in
      if (0 <=? n) && (n <=? 9) then digits (10 * acc + n) s'
      else Some (acc, s)
  | EmptyString => Some (acc, s)
  end.

Definition ParseDuration (s : string) : string + Z :=
  if String.eqb s "0" then inr 0
  else
    match s with
    | String c _ =>
        if (Z.of_nat (nat_of_ascii c) <? 48) || (57 <? Z.of_nat (nat_of_ascii c))
        then inl "time: invalid duration"
        else
          match digits 0 s with
          | Some (n, "s") =>
              if n * 1000000000 <? 2 ^ 63 then inr (n * 1000000000)
              else inl "time: invalid duration"
          | _ => inl "time: invalid duration"
          end
    | EmptyString => inl "time: invalid duration"
    end.

Definition lib : GoLib :=
  {| gzreader := bytes;
     gzip_NewReader := NewReader;
     gzip_ReadAll := ReadAll;
     path_Base := Base;
     path_Join := Join;
     time_ParseDuration := ParseDuration |}.

(** [gzip.compress(b"AAA", 0)] and [gzip.compress(b"BBBB", 0)]. *)
Definition gz_AAA : bytes :=
  [x1f; x8b; x08; x00; x00; x00; x00; x00; x04; x03;
   x01; x03; x00; xfc; xff; x41; x41; x41;
   xa7; x31; xa0; x66; x03; x00; x00; x00].

Definition gz_BBBB : bytes :=
  [x1f; x8b; x08; x00; x00; x00; x00; x00; x04; x03;
   x01; x04; x00; xfb; xff; x42; x42; x42; x42;
   x3f; x1b; xda; x39; x04; x00; x00; x00].

Definition gz_empty : bytes :=
  [x1f; x8b; x08; x00; x00; x00; x00; x00; x04; x03;
   x01; x00; x00; xff; xff;
   x00; x00; x00; x00; x00; x00; x00; x00].

Definition no_update : bytes := bytes_of_string "No new updates available".

Definition ok (body : bytes) : http_outcome :=
  GetResponds (Response 200 "200 OK") (inr body).

(** A server that answers the requests of a run with [replies], in
    order, and cannot be reached after them. *)
Definition net_of (replies : list http_outcome) : nat -> http_outcome :=
  fun k => nth k replies (GetFails "connection refused").

Definition world_of (replies : list http_outcome) (faults : list io_fault)
    (files : gmap string bytes) : world :=
  World (net_of replies) 0 (fun k => nth k faults NoFault) 0 files ∅
        (inr [x01; x23; x45; x67; x89; xab; xcd; xef]) "" [].

(** A run of two products: the body of the first file-name reply breaks
    off, the second product has no update; later requests meet a 503. *)
Definition two_products : flags :=
  Flags "updates.maxmind.com" "https" "/usr/local/var/GeoIP" "999999"
        "000000000000" false "506,533" "".

Definition body_breaks_off : world :=
  World
    (fun k =>
       nth k
         [ok (bytes_of_string "192.0.2.7");
          GetResponds (Response 200 "200 OK") (inl "unexpected EOF");
          ok (bytes_of_string "GeoLiteCity.dat");
          ok no_update]
         (GetResponds (Response 503 "503 Service Unavailable") (inr [])))
    0 (fun _ => NoFault) 0 ∅ ∅ (inl "no entropy") "" [].

(** A run of the default three products in which the file-name request
    of the first product cannot be sent. *)
Definition unreachable_after_ip : world :=
  world_of [ok (bytes_of_string "192.0.2.7")] [] ∅.

(** A run in which the server answers the first poll of the first
    product with a payload and cannot be reached for the second. *)
Definition unreachable_after_payload : world :=
  world_of
    [ok (bytes_of_string "192.0.2.7");
     ok (bytes_of_string "GeoLiteCity.dat");
     ok gz_AAA]
    [] ∅.

(** A run in which the second poll of a session brings a payload of no
    bytes, while a database of an earlier run is in place. *)
Definition empty_second_payload : world :=
  world_of
    [ok (bytes_of_string "GeoLiteCity.dat");
     ok gz_AAA;
     ok gz_empty;
     ok no_update]
    []
    {[ "/usr/local/var/GeoIP/GeoLiteCity.dat" := bytes_of_string "old" ]}.

End Sample.

(** * Properties *)

(** ** The written-out library functions on known values *)

Example md5hex_empty : md5hex [] = "d41d8cd98f00b204e9800998ecf8427e".
Proof. vm_compute. reflexivity. Qed.

Example md5hex_abc :
  md5hex (bytes_of_string "abc") = "900150983cd24fb0d6963f7d28e17f72".
Proof. vm_compute. reflexivity. Qed.

Example md5hex_two_blocks :
  md5hex (repeat x61 70) = "0f5c6c4e740bfcc08c3c26ccb2673d46".
Proof. vm_compute. reflexivity. Qed.

Example md5hex_block_boundary :
  md5hex (repeat x61 56) = "3b0c8ac703f828b04c6c197006d17218".
Proof. vm_compute. reflexivity. Qed.

Example sample_gunzip_AAA :
  @gunzip Sample.lib Sample.gz_AAA = inr (bytes_of_string "AAA").
Proof. vm_compute. reflexivity. Qed.

Example sample_gunzip_BBBB :
  @gunzip Sample.lib Sample.gz_BBBB = inr (bytes_of_string "BBBB").
Proof. vm_compute. reflexivity. Qed.

Example sample_gunzip_empty : @gunzip Sample.lib Sample.gz_empty = inr [].
Proof. vm_compute. reflexivity. Qed.

Example sample_Base : Sample.Base "/a/b/GeoLiteCity.dat" = "GeoLiteCity.dat".
Proof. vm_compute. reflexivity. Qed.

Example split_products :
  strings_Split "506,533,517" ","%char = ["506"; "533"; "517"].
Proof. vm_compute. reflexivity. Qed.

(** One payload "AAA" and then the no-update text, with no local file: the
    first poll carries the all-zero digest, the second the digest of
    "AAA", and the file holds "AAA". *)
Example session_AAA :
  let r := @getProduct Sample.lib default_flags "506"
             (Sample.world_of
                [Sample.ok (bytes_of_string "GeoLiteCity.dat");
                 Sample.ok Sample.gz_AAA; Sample.ok Sample.no_update] [] ∅) in
  fst r = Ret None
  /\ map_to_list (w_files (snd r))
     = [("/usr/local/var/GeoIP/GeoLiteCity.dat", bytes_of_string "AAA")]
  /\ poll_digests (w_trace (snd r))
     = ["00000000000000000000000000000000";
        "e1faffb3e614e6c2fba74296962386b7"].
Proof. vm_compute. repeat split. Qed.

Lemma int64_wrap_small (z : Z) :
  - 2 ^ 63 <= z < 2 ^ 63 -> int64_wrap z = z.
Proof.
  intros Hz. unfold int64_wrap.
  rewrite Z.mod_small; lia.
Qed.

Lemma isSuccess_iff (s : Z) : isSuccess s = true <-> 200 <= s <= 209.
Proof. unfold isSuccess. rewrite andb_true_iff. lia. Qed.

Lemma isSuccess_false_iff (s : Z) :
  isSuccess s = false <-> ~ 200 <= s <= 209.
Proof.
  rewrite <- isSuccess_iff. destruct (isSuccess s); split; congruence.
Qed.

Section Transport.

Variable fl : flags.

Lemma download_fails loc q w e :
  w_net w (w_sent w) = GetFails e ->
  download fl loc q w
  = (Exit (FatalGet e),
     requested (Url (protocol fl) (sourceHost fl) loc q) w).
Proof.
  intros Hnet. unfold download, http_Get, bind. rewrite Hnet. reflexivity.
Qed.

Lemma download_body loc q w res data :
  w_net w (w_sent w) = GetResponds res (inr data) ->
  download fl loc q w
  = (Ret (res, data, None),
     requested (Url (protocol fl) (sourceHost fl) loc q) w).
Proof.
  intros Hnet. unfold download, http_Get, bind. rewrite Hnet. reflexivity.
Qed.

Lemma download_truncated loc q w res e :
  w_net w (w_sent w) = GetResponds res (inl e) ->
  download fl loc q w
  = (Ret (res, [], Some (ReadBodyError e)),
     emit (EvLog (LogDownloadError (Url (protocol fl) (sourceHost fl) loc q) e))
       (requested (Url (protocol fl) (sourceHost fl) loc q) w)).
Proof.
  intros Hnet. unfold download, http_Get, bind. rewrite Hnet. reflexivity.
Qed.

End Transport.

(** C6. A fetch counts as a success exactly when the status code is in
    200..209; [updateSecure] then hands on what [download] returned, and
    for every other status code it returns the error
    "Status <status text> received", a ProtocolError.  [getProduct] and
    [getClientIp] return the same error for such a status code once the
    body has been read. *)
Theorem isSuccess_band `{GoLib} (fl : flags) (d p c : string) (w : world)
    (res : response) (body : string + bytes) :
  w_net w (w_sent w) = GetResponds res body ->
  (forall s, isSuccess s = true <-> 200 <= s <= 209)
  /\ (200 <= StatusCode res <= 209 ->
      fst (updateSecure fl d p c w)
      = Ret match body with
            | inr data => (data, None)
            | inl e => ([], Some (ReadBodyError e))
            end)
  /\ (~ 200 <= StatusCode res <= 209 ->
      exists e,
        e = errors_New ("Status " +:+ Status res +:+ " received")
        /\ class_of e = ProtocolError
        /\ fst (updateSecure fl d p c w) = Ret ([], Some e)
        /\ (forall data,
              body = inr data ->
              fst (getProduct fl p w) = Ret (Some e)
              /\ fst (getClientIp fl w) = Ret (Some e))).
Proof.
  intros Hnet. split; [exact isSuccess_iff|]. split.
  - intros Hok. apply isSuccess_iff in Hok.
    unfold updateSecure, bind.
    destruct body as [e|data].
    + rewrite (download_truncated fl _ _ _ _ _ Hnet). rewrite Hok. reflexivity.
    + rewrite (download_body fl _ _ _ _ _ Hnet). rewrite Hok. reflexivity.
  - intros Hbad. apply isSuccess_false_iff in Hbad.
    eexists. split; [reflexivity|]. split; [reflexivity|]. split.
    + unfold updateSecure, bind.
      destruct body as [e|data].
      * rewrite (download_truncated fl _ _ _ _ _ Hnet). rewrite Hbad.
        reflexivity.
      * rewrite (download_body fl _ _ _ _ _ Hnet). rewrite Hbad. reflexivity.
    + intros data ->. split.
      * unfold getProduct, bind.
        rewrite (download_body fl _ _ _ _ _ Hnet), Hbad. reflexivity.
      * unfold getClientIp, bind.
        rewrite (download_body fl _ _ _ _ _ Hnet), Hbad. reflexivity.
Qed.

Lemma isSuccess_band_witness :
  fst (updateSecure default_flags "d" "506" "c"
         (Sample.world_of
            [GetResponds (Response 210 "210 Unknown") (inr Sample.gz_AAA)]
            [] ∅))
  = Ret ([], Some (errors_New "Status 210 Unknown received")).
Proof.
  destruct (@isSuccess_band Sample.lib default_flags "d" "506" "c"
              (Sample.world_of
                 [GetResponds (Response 210 "210 Unknown") (inr Sample.gz_AAA)]
                 [] ∅)
              (Response 210 "210 Unknown") (inr Sample.gz_AAA) eq_refl)
    as (_ & _ & Hbad).
  destruct Hbad as (e & He & _ & Hrun & _).
  - simpl. lia.
  - rewrite Hrun, He. reflexivity.
Defined.

(** C8. [md5File] always returns, and changes no file: the all-zero digest
    when the file is missing or cannot be read, the hex-encoded MD5 of the
    content when it can. *)
Theorem md5File_total (fn : string) (w : world) :
  exists d,
    md5File fn w = (Ret d, io_one (emit (EvReadFile fn) w))
    /\ (w_files w !! fn = None -> d = "00000000000000000000000000000000")
    /\ (w_fault w (w_ios w) <> NoFault ->
        d = "00000000000000000000000000000000")
    /\ (forall data,
          w_files w !! fn = Some data -> w_fault w (w_ios w) = NoFault ->
          d = md5hex data).
Proof.
  unfold md5File, ioutil_ReadFile, bind, ret.
  destruct (w_fault w (w_ios w)) eqn:Hfault;
    destruct (w_files w !! fn) as [data|] eqn:Hfile;
    eexists; (split; [reflexivity|]);
    repeat split; try congruence; intros; congruence.
Qed.

Lemma md5File_total_witness :
  fst (md5File "/usr/local/var/GeoIP/GeoLiteCity.dat" (Sample.world_of [] [] ∅))
  = Ret "00000000000000000000000000000000".
Proof.
  destruct (md5File_total "/usr/local/var/GeoIP/GeoLiteCity.dat"
              (Sample.world_of [] [] ∅)) as (d & Hrun & Hmissing & _).
  rewrite Hrun. simpl. f_equal. apply Hmissing. reflexivity.
Defined.

Lemma land_int63_range (x : Z) :
  0 <= Z.land x 0x7fffffffffffffff < 2 ^ 63.
Proof.
  change 0x7fffffffffffffff with (Z.ones 63).
  rewrite Z.land_ones by lia. apply Z.mod_pos_bound. lia.
Qed.

(** C10. With a positive bound [randInt64] returns a number in
    [0, max); with the bound zero it panics on the division, and so does
    [main] when the randomdelay flag is a non-empty string that parses to
    the zero duration. *)
Theorem randInt64_zero_panics `{GoLib} (fl : flags) (w : world) (bs : bytes)
    (max : Z) :
  w_entropy w = inr bs ->
  (0 < max -> exists r, randInt64 max w = (Ret r, w) /\ 0 <= r < max)
  /\ randInt64 0 w = (Panic "runtime error: integer divide by zero", w)
  /\ (randomDelay fl <> "" ->
      time_ParseDuration (randomDelay fl) = inr 0 ->
      main fl w = (Panic "runtime error: integer divide by zero", w)).
Proof.
  intros Hrand.
  assert (Hzero :
    randInt64 0 w = (Panic "runtime error: integer divide by zero", w)).
  { unfold randInt64, rand_Read, bind. rewrite Hrand. reflexivity. }
  split; [|split].
  - intros Hmax. unfold randInt64, rand_Read, bind. rewrite Hrand.
    cbv beta iota.
    destruct (Z.eqb_spec max 0) as [->|_]; [lia|].
    eexists. split; [reflexivity|].
    rewrite int64_wrap_small.
    + apply Z.rem_bound_pos; [apply land_int63_range | exact Hmax].
    + pose proof (land_int63_range
                    (BigEndian_Uint64 (take 8 (bs ++ repeat x00 8)))).
      lia.
  - exact Hzero.
  - intros Hset Hparse. unfold main, bind.
    apply String.eqb_neq in Hset. rewrite Hset. cbn [negb].
    rewrite Hparse, Hzero. reflexivity.
Qed.

Lemma randInt64_zero_panics_witness :
  fst (@main Sample.lib
         (Flags "updates.maxmind.com" "https" "/usr/local/var/GeoIP" "999999"
                "000000000000" true "506,533,517" "0s")
         (Sample.world_of [] [] ∅))
  = Panic "runtime error: integer divide by zero".
Proof.
  destruct (@randInt64_zero_panics Sample.lib
              (Flags "updates.maxmind.com" "https" "/usr/local/var/GeoIP"
                     "999999" "000000000000" true "506,533,517" "0s")
              (Sample.world_of [] [] ∅)
              [x01; x23; x45; x67; x89; xab; xcd; xef] 1 eq_refl)
    as (_ & _ & Hmain).
  rewrite Hmain; [reflexivity | discriminate | reflexivity].
Defined.

(** ** One turn of the loop *)

Lemma classify_NoUpdate (b : bytes) :
  classify b = NoUpdate <->
  HasPrefix b (bytes_of_string "No new updates available") = true.
Proof.
  unfold classify.
  destruct (HasPrefix b (bytes_of_string "No new updates available"));
    [tauto|].
  destruct (HasPrefix b [x1f; x8b]); split; discriminate.
Qed.

Lemma classify_GzipPayload (b : bytes) :
  classify b = GzipPayload <->
  HasPrefix b (bytes_of_string "No new updates available") = false
  /\ HasPrefix b [x1f; x8b] = true.
Proof.
  unfold classify.
  destruct (HasPrefix b (bytes_of_string "No new updates available"));
    destruct (HasPrefix b [x1f; x8b]); split;
    (discriminate || tauto || (intros [? ?]; discriminate)).
Qed.

Lemma classify_Malformed (b : bytes) :
  classify b = Malformed <->
  HasPrefix b (bytes_of_string "No new updates available") = false
  /\ HasPrefix b [x1f; x8b] = false.
Proof.
  unfold classify.
  destruct (HasPrefix b (bytes_of_string "No new updates available"));
    destruct (HasPrefix b [x1f; x8b]); split;
    (discriminate || tauto || (intros [? ?]; discriminate)).
Qed.

Lemma reply_body_inv (o : http_outcome) (b : bytes) :
  reply_body o = Some b ->
  exists res, o = GetResponds res (inr b) /\ isSuccess (StatusCode res) = true.
Proof.
  destruct o as [e|res [e|data]]; simpl; try discriminate.
  destruct (isSuccess (StatusCode res)) eqn:Hs; [|discriminate].
  intros [= ->]. eauto.
Qed.

Lemma length_pos_nonempty (l : bytes) :
  (Z.of_nat (length l) >? 0) = true <-> l <> [].
Proof.
  destruct l as [|x l].
  - simpl. split; [discriminate | congruence].
  - split; [discriminate|]. intros _.
    destruct (Z.gtb_spec (Z.of_nat (length (x :: l))) 0) as [_|Hle];
      [reflexivity|].
    simpl length in Hle. lia.
Qed.

Lemma length_pos_empty (l : bytes) :
  (Z.of_nat (length l) >? 0) = false <-> l = [].
Proof.
  destruct l as [|x l].
  - simpl. split; reflexivity.
  - split; [|discriminate]. intros Hf.
    rewrite (proj2 (length_pos_nonempty (x :: l))) in Hf by discriminate.
    discriminate.
Qed.

Section Turn.

Context `{GoLib}.
Variable fl : flags.
Variables productId filename challenge : string.

Local Abbreviation turn_of := (getProduct_turn fl productId filename challenge).
Local Abbreviation poll d := (poll_url fl productId challenge d).

Lemma updateSecure_reply d w b :
  reply_body (w_net w (w_sent w)) = Some b ->
  updateSecure fl d productId challenge w
  = (Ret (b, None), requested (poll d) w).
Proof.
  intros Hb. apply reply_body_inv in Hb as (res & Hnet & Hok).
  unfold updateSecure, bind.
  rewrite (download_body fl _ _ _ _ _ Hnet), Hok. reflexivity.
Qed.

Lemma turn_gzip st w b u :
  reply_body (w_net w (w_sent w)) = Some b ->
  classify b = GzipPayload ->
  0 <= attempts st < 5 ->
  gunzip b = inr u ->
  turn_of st w
  = (Ret (Continue (Session (attempts st + 1) u (md5hex u))),
     requested (poll (oldDigest st)) w).
Proof.
  intros Hb Hc Ha Hu. apply classify_GzipPayload in Hc as [Hn Hg].
  unfold getProduct_turn, bind.
  rewrite (updateSecure_reply _ _ _ Hb), Hn, Hg. cbn [negb].
  rewrite int64_wrap_small by lia.
  destruct (Z.gtb_spec (attempts st + 1) 5) as [?|_]; [lia|].
  unfold gunzip in Hu.
  destruct (gzip_NewReader b) as [e|gzr]; [discriminate|].
  rewrite Hu. reflexivity.
Qed.

Lemma turn_gunzip_fails st w b e :
  reply_body (w_net w (w_sent w)) = Some b ->
  classify b = GzipPayload ->
  0 <= attempts st < 5 ->
  gunzip b = inl e ->
  turn_of st w
  = (Ret (Return (Some (GzipError e))), requested (poll (oldDigest st)) w).
Proof.
  intros Hb Hc Ha Hu. apply classify_GzipPayload in Hc as [Hn Hg].
  unfold getProduct_turn, bind.
  rewrite (updateSecure_reply _ _ _ Hb), Hn, Hg. cbn [negb].
  rewrite int64_wrap_small by lia.
  destruct (Z.gtb_spec (attempts st + 1) 5) as [?|_]; [lia|].
  unfold gunzip in Hu.
  destruct (gzip_NewReader b) as [e'|gzr].
  - injection Hu as ->. reflexivity.
  - rewrite Hu. reflexivity.
Qed.

Lemma turn_too_many st w b :
  reply_body (w_net w (w_sent w)) = Some b ->
  classify b = GzipPayload ->
  attempts st = 5 ->
  turn_of st w
  = (Ret (Return (Some (errors_New "Too many attempts at downloading file"))),
     requested (poll (oldDigest st)) w).
Proof.
  intros Hb Hc Ha. apply classify_GzipPayload in Hc as [Hn Hg].
  unfold getProduct_turn, bind.
  rewrite (updateSecure_reply _ _ _ Hb), Hn, Hg, Ha. reflexivity.
Qed.

Lemma turn_malformed st w b :
  reply_body (w_net w (w_sent w)) = Some b ->
  classify b = Malformed ->
  turn_of st w
  = (Ret (Return (Some (errors_New "Not a gzip file"))),
     requested (poll (oldDigest st)) w).
Proof.
  intros Hb Hc. apply classify_Malformed in Hc as [Hn Hg].
  unfold getProduct_turn, bind.
  rewrite (updateSecure_reply _ _ _ Hb), Hn, Hg. reflexivity.
Qed.

Lemma turn_no_update_break st w b :
  reply_body (w_net w (w_sent w)) = Some b ->
  classify b = NoUpdate ->
  uncompressed st <> [] ->
  turn_of st w
  = (Ret Break,
     emit (EvLog (LogUpdateRetrieved filename))
       (requested (poll (oldDigest st)) w)).
Proof.
  intros Hb Hc Hu. apply classify_NoUpdate in Hc.
  apply length_pos_nonempty in Hu.
  unfold getProduct_turn, bind.
  rewrite (updateSecure_reply _ _ _ Hb), Hc, Hu. reflexivity.
Qed.

Lemma turn_no_update_noop st w b :
  reply_body (w_net w (w_sent w)) = Some b ->
  classify b = NoUpdate ->
  uncompressed st = [] ->
  turn_of st w
  = (Ret (Return None),
     emit (EvLog (LogNoNewUpdates filename))
       (requested (poll (oldDigest st)) w)).
Proof.
  intros Hb Hc Hu. apply classify_NoUpdate in Hc.
  apply length_pos_empty in Hu.
  unfold getProduct_turn, bind.
  rewrite (updateSecure_reply _ _ _ Hb), Hc, Hu. reflexivity.
Qed.

End Turn.

(** ** The loop and the session *)

Section Session.

Context `{GoLib}.
Variable fl : flags.

Lemma md5File_local_digest fn w :
  md5File fn w = (Ret (local_digest fn w), io_one (emit (EvReadFile fn) w)).
Proof.
  unfold md5File, ioutil_ReadFile, local_digest, bind, ret.
  destruct (w_fault w (w_ios w)); destruct (w_files w !! fn); reflexivity.
Qed.

Lemma getProduct_loop_S fuel p fn ch st w :
  getProduct_loop fl (S fuel) p fn ch st w
  = match getProduct_turn fl p fn ch st w with
    | (Ret (Continue st'), w') => getProduct_loop fl fuel p fn ch st' w'
    | (Ret Break, w') => (Ret (inr st), w')
    | (Ret (Return e), w') => (Ret (inl e), w')
    | (Exit m, w') => (Exit m, w')
    | (Panic m, w') => (Panic m, w')
    | (NoFuel, w') => (NoFuel, w')
    end.
Proof.
  simpl. unfold bind.
  destruct (getProduct_turn fl p fn ch st w) as [[[st'| |e]|m|m|] w'];
    reflexivity.
Qed.

(** [getProduct] once the file name has arrived. *)
Lemma getProduct_session p w b0 :
  reply_body (w_net w (w_sent w)) = Some b0 ->
  getProduct fl p w
  = match
      getProduct_loop fl 6 p (session_filename b0) (session_challenge fl w)
        (Session 0 [] (local_digest (session_filePath fl b0) w))
        (session_world fl p b0 w)
    with
    | (Ret (inl e), w') => (Ret e, w')
    | (Ret (inr st), w') =>
        publish (session_filePath fl b0) (uncompressed st) w'
    | (Exit m, w') => (Exit m, w')
    | (Panic m, w') => (Panic m, w')
    | (NoFuel, w') => (NoFuel, w')
    end.
Proof.
  intros Hb. apply reply_body_inv in Hb as (res & Hnet & Hok).
  unfold getProduct. unfold bind at 1.
  rewrite (download_body fl _ _ _ _ _ Hnet), Hok. cbn [negb].
  unfold bind at 1. unfold log_Printf at 1.
  unfold bind at 1. rewrite md5File_local_digest.
  unfold bind at 1. unfold read_clientIp. unfold bind at 1.
  fold (session_filename b0). fold (session_filePath fl b0).
  change (getProduct_loop fl 6 p (session_filename b0) _ _ _)
    with (getProduct_loop fl 6 p (session_filename b0)
            (session_challenge fl w)
            (Session 0 [] (local_digest (session_filePath fl b0) w))
            (session_world fl p b0 w)).
  destruct (getProduct_loop fl 6 p (session_filename b0)
              (session_challenge fl w)
              (Session 0 [] (local_digest (session_filePath fl b0) w))
              (session_world fl p b0 w)) as [[[e|st]|m|m|] w'];
    reflexivity.
Qed.

End Session.

(** Projections of a world built by the primitives, without unfolding
    the world itself. *)
Ltac world_simpl :=
  cbn [session_world requested advance emit sent_one io_one with_files
       with_links with_clientIp w_net w_sent w_fault w_ios w_files w_links
       w_entropy w_clientIp w_trace attempts uncompressed oldDigest
       fst snd ret] in *.

(** ** The temporary file and the rename *)

Lemma tmp_path_differs (fp : string) : fp +:+ ".tmp" <> fp.
Proof.
  induction fp as [|c fp IH]; simpl; [discriminate|].
  intros [= Heq]. exact (IH Heq).
Qed.

Lemma ioutil_WriteFile_other fn data w other :
  other <> fn ->
  w_files (snd (ioutil_WriteFile fn data w)) !! other = w_files w !! other.
Proof.
  intros Hne. unfold ioutil_WriteFile.
  destruct (w_fault w (w_ios w)); simpl; try reflexivity;
    rewrite lookup_insert_ne; congruence.
Qed.

(** The four ways [publish] can go, by what the two file-system calls
    meet. *)
Lemma publish_cases fp data w :
  let tmp := fp +:+ ".tmp" in
  let w1 := io_one (emit (EvWriteFile tmp data) w) in
  (w_fault w (w_ios w) = Fault
   /\ publish fp data w = (Ret (Some (PathError "open" tmp)), w1))
  \/ (exists n,
        w_fault w (w_ios w) = FaultAfter n
        /\ publish fp data w
           = (Ret (Some (PathError "write" tmp)),
              with_files (<[tmp := take n data]> (w_files w)) w1))
  \/ (w_fault w (w_ios w) = NoFault
      /\ w_fault w (S (w_ios w)) <> NoFault
      /\ publish fp data w
         = (Ret (Some (LinkError "rename" tmp fp)),
            io_one (emit (EvRename tmp fp)
                      (with_files (<[tmp := data]> (w_files w)) w1))))
  \/ (w_fault w (w_ios w) = NoFault
      /\ w_fault w (S (w_ios w)) = NoFault
      /\ publish fp data w
         = (Ret None,
            with_files
              (<[fp := data]> (delete tmp (<[tmp := data]> (w_files w))))
              (io_one (emit (EvRename tmp fp)
                         (with_files (<[tmp := data]> (w_files w)) w1))))).
Proof.
  intros tmp w1. unfold publish, bind. fold tmp.
  unfold ioutil_WriteFile. fold w1.
  destruct (w_fault w (w_ios w)) as [| |n] eqn:Hwrite.
  - right. right. unfold os_Rename. subst w1. world_simpl.
    rewrite lookup_insert_eq.
    destruct (w_fault w (S (w_ios w))) eqn:Hrename.
    + right. repeat split; reflexivity.
    + left. repeat split; try reflexivity. discriminate.
    + left. repeat split; try reflexivity. discriminate.
  - left. split; reflexivity.
  - right. left. exists n. split; reflexivity.
Qed.

(** C3. When the loop of [getProduct] is left through [break],
    [getProduct] writes the payload to the file path with ".tmp" appended
    and renames that file onto the file path.  The write never touches
    the file path itself.  If the write or the rename fails, [getProduct]
    returns an IOError and the file at the file path is as it was; when
    both succeed it holds the whole payload. *)
Theorem publish_atomic `{GoLib} (fl : flags) (p : string) (w : world)
    (b0 : bytes) (st : session) (w1 : world) :
  reply_body (w_net w (w_sent w)) = Some b0 ->
  getProduct_loop fl 6 p (session_filename b0) (session_challenge fl w)
    (Session 0 [] (local_digest (session_filePath fl b0) w))
    (session_world fl p b0 w)
  = (Ret (inr st), w1) ->
  let fp := session_filePath fl b0 in
  let tmp := fp +:+ ".tmp" in
  let data := uncompressed st in
  exists e w',
    getProduct fl p w = (Ret e, w')
    /\ w_files (snd (ioutil_WriteFile tmp data w1)) !! fp = w_files w1 !! fp
    /\ (w_trace w' = w_trace w1 ++ [EvWriteFile tmp data]
        \/ w_trace w' = w_trace w1 ++ [EvWriteFile tmp data; EvRename tmp fp])
    /\ match e with
       | None =>
           w_fault w1 (w_ios w1) = NoFault
           /\ w_fault w1 (S (w_ios w1)) = NoFault
           /\ w_files w' !! fp = Some data
           /\ w_files w' !! tmp = None
           /\ w_trace w'
              = w_trace w1 ++ [EvWriteFile tmp data; EvRename tmp fp]
       | Some er =>
           class_of er = IOError
           /\ w_files w' !! fp = w_files w1 !! fp
           /\ (w_fault w1 (w_ios w1) <> NoFault
               \/ w_fault w1 (S (w_ios w1)) <> NoFault)
       end.
Proof.
  intros Hb Hloop fp tmp data.
  rewrite (getProduct_session fl p w b0 Hb), Hloop.
  fold fp. fold data.
  pose proof (tmp_path_differs fp) as Htmp. fold tmp in Htmp.
  assert (Hfirst :
    w_files (snd (ioutil_WriteFile tmp data w1)) !! fp = w_files w1 !! fp).
  { apply ioutil_WriteFile_other. congruence. }
  destruct (publish_cases fp data w1)
    as [[Hf ->]|[(n & Hf & ->)|[(Hf1 & Hf2 & ->)|(Hf1 & Hf2 & ->)]]];
    fold tmp; do 2 eexists; (split; [reflexivity|]);
    (split; [exact Hfirst|]).
  - split; [left; world_simpl; reflexivity|].
    split; [reflexivity|]. split; [reflexivity|]. left. congruence.
  - split; [left; world_simpl; reflexivity|].
    split; [reflexivity|].
    split; [world_simpl; rewrite lookup_insert_ne; congruence|].
    left. congruence.
  - split; [right; world_simpl; rewrite <- app_assoc; reflexivity|].
    split; [reflexivity|].
    split; [world_simpl; rewrite lookup_insert_ne; congruence|].
    right. exact Hf2.
  - split; [right; world_simpl; rewrite <- app_assoc; reflexivity|].
    split; [exact Hf1|]. split; [exact Hf2|].
    split; [world_simpl; apply lookup_insert_eq|].
    split.
    + world_simpl. rewrite lookup_insert_ne by congruence.
      apply lookup_delete_eq.
    + world_simpl. rewrite <- app_assoc. reflexivity.
Qed.

Lemma publish_atomic_witness :
  exists e w',
    @getProduct Sample.lib default_flags "506"
      (Sample.world_of
         [Sample.ok (bytes_of_string "GeoLiteCity.dat");
          Sample.ok Sample.gz_AAA; Sample.ok Sample.no_update]
         [NoFault; NoFault; Fault]
         {["/usr/local/var/GeoIP/GeoLiteCity.dat" := bytes_of_string "old"]})
    = (Ret (Some e), w')
    /\ w_files w' !! "/usr/local/var/GeoIP/GeoLiteCity.dat"
       = Some (bytes_of_string "old").
Proof.
  pose (W := Sample.world_of
         [Sample.ok (bytes_of_string "GeoLiteCity.dat");
          Sample.ok Sample.gz_AAA; Sample.ok Sample.no_update]
         [NoFault; NoFault; Fault]
         {["/usr/local/var/GeoIP/GeoLiteCity.dat" := bytes_of_string "old"]}).
  pose (b0 := bytes_of_string "GeoLiteCity.dat").
  pose (run := @getProduct_loop Sample.lib default_flags 6 "506"
                 (@session_filename Sample.lib b0)
                 (session_challenge default_flags W)
                 (Session 0 []
                    (local_digest (@session_filePath Sample.lib default_flags b0) W))
                 (@session_world Sample.lib default_flags "506" b0 W)).
  destruct (@publish_atomic Sample.lib default_flags "506" W b0
              (Session 1 (bytes_of_string "AAA")
                 (md5hex (bytes_of_string "AAA")))
              (snd run))
    as (e & w' & Hrun & _ & _ & Hcase).
  - reflexivity.
  - vm_compute. reflexivity.
  - fold W. rewrite Hrun. destruct e as [er|].
    + exists er, w'. split; [reflexivity|].
      destruct Hcase as (_ & Hfile & _).
      etransitivity; [exact Hfile|]. vm_compute. reflexivity.
    + destruct Hcase as (_ & Hrename & _).
      vm_compute in Hrename. discriminate.
Defined.

(** ** What a trace shows *)

Lemma poll_digest_poll fl p ch d :
  poll_digest (EvGet (poll_url fl p ch d)) = Some d.
Proof. unfold poll_digest, poll_url. simpl. apply lookup_insert_eq. Qed.

Lemma attempted_product_filename fl p :
  attempted_product (EvGet (filename_url fl p)) = Some p.
Proof.
  unfold attempted_product, filename_url. simpl. apply lookup_singleton_eq.
Qed.

(** C2. When the replies to the polls are a gzip payload, a second gzip
    payload and then the no-update text, [getProduct] returns after
    exactly three polls, which carry the digest of the local file, of the
    first payload and of the second payload; whatever it writes is the
    second payload alone, to the temporary path; the file path ends up
    holding the second payload or what it held before; and when that
    payload is not empty and the write and the rename meet no fault, the
    loop is left with [attempts] at 2 and the file path holds exactly the
    second payload. *)
Theorem second_payload_published `{GoLib} (fl : flags) (p : string)
    (w : world) (b0 b1 b2 b3 u1 u2 : bytes) :
  served (w_net w) (w_sent w) [b0; b1; b2; b3] ->
  classify b1 = GzipPayload -> gunzip b1 = inr u1 ->
  classify b2 = GzipPayload -> gunzip b2 = inr u2 ->
  classify b3 = NoUpdate ->
  let fp := session_filePath fl b0 in
  let tmp := fp +:+ ".tmp" in
  exists r w' t,
    getProduct fl p w = (Ret r, w')
    /\ w_trace w' = w_trace w ++ t
    /\ poll_digests t = [local_digest fp w; md5hex u1; md5hex u2]
    /\ (forall fn d, In (EvWriteFile fn d) t -> fn = tmp /\ d = u2)
    /\ (w_files w' !! fp = Some u2 \/ w_files w' !! fp = w_files w !! fp)
    /\ (u2 <> [] ->
        w_fault w (S (w_ios w)) = NoFault ->
        w_fault w (S (S (w_ios w))) = NoFault ->
        r = None
        /\ w_files w' !! fp = Some u2
        /\ exists w1,
            getProduct_loop fl 6 p (session_filename b0)
              (session_challenge fl w) (Session 0 [] (local_digest fp w))
              (session_world fl p b0 w)
            = (Ret (inr (Session 2 u2 (md5hex u2))), w1)).
Proof.
  intros (H0 & H1 & H2 & H3 & _) Hc1 Hu1 Hc2 Hu2 Hc3 fp tmp.
  pose proof (tmp_path_differs fp) as Htmp. fold tmp in Htmp.
  assert (Hdigests : forall d0 d1 d2 rest,
    omap poll_digest rest = [] ->
    poll_digests
      ([EvGet (filename_url fl p);
        EvLog (LogAttempting (session_filename b0));
        EvReadFile fp;
        EvGet (poll_url fl p (session_challenge fl w) d0);
        EvGet (poll_url fl p (session_challenge fl w) d1);
        EvGet (poll_url fl p (session_challenge fl w) d2)] ++ rest)
    = [d0; d1; d2]).
  { intros d0 d1 d2 rest Hrest. unfold poll_digests.
    rewrite omap_app, Hrest. cbn [omap list_omap].
    rewrite !poll_digest_poll. reflexivity. }
  rewrite (getProduct_session fl p w b0 H0). fold fp.
  rewrite getProduct_loop_S.
  erewrite turn_gzip;
    [|world_simpl; eassumption|assumption|simpl; lia|eassumption].
  rewrite getProduct_loop_S.
  erewrite turn_gzip;
    [|world_simpl; eassumption|assumption|simpl; lia|eassumption].
  rewrite getProduct_loop_S.
  cbn [attempts uncompressed oldDigest]. change (0 + 1 + 1) with 2.
  destruct (list_eq_nil_dec u2) as [Hempty|Hfull].
  - erewrite turn_no_update_noop;
      [|world_simpl; eassumption|assumption|exact Hempty].
    do 3 eexists. split; [reflexivity|].
    split; [world_simpl; rewrite <- !app_assoc; reflexivity|].
    split; [apply (Hdigests _ _ _ [_]); reflexivity|].
    split; [simpl; intros fn d Hin; decompose [or] Hin; discriminate || tauto|].
    split; [right; reflexivity|].
    intros Hne. contradiction.
  - erewrite turn_no_update_break;
      [|world_simpl; eassumption|assumption|exact Hfull].
    match goal with
    | |- context [publish fp ?d ?w1] =>
        destruct (publish_cases fp d w1)
          as [[Hf ->]|[(n & Hf & ->)|[(Hf1 & Hf2 & ->)|(Hf1 & Hf2 & ->)]]]
    end; fold tmp; cbn [uncompressed]; do 3 eexists;
      (split; [reflexivity|]);
      (split; [world_simpl; rewrite <- !app_assoc; reflexivity|]).
    + split; [apply (Hdigests _ _ _ [_; _]); reflexivity|].
      split; [simpl; intros fn d Hin; decompose [or] Hin;
              try discriminate; try tauto;
              match goal with E : EvWriteFile _ _ = _ |- _ =>
                injection E as <- <-; split; reflexivity end|].
      split; [right; reflexivity|].
      intros _ Hw _. world_simpl. congruence.
    + split; [apply (Hdigests _ _ _ [_; _]); reflexivity|].
      split; [simpl; intros fn d Hin; decompose [or] Hin;
              try discriminate; try tauto;
              match goal with E : EvWriteFile _ _ = _ |- _ =>
                injection E as <- <-; split; reflexivity end|].
      split; [right; world_simpl; rewrite lookup_insert_ne; congruence|].
      intros _ Hw _. world_simpl. congruence.
    + split; [apply (Hdigests _ _ _ [_; _; _]); reflexivity|].
      split; [simpl; intros fn d Hin; decompose [or] Hin;
              try discriminate; try tauto;
              match goal with E : EvWriteFile _ _ = _ |- _ =>
                injection E as <- <-; split; reflexivity end|].
      split; [right; world_simpl; rewrite lookup_insert_ne; congruence|].
      intros _ _ Hr. world_simpl. congruence.
    + split; [apply (Hdigests _ _ _ [_; _; _]); reflexivity|].
      split; [simpl; intros fn d Hin; decompose [or] Hin;
              try discriminate; try tauto;
              match goal with E : EvWriteFile _ _ = _ |- _ =>
                injection E as <- <-; split; reflexivity end|].
      split; [left; world_simpl; apply lookup_insert_eq|].
      intros _ _ _. split; [reflexivity|].
      split; [world_simpl; apply lookup_insert_eq|].
      eexists. reflexivity.
Qed.

Lemma second_payload_published_witness :
  exists w',
    @getProduct Sample.lib default_flags "506"
      (Sample.world_of
         [Sample.ok (bytes_of_string "GeoLiteCity.dat");
          Sample.ok Sample.gz_AAA; Sample.ok Sample.gz_BBBB;
          Sample.ok Sample.no_update] [] ∅)
    = (Ret None, w')
    /\ w_files w' !! "/usr/local/var/GeoIP/GeoLiteCity.dat"
       = Some (bytes_of_string "BBBB")
    /\ poll_digests (w_trace w')
       = ["00000000000000000000000000000000";
          md5hex (bytes_of_string "AAA"); md5hex (bytes_of_string "BBBB")].
Proof.
  destruct (@second_payload_published Sample.lib default_flags "506"
              (Sample.world_of
                 [Sample.ok (bytes_of_string "GeoLiteCity.dat");
                  Sample.ok Sample.gz_AAA; Sample.ok Sample.gz_BBBB;
                  Sample.ok Sample.no_update] [] ∅)
              (bytes_of_string "GeoLiteCity.dat") Sample.gz_AAA
              Sample.gz_BBBB Sample.no_update
              (bytes_of_string "AAA") (bytes_of_string "BBBB"))
    as (r & w' & t & Hrun & Htrace & Hpolls & _ & _ & Hok).
  - simpl. repeat split; reflexivity.
  - reflexivity.
  - vm_compute. reflexivity.
  - reflexivity.
  - vm_compute. reflexivity.
  - reflexivity.
  - destruct Hok as (-> & Hfile & _);
      [discriminate | reflexivity | reflexivity |].
    exists w'. split; [exact Hrun|]. split; [exact Hfile|].
    rewrite Htrace. exact Hpolls.
Defined.

(** ** The loop in general *)

Lemma advance_advance n1 t1 n2 t2 w :
  advance n2 t2 (advance n1 t1 w) = advance (n2 + n1) (t1 ++ t2) w.
Proof.
  unfold advance. simpl. rewrite <- app_assoc, Nat.add_assoc. reflexivity.
Qed.

Lemma requested_advance u w : requested u w = advance 1 [EvGet u] w.
Proof. reflexivity. Qed.

Lemma emit_advance e w : emit e w = advance 0 [e] w.
Proof. reflexivity. Qed.

Lemma Forall_polling_logs (logs : list logmsg) :
  Forall (fun e => polling e = true) (map EvLog logs).
Proof. induction logs; simpl; constructor; auto. Qed.

Section Loop.

Context `{GoLib}.
Variable fl : flags.
Variables productId filename challenge : string.

Local Abbreviation turn_of := (getProduct_turn fl productId filename challenge).
Local Abbreviation loop_of fuel :=
  (getProduct_loop fl fuel productId filename challenge).
Local Abbreviation poll d := (poll_url fl productId challenge d).

(** [updateSecure] makes one request and logs at most one line. *)
Lemma updateSecure_frame d w :
  exists logs,
    snd (updateSecure fl d productId challenge w)
    = advance 1 (EvGet (poll d) :: map EvLog logs) w
    /\ match fst (updateSecure fl d productId challenge w) with
       | Ret (data, None) => reply_body (w_net w (w_sent w)) = Some data
       | Ret (_, Some _) => True
       | Exit _ => sends (w_net w (w_sent w)) = false
       | Panic _ | NoFuel => False
       end.
Proof.
  unfold updateSecure, bind.
  destruct (w_net w (w_sent w)) as [e|res [e|data]] eqn:Hnet.
  - exists []. rewrite (download_fails fl _ _ _ _ Hnet). split; reflexivity.
  - exists [LogDownloadError (poll d) e].
    rewrite (download_truncated fl _ _ _ _ _ Hnet).
    rewrite emit_advance, requested_advance, advance_advance.
    destruct (isSuccess (StatusCode res)); split; reflexivity || exact I.
  - exists []. rewrite (download_body fl _ _ _ _ _ Hnet).
    simpl reply_body.
    destruct (isSuccess (StatusCode res)); split; reflexivity || exact I.
Qed.

(** What every turn does: one poll carrying the digest held, at most one
    log line, and nothing else. *)
Lemma turn_frame st w :
  0 <= attempts st <= 5 ->
  exists logs,
    snd (turn_of st w)
    = advance 1 (EvGet (poll (oldDigest st)) :: map EvLog logs) w
    /\ match fst (turn_of st w) with
       | Ret (Continue st') =>
           exists b u,
             reply_body (w_net w (w_sent w)) = Some b
             /\ payload b u
             /\ st' = Session (attempts st + 1) u (md5hex u)
             /\ attempts st < 5
       | Ret Break =>
           uncompressed st <> []
           /\ exists b,
               reply_body (w_net w (w_sent w)) = Some b
               /\ classify b = NoUpdate
       | Ret (Return _) => True
       | Exit _ => sends (w_net w (w_sent w)) = false
       | Panic _ | NoFuel => False
       end.
Proof.
  intros Ha.
  destruct (updateSecure_frame (oldDigest st) w) as (logs & Hw & Hres).
  destruct (updateSecure fl (oldDigest st) productId challenge w)
    as [[[data [e|]]|m|m|] w'] eqn:Hus; simpl in Hw, Hres;
    try contradiction.
  - exists logs. unfold getProduct_turn, bind. rewrite Hus.
    split; [exact Hw|exact I].
  - rename Hres into Hb. clear Hus Hw logs w'.
    destruct (classify data) eqn:Hc.
    + destruct (list_eq_nil_dec (uncompressed st)) as [Hu|Hu].
      * exists [LogNoNewUpdates filename].
        rewrite (turn_no_update_noop fl _ _ _ _ _ _ Hb Hc Hu).
        rewrite emit_advance, requested_advance, advance_advance.
        split; [reflexivity|exact I].
      * exists [LogUpdateRetrieved filename].
        rewrite (turn_no_update_break fl _ _ _ _ _ _ Hb Hc Hu).
        rewrite emit_advance, requested_advance, advance_advance.
        split; [reflexivity|]. split; [exact Hu|]. eauto.
    + exists [].
      destruct (Z.eq_dec (attempts st) 5) as [H5|H5].
      * rewrite (turn_too_many fl _ _ _ _ _ _ Hb Hc H5).
        split; [reflexivity|exact I].
      * destruct (gunzip data) as [e|u] eqn:Hu.
        -- rewrite (turn_gunzip_fails fl _ _ _ _ _ _ e Hb Hc)
             by (lia || assumption).
           split; [reflexivity|exact I].
        -- rewrite (turn_gzip fl _ _ _ _ _ _ u Hb Hc) by (lia || assumption).
           split; [reflexivity|].
           exists data, u. repeat split; try assumption. lia.
    + exists []. rewrite (turn_malformed fl _ _ _ _ _ _ Hb Hc).
      split; [reflexivity|exact I].
  - exists logs. unfold getProduct_turn, bind. rewrite Hus.
    split; [exact Hw|exact Hres].
Qed.

(** The fuel the loop is given does not matter once it covers the turns
    that are left. *)
Lemma getProduct_loop_fuel fuel fuel' st w :
  0 <= attempts st <= 5 ->
  6 - attempts st <= Z.of_nat fuel ->
  6 - attempts st <= Z.of_nat fuel' ->
  loop_of fuel st w = loop_of fuel' st w.
Proof.
  revert fuel' st w.
  induction fuel as [|fuel IH]; intros fuel' st w Ha Hfuel Hfuel'; [lia|].
  destruct fuel' as [|fuel']; [lia|].
  rewrite !getProduct_loop_S.
  destruct (turn_frame st w Ha) as (logs & _ & Hturn).
  destruct (turn_of st w) as [[[st'| |e]|m|m|] w']; try reflexivity.
  simpl in Hturn. destruct Hturn as (b & u & _ & _ & -> & Hlt).
  apply IH; simpl; lia.
Qed.

Lemma poll_digests_turn d logs t :
  poll_digests ((EvGet (poll d) :: map EvLog logs) ++ t)
  = d :: poll_digests t.
Proof.
  unfold poll_digests.
  change (omap poll_digest ((EvGet (poll d) :: map EvLog logs) ++ t))
    with (match poll_digest (EvGet (poll d)) with
          | Some y => y :: omap poll_digest (map EvLog logs ++ t)
          | None => omap poll_digest (map EvLog logs ++ t)
          end).
  rewrite poll_digest_poll, omap_app.
  replace (omap poll_digest (map EvLog logs)) with (@nil string);
    [reflexivity|].
  induction logs; simpl; auto.
Qed.

(** The loop only polls and logs, it polls at most [6 - attempts] times,
    it always comes to an end, and it is left through [break] only with a
    payload in hand.  Its first poll carries the digest it was entered
    with, and every later poll the digest of the payload that the reply
    to the poll before it decompressed to. *)
Lemma loop_frame fuel st w :
  0 <= attempts st <= 5 ->
  6 - attempts st <= Z.of_nat fuel ->
  exists n t,
    snd (loop_of fuel st w) = advance n t w
    /\ Forall (fun e => polling e = true) t
    /\ (1 <= n)%nat
    /\ Z.of_nat n <= 6 - attempts st
    /\ (forall i d,
          poll_digests t !! i = Some d ->
          match i with
          | O => d = oldDigest st
          | S j =>
              exists b u,
                reply_body (w_net w (j + w_sent w)) = Some b
                /\ payload b u
                /\ d = md5hex u
          end)
    /\ match fst (loop_of fuel st w) with
       | Ret (inl _) => True
       | Ret (inr st') => uncompressed st' <> [] /\ 0 <= attempts st' <= 5
       | Exit _ =>
           exists k,
             (w_sent w <= k < n + w_sent w)%nat /\ sends (w_net w k) = false
       | Panic _ | NoFuel => False
       end.
Proof.
  revert st w.
  induction fuel as [|fuel IH]; intros st w Ha Hfuel; [lia|].
  rewrite getProduct_loop_S.
  destruct (turn_frame st w Ha) as (logs & Hw & Hturn).
  pose proof (Forall_polling_logs logs) as Hlogs.
  assert (Hlast : forall i d,
    poll_digests (EvGet (poll (oldDigest st)) :: map EvLog logs) !! i = Some d ->
    match i with
    | O => d = oldDigest st
    | S j =>
        exists b u,
          reply_body (w_net w (j + w_sent w)) = Some b
          /\ payload b u /\ d = md5hex u
    end).
  { intros i d. rewrite <- (app_nil_r (_ :: map EvLog logs)).
    rewrite poll_digests_turn. destruct i as [|j]; simpl.
    - congruence.
    - discriminate. }
  destruct (turn_of st w) as [[[st'| |e]|m|m|] w'];
    simpl in Hw, Hturn; subst w'.
  - destruct Hturn as (b & u & Hb & Hpay & -> & Hlt).
    destruct (IH (Session (attempts st + 1) u (md5hex u))
                (advance 1 (EvGet (poll (oldDigest st)) :: map EvLog logs) w))
      as (n & t & Hw & Ht & Hn1 & Hn & Hdig & Hres); [simpl; lia|simpl; lia|].
    exists (n + 1)%nat, ((EvGet (poll (oldDigest st)) :: map EvLog logs) ++ t).
    rewrite Hw, advance_advance.
    split; [reflexivity|].
    split; [apply Forall_app; split;
            [constructor; [reflexivity|exact Hlogs]|exact Ht]|].
    split; [lia|]. split; [simpl in Hn; lia|].
    split.
    + intros i d. rewrite poll_digests_turn.
      destruct i as [|j]; simpl; [congruence|].
      intros Hj. specialize (Hdig j d Hj).
      destruct j as [|j'].
      * simpl in Hdig. subst d. exists b, u. auto.
      * destruct Hdig as (b' & u' & Hb' & Hpay' & ->).
        exists b', u'. split; [|auto].
        world_simpl.
        replace (S j' + w_sent w)%nat with (j' + S (w_sent w))%nat by lia.
        exact Hb'.
    + destruct (fst (loop_of fuel _ _)) as [[e|st']|m|m|]; try exact Hres.
      destruct Hres as (k & Hk & Hsend). simpl in Hk, Hsend.
      exists k. split; [lia|exact Hsend].
  - exists 1%nat, (EvGet (poll (oldDigest st)) :: map EvLog logs).
    split; [reflexivity|]. split; [constructor; [reflexivity|exact Hlogs]|].
    split; [lia|]. split; [lia|]. split; [exact Hlast|].
    simpl. split; [tauto|lia].
  - exists 1%nat, (EvGet (poll (oldDigest st)) :: map EvLog logs).
    split; [reflexivity|]. split; [constructor; [reflexivity|exact Hlogs]|].
    split; [lia|]. split; [lia|]. split; [exact Hlast|]. exact I.
  - exists 1%nat, (EvGet (poll (oldDigest st)) :: map EvLog logs).
    split; [reflexivity|]. split; [constructor; [reflexivity|exact Hlogs]|].
    split; [lia|]. split; [lia|]. split; [exact Hlast|].
    simpl. exists (w_sent w). split; [lia|exact Hturn].
  - contradiction.
  - contradiction.
Qed.

(** The rounds that decompress [us] one after the other. *)
Lemma loop_rounds bs us fuel st w :
  Forall2 payload bs us ->
  served (w_net w) (w_sent w) bs ->
  0 <= attempts st ->
  attempts st + Z.of_nat (length bs) <= 5 ->
  loop_of (length bs + fuel) st w
  = loop_of fuel (round_state st us)
      (advance (length bs) (round_polls fl productId challenge (oldDigest st) us) w).
Proof.
  intros Hpay. revert fuel st w.
  induction Hpay as [|b u bs us [Hc Hu] Hpay IH]; intros fuel st w Hs Ha Hlen.
  - simpl. unfold advance. simpl. rewrite app_nil_r. destruct w; reflexivity.
  - destruct Hs as [Hb Hs]. simpl length in *.
    change (S (length bs) + fuel)%nat with (S (length bs + fuel)).
    rewrite getProduct_loop_S.
    rewrite (turn_gzip fl _ _ _ _ _ _ u Hb Hc) by (lia || done).
    rewrite IH; [|exact Hs|simpl; lia|simpl; lia].
    rewrite requested_advance, advance_advance. simpl.
    rewrite Nat.add_1_r. reflexivity.
Qed.

End Loop.

(** ** Sessions of several rounds *)

Lemma served_app net k l1 l2 :
  served net k (l1 ++ l2)
  <-> served net k l1 /\ served net (length l1 + k) l2.
Proof.
  revert k. induction l1 as [|b l1 IH]; intros k; simpl.
  - tauto.
  - rewrite IH. replace (length l1 + S k)%nat with (S (length l1 + k)) by lia.
    tauto.
Qed.

Lemma round_state_attempts st us :
  attempts (round_state st us) = attempts st + Z.of_nat (length us).
Proof.
  unfold round_state. revert st.
  induction us as [|u us IH]; intros st; simpl fold_left.
  - simpl. lia.
  - rewrite IH. simpl attempts. simpl length. lia.
Qed.

Lemma round_polls_polling fl p ch d us :
  Forall (fun e => polling e = true) (round_polls fl p ch d us).
Proof.
  revert d. induction us as [|u us IH]; intros d; simpl; constructor; auto.
Qed.

Lemma round_polls_digests fl p ch d us :
  length (poll_digests (round_polls fl p ch d us)) = length us.
Proof.
  revert d. induction us as [|u us IH]; intros d; [reflexivity|].
  change (round_polls fl p ch d (u :: us))
    with ((EvGet (poll_url fl p ch d) :: map EvLog [])
            ++ round_polls fl p ch (md5hex u) us).
  rewrite poll_digests_turn. simpl. rewrite IH. reflexivity.
Qed.

Lemma polling_no_write e : polling e = true -> writes e = false.
Proof. destruct e; simpl; congruence. Qed.

Lemma polling_not_attempted e :
  polling e = true -> attempted_product e = None.
Proof.
  destruct e as [u| | | | | |]; simpl; try congruence.
  intros Hp. apply String.eqb_eq in Hp. rewrite Hp. reflexivity.
Qed.

Lemma Forall_polling_no_write t :
  Forall (fun e => polling e = true) t -> Forall (fun e => writes e = false) t.
Proof.
  intros Ht. eapply Forall_impl; [exact Ht|]. exact polling_no_write.
Qed.

(** C5. Whatever round the session is in, a reply that starts neither
    with the no-update text nor with the gzip magic bytes makes
    [getProduct] return the error "Not a gzip file", a ProtocolError, and
    nothing has been written or renamed: the files are as they were. *)
Theorem malformed_reply_rejected `{GoLib} (fl : flags) (p : string)
    (w : world) (b0 : bytes) (bs us : list bytes) (bad : bytes) :
  Forall2 payload bs us ->
  (length bs <= 5)%nat ->
  classify bad = Malformed ->
  served (w_net w) (w_sent w) (b0 :: bs ++ [bad]) ->
  exists w' t,
    getProduct fl p w = (Ret (Some (errors_New "Not a gzip file")), w')
    /\ class_of (errors_New "Not a gzip file") = ProtocolError
    /\ w_files w' = w_files w
    /\ w_trace w' = w_trace w ++ t
    /\ Forall (fun e => writes e = false) t.
Proof.
  intros Hpay Hlen Hbad [H0 Hs].
  apply served_app in Hs as [Hbs [Hlast _]].
  rewrite (getProduct_session fl p w b0 H0).
  replace 6%nat with (length bs + S (5 - length bs))%nat by lia.
  rewrite (loop_rounds fl _ _ _ bs us _ _ _ Hpay);
    [|world_simpl; exact Hbs|simpl; lia|simpl; lia].
  rewrite getProduct_loop_S.
  rewrite (turn_malformed fl _ _ _ _ _ bad);
    [|world_simpl; exact Hlast|exact Hbad].
  do 2 eexists. split; [reflexivity|]. split; [reflexivity|].
  split; [reflexivity|].
  split; [world_simpl; rewrite <- !app_assoc; reflexivity|].
  repeat (apply Forall_app; split);
    try (apply Forall_polling_no_write, round_polls_polling);
    repeat constructor.
Qed.

Lemma malformed_reply_rejected_witness :
  exists w',
    @getProduct Sample.lib default_flags "506"
      (Sample.world_of
         [Sample.ok (bytes_of_string "GeoLiteCity.dat");
          Sample.ok Sample.gz_AAA;
          Sample.ok (bytes_of_string "<html>busy</html>")] [] ∅)
    = (Ret (Some (errors_New "Not a gzip file")), w')
    /\ w_files w' = ∅.
Proof.
  destruct (@malformed_reply_rejected Sample.lib default_flags "506"
              (Sample.world_of
                 [Sample.ok (bytes_of_string "GeoLiteCity.dat");
                  Sample.ok Sample.gz_AAA;
                  Sample.ok (bytes_of_string "<html>busy</html>")] [] ∅)
              (bytes_of_string "GeoLiteCity.dat")
              [Sample.gz_AAA] [bytes_of_string "AAA"]
              (bytes_of_string "<html>busy</html>"))
    as (w' & t & Hrun & _ & Hfiles & _).
  - constructor; [|constructor]. split; vm_compute; reflexivity.
  - simpl. lia.
  - reflexivity.
  - simpl. repeat split; reflexivity.
  - exists w'. split; [exact Hrun|exact Hfiles].
Defined.

Lemma poll_digests_app t1 t2 :
  poll_digests (t1 ++ t2) = poll_digests t1 ++ poll_digests t2.
Proof. apply omap_app. Qed.

Lemma poll_digests_poll fl p ch d :
  poll_digests [EvGet (poll_url fl p ch d)] = [d].
Proof.
  change [EvGet (poll_url fl p ch d)]
    with ((EvGet (poll_url fl p ch d) :: map EvLog []) ++ []).
  apply poll_digests_turn.
Qed.

(** C1. When the first five gzip payloads of a session decompress and the
    sixth reply is again a gzip payload, [getProduct] returns the error
    "Too many attempts at downloading file" after its sixth poll, having
    written and renamed nothing.  In general the loop comes to an end
    within six polls whatever the replies are, it is left through [break]
    with [attempts] at most 5, and giving it more fuel than six turns
    changes nothing. *)
Theorem sixth_payload_rejected `{GoLib} (fl : flags) (p : string) (w : world)
    (b0 : bytes) (bs us : list bytes) (b6 : bytes) :
  Forall2 payload bs us ->
  length bs = 5%nat ->
  classify b6 = GzipPayload ->
  served (w_net w) (w_sent w) (b0 :: bs ++ [b6]) ->
  (exists w' t,
     getProduct fl p w
     = (Ret (Some (errors_New "Too many attempts at downloading file")), w')
     /\ class_of (errors_New "Too many attempts at downloading file")
        = ProtocolError
     /\ w_files w' = w_files w
     /\ w_trace w' = w_trace w ++ t
     /\ Forall (fun e => writes e = false) t
     /\ length (poll_digests t) = 6%nat)
  /\ (forall (fuel : nat) (pid fn ch d0 : string) (w0 : world),
        (6 <= fuel)%nat ->
        getProduct_loop fl fuel pid fn ch (Session 0 [] d0) w0
        = getProduct_loop fl 6 pid fn ch (Session 0 [] d0) w0
        /\ fst (getProduct_loop fl 6 pid fn ch (Session 0 [] d0) w0) <> NoFuel
        /\ exists n t,
            snd (getProduct_loop fl 6 pid fn ch (Session 0 [] d0) w0)
            = advance n t w0
            /\ (n <= 6)%nat
            /\ Forall (fun e => writes e = false) t
            /\ match fst (getProduct_loop fl 6 pid fn ch (Session 0 [] d0) w0)
               with
               | Ret (inr st') => 0 <= attempts st' <= 5
               | _ => True
               end).
Proof.
  intros Hpay Hlen Hgz [H0 Hs]. split.
  - apply served_app in Hs as [Hbs [Hlast _]].
    pose proof (Forall2_length _ _ _ Hpay) as Hus.
    rewrite (getProduct_session fl p w b0 H0).
    replace 6%nat with (length bs + 1)%nat by lia.
    rewrite (loop_rounds fl _ _ _ bs us _ _ _ Hpay);
      [|world_simpl; exact Hbs|simpl; lia|simpl; lia].
    rewrite getProduct_loop_S.
    rewrite (turn_too_many fl _ _ _ _ _ b6);
      [|world_simpl; exact Hlast|exact Hgz
       |rewrite round_state_attempts; simpl; lia].
    do 2 eexists. split; [reflexivity|]. split; [reflexivity|].
    split; [reflexivity|].
    split; [world_simpl; rewrite <- !app_assoc; reflexivity|].
    split.
    + repeat (apply Forall_app; split);
        try (apply Forall_polling_no_write, round_polls_polling);
        repeat constructor.
    + rewrite !poll_digests_app, !length_app, round_polls_digests,
        poll_digests_poll.
      simpl. lia.
  - intros fuel pid fn ch d0 w0 Hfuel.
    split; [apply getProduct_loop_fuel; simpl; lia|].
    destruct (loop_frame fl pid fn ch 6 (Session 0 [] d0) w0)
      as (n & t & Hw & Ht & _ & Hn & _ & Hres); [simpl; lia|simpl; lia|].
    split.
    + destruct (fst (getProduct_loop fl 6 pid fn ch (Session 0 [] d0) w0))
        as [[e|st']|m|m|]; try discriminate; contradiction.
    + exists n, t. split; [exact Hw|]. split; [simpl in Hn; lia|].
      split; [apply Forall_polling_no_write, Ht|].
      destruct (fst (getProduct_loop fl 6 pid fn ch (Session 0 [] d0) w0))
        as [[e|st']|m|m|]; try exact I. apply Hres.
Qed.

Lemma sixth_payload_rejected_witness :
  exists w',
    @getProduct Sample.lib default_flags "506"
      (Sample.world_of
         [Sample.ok (bytes_of_string "GeoLiteCity.dat");
          Sample.ok Sample.gz_AAA; Sample.ok Sample.gz_BBBB;
          Sample.ok Sample.gz_AAA; Sample.ok Sample.gz_BBBB;
          Sample.ok Sample.gz_AAA; Sample.ok Sample.gz_BBBB] [] ∅)
    = (Ret (Some (errors_New "Too many attempts at downloading file")), w')
    /\ w_files w' = ∅.
Proof.
  destruct (@sixth_payload_rejected Sample.lib default_flags "506"
              (Sample.world_of
                 [Sample.ok (bytes_of_string "GeoLiteCity.dat");
                  Sample.ok Sample.gz_AAA; Sample.ok Sample.gz_BBBB;
                  Sample.ok Sample.gz_AAA; Sample.ok Sample.gz_BBBB;
                  Sample.ok Sample.gz_AAA; Sample.ok Sample.gz_BBBB] [] ∅)
              (bytes_of_string "GeoLiteCity.dat")
              [Sample.gz_AAA; Sample.gz_BBBB; Sample.gz_AAA; Sample.gz_BBBB;
               Sample.gz_AAA]
              [bytes_of_string "AAA"; bytes_of_string "BBBB";
               bytes_of_string "AAA"; bytes_of_string "BBBB";
               bytes_of_string "AAA"]
              Sample.gz_BBBB)
    as [(w' & t & Hrun & _ & Hfiles & _) _].
  - repeat constructor; vm_compute; reflexivity.
  - reflexivity.
  - reflexivity.
  - simpl. repeat split; reflexivity.
  - exists w'. split; [exact Hrun|exact Hfiles].
Defined.

(** ** A session as a whole *)

Lemma writes_no_poll e : writes e = true -> poll_digest e = None.
Proof. destruct e; simpl; congruence. Qed.

Lemma writes_not_attempted e : writes e = true -> attempted_product e = None.
Proof. destruct e; simpl; congruence. Qed.

Lemma omap_none {A B} (f : A -> option B) (l : list A) :
  Forall (fun x => f x = None) l -> omap f l = [].
Proof.
  induction 1 as [|x l Hx _ IH]; [reflexivity|].
  change (omap f (x :: l))
    with (match f x with Some y => y :: omap f l | None => omap f l end).
  rewrite Hx. exact IH.
Qed.

Lemma publish_frame fp data w :
  exists e t,
    fst (publish fp data w) = Ret e
    /\ w_net (snd (publish fp data w)) = w_net w
    /\ w_sent (snd (publish fp data w)) = w_sent w
    /\ w_trace (snd (publish fp data w)) = w_trace w ++ t
    /\ Forall (fun ev => writes ev = true) t.
Proof.
  destruct (publish_cases fp data w)
    as [[_ ->]|[(n & _ & ->)|[(_ & _ & ->)|(_ & _ & ->)]]];
    do 2 eexists; (split; [reflexivity|]);
    (split; [reflexivity|]); (split; [reflexivity|]);
    (split; [world_simpl; rewrite <- ?app_assoc; reflexivity|]);
    repeat constructor.
Qed.

Section Frame.

Context `{GoLib}.
Variable fl : flags.

(** A session whose file name arrived: the file-name request, a log
    line, the read of the local file, then the events [tl] of the loop
    and the events [tp] of the temporary file and the rename. *)
Lemma session_frame p w b0 :
  reply_body (w_net w (w_sent w)) = Some b0 ->
  exists n tl tp,
    w_net (snd (getProduct fl p w)) = w_net w
    /\ w_sent (snd (getProduct fl p w)) = (n + S (w_sent w))%nat
    /\ (1 <= n <= 6)%nat
    /\ w_trace (snd (getProduct fl p w))
       = w_trace w
         ++ [EvGet (filename_url fl p);
             EvLog (LogAttempting (session_filename b0));
             EvReadFile (session_filePath fl b0)]
         ++ tl ++ tp
    /\ Forall (fun e => polling e = true) tl
    /\ Forall (fun e => writes e = true) tp
    /\ (forall i d,
          poll_digests tl !! i = Some d ->
          match i with
          | O => d = local_digest (session_filePath fl b0) w
          | S j =>
              exists b u,
                reply_body (w_net w (j + S (w_sent w))) = Some b
                /\ payload b u
                /\ d = md5hex u
          end)
    /\ match fst (getProduct fl p w) with
       | Ret _ => True
       | Exit _ =>
           exists k,
             (w_sent w <= k < n + S (w_sent w))%nat
             /\ sends (w_net w k) = false
       | Panic _ | NoFuel => False
       end.
Proof.
  intros H0. rewrite (getProduct_session fl p w b0 H0).
  destruct (loop_frame fl p (session_filename b0) (session_challenge fl w) 6
              (Session 0 [] (local_digest (session_filePath fl b0) w))
              (session_world fl p b0 w))
    as (n & tl & Hw & Htl & Hn1 & Hn & Hdig & Hres); [simpl; lia|simpl; lia|].
  simpl in Hn.
  destruct (getProduct_loop fl 6 p (session_filename b0)
              (session_challenge fl w)
              (Session 0 [] (local_digest (session_filePath fl b0) w))
              (session_world fl p b0 w)) as [[[e|st]|m|m|] w1];
    simpl in Hw, Hres; subst w1; try contradiction.
  - exists n, tl, []. world_simpl.
    repeat split; try assumption; try lia.
    + rewrite app_nil_r, <- !app_assoc. reflexivity.
    + constructor.
  - destruct (publish_frame (session_filePath fl b0) (uncompressed st)
                (advance n tl (session_world fl p b0 w)))
      as (e & tp & Hfst & Hnet & Hsent & Htrace & Htp).
    exists n, tl, tp. rewrite Hnet, Hsent, Htrace, Hfst. world_simpl.
    repeat split; try assumption; try lia.
    rewrite <- !app_assoc. reflexivity.
  - exists n, tl, []. world_simpl.
    repeat split; try assumption; try lia.
    + rewrite app_nil_r, <- !app_assoc. reflexivity.
    + constructor.
    + destruct Hres as (k & Hk & Hsend). exists k. split; [lia|exact Hsend].
Qed.

(** Any session: it starts with the file-name request for its product,
    asks for no other file name, makes at most seven requests, and comes
    to an end; it exits only when a request could not be sent. *)
Lemma getProduct_frame p w :
  exists n t,
    w_net (snd (getProduct fl p w)) = w_net w
    /\ w_sent (snd (getProduct fl p w)) = (n + w_sent w)%nat
    /\ (1 <= n <= 7)%nat
    /\ w_trace (snd (getProduct fl p w))
       = w_trace w ++ EvGet (filename_url fl p) :: t
    /\ attempted t = []
    /\ match fst (getProduct fl p w) with
       | Ret _ => True
       | Exit _ =>
           exists k,
             (w_sent w <= k < n + w_sent w)%nat /\ sends (w_net w k) = false
       | Panic _ | NoFuel => False
       end.
Proof.
  destruct (reply_body (w_net w (w_sent w))) as [b0|] eqn:Hb.
  - destruct (session_frame p w b0 Hb)
      as (n & tl & tp & Hnet & Hsent & Hn & Htrace & Htl & Htp & _ & Hres).
    exists (S n), ([EvLog (LogAttempting (session_filename b0));
                    EvReadFile (session_filePath fl b0)] ++ tl ++ tp).
    split; [exact Hnet|]. split; [rewrite Hsent; lia|]. split; [lia|].
    split; [exact Htrace|]. split.
    + unfold attempted. rewrite !omap_app.
      rewrite (omap_none attempted_product tl), (omap_none attempted_product tp).
      * reflexivity.
      * eapply Forall_impl; [exact Htp|]. exact writes_not_attempted.
      * eapply Forall_impl; [exact Htl|]. exact polling_not_attempted.
    + destruct (fst (getProduct fl p w)); try exact Hres.
      destruct Hres as (k & Hk & Hsend). exists k. split; [lia|exact Hsend].
  - unfold getProduct, bind.
    destruct (w_net w (w_sent w)) as [e|res [e|data]] eqn:Hnet.
    + rewrite (download_fails fl _ _ _ _ Hnet).
      exists 1%nat, []. world_simpl. repeat split; try lia.
      exists (w_sent w). rewrite Hnet. split; [lia|reflexivity].
    + rewrite (download_truncated fl _ _ _ _ _ Hnet).
      exists 1%nat, [EvLog (LogDownloadError (filename_url fl p) e)].
      world_simpl. split; [reflexivity|]. split; [reflexivity|].
      split; [lia|]. split; [rewrite <- app_assoc; reflexivity|].
      split; [reflexivity|exact I].
    + rewrite (download_body fl _ _ _ _ _ Hnet).
      simpl in Hb. destruct (isSuccess (StatusCode res)); [discriminate|].
      exists 1%nat, []. world_simpl. repeat split; lia.
Qed.

End Frame.

(** C7. The digest a session polls with is never stale.  Its first poll
    carries the digest of the local file, which is the all-zero digest
    when that file is missing, and every later poll carries the MD5 of the
    payload that the reply to the poll before it decompressed to.  In the
    loop itself: the rule holds on entry, and a turn that goes round again
    leaves [oldDigest] equal to the digest of the [uncompressed] it has
    just stored. *)
Theorem digest_never_stale `{GoLib} (fl : flags) (p : string) (w : world)
    (b0 : bytes) :
  reply_body (w_net w (w_sent w)) = Some b0 ->
  let fp := session_filePath fl b0 in
  (w_files w !! fp = None ->
   local_digest fp w = "00000000000000000000000000000000")
  /\ (exists t,
        w_trace (snd (getProduct fl p w)) = w_trace w ++ t
        /\ forall i d,
             poll_digests t !! i = Some d ->
             match i with
             | O => d = local_digest fp w
             | S j =>
                 exists b u,
                   reply_body (w_net w (j + S (w_sent w))) = Some b
                   /\ payload b u
                   /\ d = md5hex u
             end)
  /\ digest_fresh (local_digest fp w) (Session 0 [] (local_digest fp w))
  /\ (forall fn ch st w1 st' w2,
        digest_fresh (local_digest fp w) st ->
        getProduct_turn fl p fn ch st w1 = (Ret (Continue st'), w2) ->
        digest_fresh (local_digest fp w) st'
        /\ oldDigest st' = md5hex (uncompressed st')
        /\ exists b,
            reply_body (w_net w1 (w_sent w1)) = Some b
            /\ payload b (uncompressed st')).
Proof.
  intros H0 fp. split; [|split; [|split]].
  - intros Hnone. unfold local_digest. rewrite Hnone.
    destruct (w_fault w (w_ios w)); reflexivity.
  - destruct (session_frame fl p w b0 H0)
      as (n & tl & tp & _ & _ & _ & Htrace & _ & Htp & Hdig & _).
    eexists. split; [exact Htrace|].
    intros i d. rewrite !poll_digests_app.
    replace (poll_digests tp) with (@nil string).
    + rewrite app_nil_r. exact (Hdig i d).
    + symmetry. apply omap_none.
      eapply Forall_impl; [exact Htp|]. exact writes_no_poll.
  - left. repeat split.
  - intros fn ch st w1 st' w2 Hfresh Hturn.
    assert (Ha : 0 <= attempts st <= 5).
    { destruct Hfresh as [(-> & _)|(Ha & _)]; lia. }
    destruct (turn_frame fl p fn ch st w1 Ha) as (logs & _ & Hres).
    rewrite Hturn in Hres. simpl in Hres.
    destruct Hres as (b & u & Hb & Hpay & -> & Hlt).
    split; [right; simpl; split; [lia|reflexivity]|].
    split; [reflexivity|]. exists b. split; [exact Hb|exact Hpay].
Qed.

Lemma digest_never_stale_witness :
  poll_digests
    (w_trace
       (snd (@getProduct Sample.lib default_flags "506"
               (Sample.world_of
                  [Sample.ok (bytes_of_string "GeoLiteCity.dat");
                   Sample.ok Sample.gz_AAA; Sample.ok Sample.no_update]
                  []
                  {["/usr/local/var/GeoIP/GeoLiteCity.dat"
                    := bytes_of_string "abc"]}))))
  !! 1%nat
  = Some (md5hex (bytes_of_string "AAA")).
Proof.
  destruct (@digest_never_stale Sample.lib default_flags "506"
              (Sample.world_of
                 [Sample.ok (bytes_of_string "GeoLiteCity.dat");
                  Sample.ok Sample.gz_AAA; Sample.ok Sample.no_update]
                 []
                 {["/usr/local/var/GeoIP/GeoLiteCity.dat"
                   := bytes_of_string "abc"]})
              (bytes_of_string "GeoLiteCity.dat") eq_refl)
    as (_ & (t & Htrace & Hdig) & _).
  rewrite Htrace.
  change (w_trace (Sample.world_of _ _ _) ++ t) with t.
  destruct (poll_digests t !! 1%nat) as [d|] eqn:Hd.
  - destruct (Hdig 1%nat d Hd) as (b & u & Hb & [_ Hu] & ->).
    vm_compute in Hb. injection Hb as <-.
    vm_compute in Hu. injection Hu as <-. reflexivity.
  - exfalso. clear Hdig.
    assert (Hrun : poll_digests
      (w_trace
         (snd (@getProduct Sample.lib default_flags "506"
                 (Sample.world_of
                    [Sample.ok (bytes_of_string "GeoLiteCity.dat");
                     Sample.ok Sample.gz_AAA; Sample.ok Sample.no_update]
                    []
                    {["/usr/local/var/GeoIP/GeoLiteCity.dat"
                      := bytes_of_string "abc"]})))) !! 1%nat <> None).
    { vm_compute. discriminate. }
    apply Hrun. rewrite Htrace. exact Hd.
Defined.

(** ** The run over the products *)

Section Run.

Context `{GoLib}.
Variable fl : flags.

Lemma attempted_app t1 t2 : attempted (t1 ++ t2) = attempted t1 ++ attempted t2.
Proof. apply omap_app. Qed.

Lemma attempted_filename p t :
  attempted (EvGet (filename_url fl p) :: t) = p :: attempted t.
Proof.
  unfold attempted.
  change (omap attempted_product (EvGet (filename_url fl p) :: t))
    with (match attempted_product (EvGet (filename_url fl p)) with
          | Some y => y :: omap attempted_product t
          | None => omap attempted_product t
          end).
  rewrite attempted_product_filename. reflexivity.
Qed.

(** As long as every request can be sent, the loop of [main] goes through
    all the products, whatever their sessions return. *)
Lemma range_frame ps w :
  (forall k, (w_sent w <= k)%nat -> sends (w_net w k) = true) ->
  exists w' t,
    range_getProduct fl ps w = (Ret tt, w')
    /\ w_net w' = w_net w
    /\ (w_sent w <= w_sent w')%nat
    /\ w_trace w' = w_trace w ++ t
    /\ attempted t = ps.
Proof.
  revert w. induction ps as [|p ps IH]; intros w Hsends.
  - exists w, []. simpl. rewrite app_nil_r. repeat split. lia.
  - simpl range_getProduct. unfold bind.
    destruct (getProduct_frame fl p w)
      as (n & t & Hnet & Hsent & Hn & Htrace & Hatt & Hres).
    destruct (getProduct fl p w) as [[e|m|m|] w1];
      simpl in Hnet, Hsent, Htrace, Hres; try contradiction.
    + destruct (IH w1) as (w' & t' & Hrun & Hnet' & Hsent' & Htrace' & Hatt').
      { intros k Hk. rewrite Hnet. apply Hsends. lia. }
      exists w', (EvGet (filename_url fl p) :: t ++ t').
      split; [exact Hrun|]. split; [congruence|]. split; [lia|].
      split.
      * rewrite Htrace', Htrace, <- app_assoc. reflexivity.
      * rewrite attempted_filename, attempted_app, Hatt, Hatt'. reflexivity.
    + destruct Hres as (k & Hk & Hsend).
      rewrite Hsends in Hsend by lia. discriminate.
Qed.

Lemma getClientIp_reply w ip :
  reply_body (w_net w (w_sent w)) = Some ip ->
  getClientIp fl w
  = (Ret None,
     with_clientIp (string_of_bytes ip)
       (requested (Url (protocol fl) (sourceHost fl) "/app/update_getipaddr" ∅)
          w)).
Proof.
  intros Hb. apply reply_body_inv in Hb as (res & Hnet & Hok).
  unfold getClientIp, bind.
  rewrite (download_body fl _ _ _ _ _ Hnet), Hok. reflexivity.
Qed.

Lemma os_Symlink_frame old new w :
  exists e,
    fst (os_Symlink old new w) = Ret e
    /\ w_trace (snd (os_Symlink old new w)) = w_trace w ++ [EvSymlink old new].
Proof.
  unfold os_Symlink.
  destruct (w_fault w (w_ios w)); destruct (w_files w !! new);
    destruct (w_links w !! new); eexists; split; reflexivity.
Qed.

End Run.

(** C4 as stated fails: when the file-name request of the first product
    cannot be sent, [main] exits there, and the second and third product
    are never attempted. *)
Lemma send_failure_ends_run :
  fst (@main Sample.lib default_flags Sample.unreachable_after_ip)
  = Exit (FatalGet "connection refused")
  /\ attempted
       (w_trace (snd (@main Sample.lib default_flags
                        Sample.unreachable_after_ip)))
     = ["506"]
  /\ strings_Split (productIds default_flags) ","%char
     = ["506"; "533"; "517"].
Proof. vm_compute. repeat split. Qed.

(** * Further properties of the program *)

(** ** Sessions that end before a payload *)

(** X1. When the first poll of a session is answered with the no-update
    text, [getProduct] returns nil after that one poll, which carried
    the digest of the local file; it logs "No new updates available" and
    neither writes nor renames a file. *)
Theorem no_update_is_noop `{GoLib} (fl : flags) (p : string) (w : world)
    (b0 b1 : bytes) :
  served (w_net w) (w_sent w) [b0; b1] ->
  classify b1 = NoUpdate ->
  exists w',
    getProduct fl p w = (Ret None, w')
    /\ w_files w' = w_files w
    /\ w_sent w' = S (S (w_sent w))
    /\ w_trace w'
       = w_trace w ++
         [EvGet (filename_url fl p);
          EvLog (LogAttempting (session_filename b0));
          EvReadFile (session_filePath fl b0);
          EvGet (poll_url fl p (session_challenge fl w)
                   (local_digest (session_filePath fl b0) w));
          EvLog (LogNoNewUpdates (session_filename b0))].
Proof.
  intros (H0 & H1 & _) Hc.
  rewrite (getProduct_session fl p w b0 H0).
  rewrite getProduct_loop_S.
  erewrite turn_no_update_noop;
    [|world_simpl; eassumption|assumption|reflexivity].
  eexists. split; [reflexivity|]. split; [reflexivity|].
  split; [reflexivity|].
  world_simpl. rewrite <- !app_assoc. reflexivity.
Qed.

Lemma no_update_is_noop_witness :
  exists w',
    @getProduct Sample.lib default_flags "506"
      (Sample.world_of
         [Sample.ok (bytes_of_string "GeoLiteCity.dat");
          Sample.ok Sample.no_update] []
         {["/usr/local/var/GeoIP/GeoLiteCity.dat" := bytes_of_string "abc"]})
    = (Ret None, w')
    /\ w_files w'
       = {["/usr/local/var/GeoIP/GeoLiteCity.dat" := bytes_of_string "abc"]}
    /\ poll_digests (w_trace w') = ["900150983cd24fb0d6963f7d28e17f72"].
Proof.
  destruct (@no_update_is_noop Sample.lib default_flags "506"
              (Sample.world_of
                 [Sample.ok (bytes_of_string "GeoLiteCity.dat");
                  Sample.ok Sample.no_update] []
                 {["/usr/local/var/GeoIP/GeoLiteCity.dat"
                   := bytes_of_string "abc"]})
              (bytes_of_string "GeoLiteCity.dat") Sample.no_update)
    as (w' & Hrun & Hfiles & _ & Htrace).
  - simpl. repeat split; reflexivity.
  - reflexivity.
  - exists w'. split; [exact Hrun|]. split; [exact Hfiles|].
    rewrite Htrace. vm_compute. reflexivity.
Defined.

(** X2. When the file-name request is answered but the body cannot be
    read, or the status code is outside 200..209, [getProduct] returns
    the error at once: the read error if the body broke off, otherwise
    the status error.  It has made that one request only: no file was
    read, no poll was sent and no file was written. *)
Theorem filename_failure_ends_session `{GoLib} (fl : flags) (p : string)
    (w : world) (res : response) (body : string + bytes) :
  w_net w (w_sent w) = GetResponds res body ->
  reply_body (GetResponds res body) = None ->
  exists e logs,
    getProduct fl p w
    = (Ret (Some e), advance 1 (EvGet (filename_url fl p) :: map EvLog logs) w)
    /\ e = match body with
           | inl er => ReadBodyError er
           | inr _ => errors_New ("Status " +:+ Status res +:+ " received")
           end.
Proof.
  intros Hnet Hnone. unfold getProduct, bind.
  destruct body as [er|data].
  - rewrite (download_truncated fl _ _ _ _ _ Hnet).
    exists (ReadBodyError er), [LogDownloadError (filename_url fl p) er].
    rewrite emit_advance, requested_advance, advance_advance.
    split; reflexivity.
  - rewrite (download_body fl _ _ _ _ _ Hnet).
    simpl in Hnone. destruct (isSuccess (StatusCode res)); [discriminate|].
    exists (errors_New ("Status " +:+ Status res +:+ " received")), [].
    split; reflexivity.
Qed.

Lemma filename_failure_ends_session_witness :
  exists w',
    @getProduct Sample.lib default_flags "506"
      (Sample.world_of
         [GetResponds (Response 401 "401 Unauthorized")
            (inr (bytes_of_string "Invalid user ID or license key"))] [] ∅)
    = (Ret (Some (errors_New "Status 401 Unauthorized received")), w')
    /\ w_ios w' = 0%nat /\ w_sent w' = 1%nat.
Proof.
  destruct (@filename_failure_ends_session Sample.lib default_flags "506"
              (Sample.world_of
                 [GetResponds (Response 401 "401 Unauthorized")
                    (inr (bytes_of_string "Invalid user ID or license key"))]
                 [] ∅)
              (Response 401 "401 Unauthorized")
              (inr (bytes_of_string "Invalid user ID or license key"))
              eq_refl eq_refl)
    as (e & logs & Hrun & ->).
  eexists. split; [exact Hrun|]. split; reflexivity.
Defined.

(** X3. The two checks on a response come in a different order in
    [updateSecure] and in the callers of [download]: for a response with
    a status code outside 200..209 whose body cannot be read,
    [updateSecure] returns the status error, while [getProduct] and
    [getClientIp] return the read error. *)
Theorem status_check_precedence `{GoLib} (fl : flags) (d p c : string)
    (w : world) (res : response) (er : string) :
  w_net w (w_sent w) = GetResponds res (inl er) ->
  ~ 200 <= StatusCode res <= 209 ->
  fst (updateSecure fl d p c w)
  = Ret ([], Some (errors_New ("Status " +:+ Status res +:+ " received")))
  /\ fst (getProduct fl p w) = Ret (Some (ReadBodyError er))
  /\ fst (getClientIp fl w) = Ret (Some (ReadBodyError er)).
Proof.
  intros Hnet Hbad. apply isSuccess_false_iff in Hbad.
  unfold updateSecure, getProduct, getClientIp, bind.
  rewrite !(download_truncated fl _ _ _ _ _ Hnet), Hbad.
  repeat split.
Qed.

Lemma status_check_precedence_witness :
  fst (updateSecure default_flags "d" "506" "c"
         (Sample.world_of
            [GetResponds (Response 500 "500 Internal Server Error")
               (inl "unexpected EOF")] [] ∅))
  = Ret ([], Some (errors_New "Status 500 Internal Server Error received"))
  /\ fst (@getProduct Sample.lib default_flags "506"
            (Sample.world_of
               [GetResponds (Response 500 "500 Internal Server Error")
                  (inl "unexpected EOF")] [] ∅))
     = Ret (Some (ReadBodyError "unexpected EOF")).
Proof.
  destruct (@status_check_precedence Sample.lib default_flags "d" "506" "c"
              (Sample.world_of
                 [GetResponds (Response 500 "500 Internal Server Error")
                    (inl "unexpected EOF")] [] ∅)
              (Response 500 "500 Internal Server Error") "unexpected EOF"
              eq_refl)
    as (Hus & Hgp & _).
  - simpl. lia.
  - split; [exact Hus|exact Hgp].
Defined.

(** ** Sessions of any number of rounds *)

Lemma round_state_last st us u :
  round_state st (us ++ [u])
  = Session (attempts (round_state st us) + 1) u (md5hex u).
Proof. unfold round_state. rewrite fold_left_app. reflexivity. Qed.

Lemma round_polls_writes fl p ch d us :
  Forall (fun e => writes e = false) (round_polls fl p ch d us).
Proof. apply Forall_polling_no_write, round_polls_polling. Qed.

Lemma turn_poll_fails `{GoLib} fl p fn ch st w res body :
  w_net w (w_sent w) = GetResponds res body ->
  reply_body (GetResponds res body) = None ->
  exists e logs,
    getProduct_turn fl p fn ch st w
    = (Ret (Return (Some e)),
       advance 1 (EvGet (poll_url fl p ch (oldDigest st)) :: map EvLog logs) w)
    /\ (isSuccess (StatusCode res) = false ->
        e = errors_New ("Status " +:+ Status res +:+ " received"))
    /\ (isSuccess (StatusCode res) = true ->
        exists er, body = inl er /\ e = ReadBodyError er).
Proof.
  intros Hnet Hnone. unfold getProduct_turn, updateSecure, bind.
  destruct body as [er|data].
  - rewrite (download_truncated fl _ _ _ _ _ Hnet).
    rewrite emit_advance, requested_advance, advance_advance.
    destruct (isSuccess (StatusCode res)).
    + exists (ReadBodyError er),
        [LogDownloadError (poll_url fl p ch (oldDigest st)) er].
      split; [reflexivity|]. split; [discriminate|]. eauto.
    + exists (errors_New ("Status " +:+ Status res +:+ " received")),
        [LogDownloadError (poll_url fl p ch (oldDigest st)) er].
      split; [reflexivity|]. split; [reflexivity|discriminate].
  - rewrite (download_body fl _ _ _ _ _ Hnet).
    simpl in Hnone.
    destruct (isSuccess (StatusCode res)); [discriminate|].
    exists (errors_New ("Status " +:+ Status res +:+ " received")), [].
    split; [reflexivity|]. split; [reflexivity|discriminate].
Qed.

Lemma last_poll_digests pre fl p ch d post :
  omap poll_digest post = [] ->
  last (poll_digests (pre ++ EvGet (poll_url fl p ch d) :: post)) = Some d.
Proof.
  intros Hpost. rewrite poll_digests_app.
  change (EvGet (poll_url fl p ch d) :: post)
    with ((EvGet (poll_url fl p ch d) :: map EvLog []) ++ post).
  rewrite poll_digests_turn. unfold poll_digests at 2. rewrite Hpost.
  apply last_snoc.
Qed.

(** X4. A session of one to five rounds that ends with the no-update text
    publishes the payload of its last round: when that payload is not
    empty and the write and the rename meet no fault, [getProduct]
    returns nil, the file path holds exactly that payload, the temporary
    file is gone, every other file is as it was, and the session has made
    one request for the file name and one poll more than it had rounds.
    Reading the file back gives the digest of that payload, which is the
    digest the last poll carried. *)
Theorem rounds_then_publish `{GoLib} (fl : flags) (p : string) (w : world)
    (b0 : bytes) (bs us : list bytes) (bn un done : bytes) :
  Forall2 payload bs us ->
  (length bs <= 4)%nat ->
  payload bn un ->
  un <> [] ->
  classify done = NoUpdate ->
  served (w_net w) (w_sent w) (b0 :: bs ++ [bn; done]) ->
  w_fault w (S (w_ios w)) = NoFault ->
  w_fault w (S (S (w_ios w))) = NoFault ->
  let fp := session_filePath fl b0 in
  let tmp := fp +:+ ".tmp" in
  exists w' t,
    getProduct fl p w = (Ret None, w')
    /\ w_files w' !! fp = Some un
    /\ w_files w' !! tmp = None
    /\ (forall q, q <> fp -> q <> tmp -> w_files w' !! q = w_files w !! q)
    /\ w_sent w' = (length bs + 3 + w_sent w)%nat
    /\ w_trace w' = w_trace w ++ t
    /\ last (poll_digests t) = Some (md5hex un)
    /\ (w_fault w' (w_ios w') = NoFault -> local_digest fp w' = md5hex un).
Proof.
  intros Hpay Hlen [Hcn Hun] Hfull Hdone [H0 Hs] Hwrite Hrename fp tmp.
  pose proof (tmp_path_differs fp) as Htmp. fold tmp in Htmp.
  change (bs ++ [bn; done]) with (bs ++ [bn] ++ [done]) in Hs.
  rewrite app_assoc in Hs.
  apply served_app in Hs as [Hbs [Hlast _]].
  rewrite length_app in Hlast. simpl length in Hlast.
  assert (Hpay' : Forall2 payload (bs ++ [bn]) (us ++ [un])).
  { apply Forall2_app; [exact Hpay|]. constructor; [split; assumption|].
    constructor. }
  pose proof (Forall2_length _ _ _ Hpay) as Hus.
  rewrite (getProduct_session fl p w b0 H0). fold fp.
  replace 6%nat with (length (bs ++ [bn]) + S (4 - length bs))%nat
    by (rewrite length_app; simpl; lia).
  rewrite (loop_rounds fl _ _ _ (bs ++ [bn]) (us ++ [un]) _ _ _ Hpay');
    [|world_simpl; exact Hbs|simpl; lia
     |rewrite length_app; simpl; lia].
  rewrite getProduct_loop_S.
  rewrite (turn_no_update_break fl _ _ _ _ _ done);
    [|world_simpl; rewrite length_app; simpl; exact Hlast|exact Hdone
     |rewrite round_state_last; exact Hfull].
  rewrite round_state_last. cbn [uncompressed oldDigest].
  match goal with
  | |- context [publish fp un ?w1] =>
      destruct (publish_cases fp un w1)
        as [[Hf _]|[(n & Hf & _)|[(_ & Hf & _)|(_ & _ & ->)]]]
  end.
  - world_simpl. congruence.
  - world_simpl. congruence.
  - world_simpl. congruence.
  - fold tmp.
    exists
      (with_files (<[fp := un]> (delete tmp (<[tmp := un]> (w_files w))))
         (io_one
            (emit (EvRename tmp fp)
               (with_files (<[tmp := un]> (w_files w))
                  (io_one
                     (emit (EvWriteFile tmp un)
                        (emit (EvLog (LogUpdateRetrieved (session_filename b0)))
                           (requested
                              (poll_url fl p (session_challenge fl w)
                                 (md5hex un))
                              (advance (length (bs ++ [bn]))
                                 (round_polls fl p (session_challenge fl w)
                                    (local_digest fp w) (us ++ [un]))
                                 (session_world fl p b0 w)))))))))),
      ([EvGet (filename_url fl p);
        EvLog (LogAttempting (session_filename b0)); EvReadFile fp]
         ++ round_polls fl p (session_challenge fl w) (local_digest fp w)
              (us ++ [un])
         ++ EvGet (poll_url fl p (session_challenge fl w) (md5hex un))
              :: [EvLog (LogUpdateRetrieved (session_filename b0));
                  EvWriteFile tmp un; EvRename tmp fp]).
    split; [reflexivity|].
    split; [world_simpl; apply lookup_insert_eq|].
    split; [world_simpl; rewrite lookup_insert_ne by congruence;
            apply lookup_delete_eq|].
    split; [intros q Hq1 Hq2; world_simpl;
            rewrite lookup_insert_ne by congruence;
            rewrite lookup_delete_ne by congruence;
            rewrite lookup_insert_ne by congruence; reflexivity|].
    split; [world_simpl; rewrite length_app; simpl; lia|].
    split; [world_simpl; rewrite <- !app_assoc; reflexivity|].
    split.
    + rewrite app_assoc. apply last_poll_digests. reflexivity.
    + world_simpl. intros Hread. unfold local_digest. world_simpl.
      rewrite Hread, lookup_insert_eq. reflexivity.
Qed.

Lemma rounds_then_publish_witness :
  exists w',
    @getProduct Sample.lib default_flags "506"
      (Sample.world_of
         [Sample.ok (bytes_of_string "GeoLiteCity.dat");
          Sample.ok Sample.gz_AAA; Sample.ok Sample.gz_BBBB;
          Sample.ok Sample.gz_AAA; Sample.ok Sample.no_update] []
         {["/usr/local/var/GeoIP/GeoLiteCity.dat.tmp"
           := bytes_of_string "stale"]})
    = (Ret None, w')
    /\ w_files w' !! "/usr/local/var/GeoIP/GeoLiteCity.dat"
       = Some (bytes_of_string "AAA")
    /\ w_files w' !! "/usr/local/var/GeoIP/GeoLiteCity.dat.tmp" = None
    /\ w_sent w' = 5%nat.
Proof.
  destruct (@rounds_then_publish Sample.lib default_flags "506"
              (Sample.world_of
                 [Sample.ok (bytes_of_string "GeoLiteCity.dat");
                  Sample.ok Sample.gz_AAA; Sample.ok Sample.gz_BBBB;
                  Sample.ok Sample.gz_AAA; Sample.ok Sample.no_update] []
                 {["/usr/local/var/GeoIP/GeoLiteCity.dat.tmp"
                   := bytes_of_string "stale"]})
              (bytes_of_string "GeoLiteCity.dat")
              [Sample.gz_AAA; Sample.gz_BBBB]
              [bytes_of_string "AAA"; bytes_of_string "BBBB"]
              Sample.gz_AAA (bytes_of_string "AAA") Sample.no_update)
    as (w' & t & Hrun & Hfile & Htmp & _ & Hsent & _).
  - repeat constructor; vm_compute; reflexivity.
  - simpl. lia.
  - split; vm_compute; reflexivity.
  - discriminate.
  - reflexivity.
  - simpl. repeat split; reflexivity.
  - reflexivity.
  - reflexivity.
  - exists w'. split; [exact Hrun|]. split; [exact Hfile|].
    split; [exact Htmp|exact Hsent].
Defined.

(** X5. When a gzip payload cannot be decompressed, in whichever of the
    five rounds it arrives, [getProduct] returns the error of the gzip
    reader; the payloads of the rounds before it are dropped: nothing is
    written or renamed and the files are as they were. *)
Theorem corrupt_payload_rejected `{GoLib} (fl : flags) (p : string)
    (w : world) (b0 : bytes) (bs us : list bytes) (bad : bytes)
    (e : string) :
  Forall2 payload bs us ->
  (length bs <= 4)%nat ->
  classify bad = GzipPayload ->
  gunzip bad = inl e ->
  served (w_net w) (w_sent w) (b0 :: bs ++ [bad]) ->
  exists w' t,
    getProduct fl p w = (Ret (Some (GzipError e)), w')
    /\ w_files w' = w_files w
    /\ w_trace w' = w_trace w ++ t
    /\ Forall (fun ev => writes ev = false) t.
Proof.
  intros Hpay Hlen Hgz Hbad [H0 Hs].
  apply served_app in Hs as [Hbs [Hlast _]].
  rewrite (getProduct_session fl p w b0 H0).
  replace 6%nat with (length bs + S (5 - length bs))%nat by lia.
  rewrite (loop_rounds fl _ _ _ bs us _ _ _ Hpay);
    [|world_simpl; exact Hbs|simpl; lia|simpl; lia].
  rewrite getProduct_loop_S.
  rewrite (turn_gunzip_fails fl _ _ _ _ _ bad e);
    [|world_simpl; exact Hlast|exact Hgz
     |rewrite round_state_attempts;
      rewrite <- (Forall2_length _ _ _ Hpay); simpl; lia
     |exact Hbad].
  do 2 eexists. split; [reflexivity|]. split; [reflexivity|].
  split; [world_simpl; rewrite <- !app_assoc; reflexivity|].
  repeat (apply Forall_app; split);
    try apply round_polls_writes; repeat constructor.
Qed.

Lemma corrupt_payload_rejected_witness :
  exists w',
    @getProduct Sample.lib default_flags "506"
      (Sample.world_of
         [Sample.ok (bytes_of_string "GeoLiteCity.dat");
          Sample.ok Sample.gz_AAA;
          Sample.ok [x1f; x8b; x08; x00; x00]] [] ∅)
    = (Ret (Some (GzipError "gzip: invalid header")), w')
    /\ w_files w' = ∅.
Proof.
  destruct (@corrupt_payload_rejected Sample.lib default_flags "506"
              (Sample.world_of
                 [Sample.ok (bytes_of_string "GeoLiteCity.dat");
                  Sample.ok Sample.gz_AAA;
                  Sample.ok [x1f; x8b; x08; x00; x00]] [] ∅)
              (bytes_of_string "GeoLiteCity.dat")
              [Sample.gz_AAA] [bytes_of_string "AAA"]
              [x1f; x8b; x08; x00; x00] "gzip: invalid header")
    as (w' & t & Hrun & Hfiles & _).
  - repeat constructor; vm_compute; reflexivity.
  - simpl. lia.
  - reflexivity.
  - reflexivity.
  - simpl. repeat split; reflexivity.
  - exists w'. split; [exact Hrun|exact Hfiles].
Defined.

(** X6. When a poll, in whichever round, is answered with a status code
    outside 200..209 or with a body that cannot be read, [getProduct]
    returns that error: the status error if the status code is outside
    the band, the read error otherwise.  The payloads already retrieved
    are dropped: nothing is written or renamed. *)
Theorem failed_poll_drops_payload `{GoLib} (fl : flags) (p : string)
    (w : world) (b0 : bytes) (bs us : list bytes) (res : response)
    (body : string + bytes) :
  Forall2 payload bs us ->
  (length bs <= 5)%nat ->
  served (w_net w) (w_sent w) (b0 :: bs) ->
  w_net w (length bs + S (w_sent w)) = GetResponds res body ->
  reply_body (GetResponds res body) = None ->
  exists e w' t,
    getProduct fl p w = (Ret (Some e), w')
    /\ (e = errors_New ("Status " +:+ Status res +:+ " received")
        \/ exists er, body = inl er /\ e = ReadBodyError er
                      /\ 200 <= StatusCode res <= 209)
    /\ (~ 200 <= StatusCode res <= 209 ->
        e = errors_New ("Status " +:+ Status res +:+ " received"))
    /\ w_files w' = w_files w
    /\ w_trace w' = w_trace w ++ t
    /\ Forall (fun ev => writes ev = false) t.
Proof.
  intros Hpay Hlen [H0 Hbs] Hnet Hnone.
  rewrite (getProduct_session fl p w b0 H0).
  replace 6%nat with (length bs + S (5 - length bs))%nat by lia.
  rewrite (loop_rounds fl _ _ _ bs us _ _ _ Hpay);
    [|world_simpl; exact Hbs|simpl; lia|simpl; lia].
  rewrite getProduct_loop_S.
  match goal with
  | |- context [getProduct_turn fl p ?fn ?ch ?st ?w1] =>
      destruct (turn_poll_fails fl p fn ch st w1 res body)
        as (e & logs & -> & Hstatus & Hread);
        [world_simpl; exact Hnet|exact Hnone|]
  end.
  exists e. do 2 eexists. split; [reflexivity|].
  split; [|split].
  - destruct (isSuccess (StatusCode res)) eqn:Hok; [|left; auto].
    right. destruct (Hread eq_refl) as (er & -> & ->).
    exists er. repeat split; apply isSuccess_iff in Hok; lia.
  - intros Hbad. apply isSuccess_false_iff in Hbad. auto.
  - split; [reflexivity|].
    split; [world_simpl; rewrite <- !app_assoc; reflexivity|].
    repeat (apply Forall_app; split);
      try apply round_polls_writes; repeat constructor.
    apply Forall_polling_no_write, Forall_polling_logs.
Qed.

Lemma failed_poll_drops_payload_witness :
  exists w',
    @getProduct Sample.lib default_flags "506"
      (Sample.world_of
         [Sample.ok (bytes_of_string "GeoLiteCity.dat");
          Sample.ok Sample.gz_AAA;
          GetResponds (Response 503 "503 Service Unavailable") (inr [])]
         [] ∅)
    = (Ret (Some (errors_New "Status 503 Service Unavailable received")), w')
    /\ w_files w' = ∅.
Proof.
  destruct (@failed_poll_drops_payload Sample.lib default_flags "506"
              (Sample.world_of
                 [Sample.ok (bytes_of_string "GeoLiteCity.dat");
                  Sample.ok Sample.gz_AAA;
                  GetResponds (Response 503 "503 Service Unavailable")
                    (inr [])] [] ∅)
              (bytes_of_string "GeoLiteCity.dat")
              [Sample.gz_AAA] [bytes_of_string "AAA"]
              (Response 503 "503 Service Unavailable") (inr []))
    as (e & w' & t & Hrun & _ & He & Hfiles & _).
  - repeat constructor; vm_compute; reflexivity.
  - simpl. lia.
  - simpl. repeat split; reflexivity.
  - reflexivity.
  - reflexivity.
  - exists w'. rewrite Hrun, He by (simpl; lia).
    split; [reflexivity|exact Hfiles].
Defined.

(** ** What a session leaves alone *)

Lemma advance_inj n t n' t' w :
  advance n t w = advance n' t' w -> n = n' /\ t = t'.
Proof.
  intros Heq. split.
  - apply (f_equal w_sent) in Heq. simpl in Heq. lia.
  - apply (f_equal w_trace) in Heq. simpl in Heq.
    exact (app_inv_head _ _ _ Heq).
Qed.

Lemma Forall_loop_event_logs fl p ch (logs : list logmsg) :
  Forall (loop_event fl p ch) (map EvLog logs).
Proof. induction logs; simpl; constructor; simpl; auto. Qed.

Lemma loop_event_polling fl p ch e : loop_event fl p ch e -> polling e = true.
Proof.
  destruct e as [u| | | | | |]; simpl; try contradiction; auto.
  intros (d & ->). reflexivity.
Qed.

Section Shape.

Context `{GoLib}.
Variable fl : flags.

(** Every request of the loop is a poll of this session. *)
Lemma loop_events p fn ch fuel st w :
  0 <= attempts st <= 5 ->
  6 - attempts st <= Z.of_nat fuel ->
  exists n t,
    snd (getProduct_loop fl fuel p fn ch st w) = advance n t w
    /\ Forall (loop_event fl p ch) t.
Proof.
  revert st w.
  induction fuel as [|fuel IH]; intros st w Ha Hfuel; [lia|].
  rewrite getProduct_loop_S.
  destruct (turn_frame fl p fn ch st w Ha) as (logs & Hw & Hturn).
  assert (Hone : Forall (loop_event fl p ch)
                   (EvGet (poll_url fl p ch (oldDigest st)) :: map EvLog logs)).
  { constructor; [simpl; eauto|apply Forall_loop_event_logs]. }
  destruct (getProduct_turn fl p fn ch st w) as [[[st'| |e]|m|m|] w'];
    simpl in Hw, Hturn; subst w'; try contradiction;
    try (do 2 eexists; split; [reflexivity|exact Hone]).
  destruct Hturn as (b & u & _ & _ & -> & Hlt).
  destruct (IH (Session (attempts st + 1) u (md5hex u))
              (advance 1
                 (EvGet (poll_url fl p ch (oldDigest st)) :: map EvLog logs) w))
    as (n & t & Hw & Ht); [simpl; lia|simpl; lia|].
  do 2 eexists. rewrite Hw, advance_advance. split; [reflexivity|].
  apply Forall_app. split; assumption.
Qed.

(** The world a session ends in: the world of the loop, or that world
    after [publish]. *)
Lemma session_shape p w b0 :
  reply_body (w_net w (w_sent w)) = Some b0 ->
  exists n tl,
    (1 <= n <= 6)%nat
    /\ Forall (loop_event fl p (session_challenge fl w)) tl
    /\ (snd (getProduct fl p w) = advance n tl (session_world fl p b0 w)
        \/ exists u,
            snd (getProduct fl p w)
            = snd (publish (session_filePath fl b0) u
                     (advance n tl (session_world fl p b0 w)))).
Proof.
  intros H0. rewrite (getProduct_session fl p w b0 H0).
  destruct (loop_frame fl p (session_filename b0) (session_challenge fl w) 6
              (Session 0 [] (local_digest (session_filePath fl b0) w))
              (session_world fl p b0 w))
    as (n & tl & Hw & _ & Hn1 & Hn & _ & Hres); [simpl; lia|simpl; lia|].
  destruct (loop_events p (session_filename b0) (session_challenge fl w) 6
              (Session 0 [] (local_digest (session_filePath fl b0) w))
              (session_world fl p b0 w))
    as (n' & tl' & Hw' & Hev); [simpl; lia|simpl; lia|].
  rewrite Hw in Hw'. apply advance_inj in Hw' as [<- <-].
  simpl in Hn. exists n, tl. split; [lia|]. split; [exact Hev|].
  destruct (getProduct_loop fl 6 p (session_filename b0)
              (session_challenge fl w)
              (Session 0 [] (local_digest (session_filePath fl b0) w))
              (session_world fl p b0 w)) as [[[e|st]|m|m|] w1];
    simpl in Hw; subst w1; try (left; reflexivity).
  right. exists (uncompressed st). reflexivity.
Qed.

(** A session whose file name did not arrive has made one request and
    logged at most one line. *)
Lemma getProduct_no_session p w :
  reply_body (w_net w (w_sent w)) = None ->
  exists logs,
    snd (getProduct fl p w)
    = advance 1 (EvGet (filename_url fl p) :: map EvLog logs) w.
Proof.
  intros Hnone. unfold getProduct, bind.
  destruct (w_net w (w_sent w)) as [e|res [e|data]] eqn:Hnet.
  - rewrite (download_fails fl _ _ _ _ Hnet). exists []. reflexivity.
  - rewrite (download_truncated fl _ _ _ _ _ Hnet).
    rewrite emit_advance, requested_advance, advance_advance.
    exists [LogDownloadError (filename_url fl p) e]. reflexivity.
  - rewrite (download_body fl _ _ _ _ _ Hnet).
    simpl in Hnone. destruct (isSuccess (StatusCode res)); [discriminate|].
    exists []. reflexivity.
Qed.

End Shape.

(** What [publish] leaves alone. *)
Lemma publish_preserves fp data w :
  let w' := snd (publish fp data w) in
  w_net w' = w_net w /\ w_sent w' = w_sent w /\ w_fault w' = w_fault w
  /\ w_links w' = w_links w /\ w_entropy w' = w_entropy w
  /\ w_clientIp w' = w_clientIp w
  /\ (w_ios w <= w_ios w' <= 2 + w_ios w)%nat
  /\ (forall q, q <> fp -> q <> fp +:+ ".tmp" ->
      w_files w' !! q = w_files w !! q).
Proof.
  destruct (publish_cases fp data w)
    as [[_ ->]|[(n & _ & ->)|[(_ & _ & ->)|(_ & _ & ->)]]];
    world_simpl; repeat split; try lia; intros q Hq1 Hq2;
    rewrite ?lookup_insert_ne by congruence;
    rewrite ?lookup_delete_ne by congruence;
    rewrite ?lookup_insert_ne by congruence; reflexivity.
Qed.

(** X7. Whatever the server answers and whatever faults the file system
    meets, a session changes no file but its own file path and the
    temporary path beside it; it leaves the network, the links and the
    global [clientIp] alone; and it makes at most three file-system
    calls, none at all when the file name did not arrive. *)
Theorem session_touches_only_its_files `{GoLib} (fl : flags) (p : string)
    (w : world) :
  w_net (snd (getProduct fl p w)) = w_net w
  /\ w_fault (snd (getProduct fl p w)) = w_fault w
  /\ w_links (snd (getProduct fl p w)) = w_links w
  /\ w_clientIp (snd (getProduct fl p w)) = w_clientIp w
  /\ match reply_body (w_net w (w_sent w)) with
     | None =>
         w_files (snd (getProduct fl p w)) = w_files w
         /\ w_ios (snd (getProduct fl p w)) = w_ios w
     | Some b0 =>
         (forall q,
            q <> session_filePath fl b0 ->
            q <> session_filePath fl b0 +:+ ".tmp" ->
            w_files (snd (getProduct fl p w)) !! q = w_files w !! q)
         /\ (S (w_ios w) <= w_ios (snd (getProduct fl p w)) <= 3 + w_ios w)%nat
     end.
Proof.
  destruct (reply_body (w_net w (w_sent w))) as [b0|] eqn:Hb.
  - destruct (session_shape fl p w b0 Hb)
      as (n & tl & _ & _ & [->|(u & ->)]).
    + world_simpl. repeat split; lia.
    + destruct (publish_preserves (session_filePath fl b0) u
                  (advance n tl (session_world fl p b0 w)))
        as (Hnet & _ & Hfault & Hlinks & _ & Hip & Hios & Hfiles).
      rewrite Hnet, Hfault, Hlinks, Hip. world_simpl.
      repeat split; try lia. intros q Hq1 Hq2. rewrite Hfiles by assumption.
      reflexivity.
  - destruct (getProduct_no_session fl p w Hb) as (logs & ->).
    repeat split.
Qed.

Lemma session_touches_only_its_files_witness :
  w_files
    (snd (@getProduct Sample.lib default_flags "506"
            (Sample.world_of
               [Sample.ok (bytes_of_string "GeoLiteCity.dat");
                Sample.ok Sample.gz_AAA; Sample.ok Sample.no_update] []
               {["/usr/local/var/GeoIP/GeoLiteCountry.dat"
                 := bytes_of_string "other"]}))) 
  !! "/usr/local/var/GeoIP/GeoLiteCountry.dat"
  = Some (bytes_of_string "other").
Proof.
  destruct (@session_touches_only_its_files Sample.lib default_flags "506"
              (Sample.world_of
                 [Sample.ok (bytes_of_string "GeoLiteCity.dat");
                  Sample.ok Sample.gz_AAA; Sample.ok Sample.no_update] []
                 {["/usr/local/var/GeoIP/GeoLiteCountry.dat"
                   := bytes_of_string "other"]}))
    as (_ & _ & _ & _ & Hfiles).
  change (reply_body _) with (Some (bytes_of_string "GeoLiteCity.dat"))
    in Hfiles.
  destruct Hfiles as [Hfiles _].
  rewrite Hfiles; [reflexivity|discriminate|discriminate].
Defined.

Lemma In_map_EvLog u logs : ~ In (EvGet u) (map EvLog logs).
Proof. induction logs; simpl; [tauto|]. intros [Heq|Hin]; [discriminate|auto]. Qed.

(** The requests of a session, whatever its outcome. *)
Lemma getProduct_requests `{GoLib} (fl : flags) (p : string) (w : world) :
  exists t,
    w_trace (snd (getProduct fl p w)) = w_trace w ++ t
    /\ forall u,
         In (EvGet u) t -> session_request fl p (session_challenge fl w) u.
Proof.
  assert (Hloop : forall tl u,
    Forall (loop_event fl p (session_challenge fl w)) tl ->
    In (EvGet u) tl -> session_request fl p (session_challenge fl w) u).
  { intros tl u Htl Hin.
    rewrite Forall_forall in Htl.
    apply list_elem_of_In, Htl in Hin. right. exact Hin. }
  destruct (reply_body (w_net w (w_sent w))) as [b0|] eqn:Hb.
  - destruct (session_shape fl p w b0 Hb)
      as (n & tl & _ & Htl & [->|(u0 & ->)]).
    + eexists. split; [world_simpl; rewrite <- !app_assoc; reflexivity|].
      intros u Hin.
      simpl in Hin. destruct Hin as [[= <-]|[[=]|[[=]|Hin]]].
      * left. reflexivity.
      * eapply Hloop; eassumption.
    + destruct (publish_frame (session_filePath fl b0) u0
                  (advance n tl (session_world fl p b0 w)))
        as (e & tp & _ & _ & _ & -> & Htp).
      eexists. split; [world_simpl; rewrite <- !app_assoc; reflexivity|].
      intros u Hin.
      simpl in Hin. destruct Hin as [[= <-]|[[=]|[[=]|Hin]]].
      * left. reflexivity.
      * apply in_app_iff in Hin as [Hin|Hin].
        -- eapply Hloop; eassumption.
        -- rewrite Forall_forall in Htp.
           apply list_elem_of_In, Htp in Hin. discriminate.
  - destruct (getProduct_no_session fl p w Hb) as (logs & ->).
    eexists. split; [reflexivity|].
    intros u Hin.
    simpl in Hin. destruct Hin as [[= <-]|Hin].
    + left. reflexivity.
    + exfalso. exact (In_map_EvLog u logs Hin).
Qed.

(** What the requests of a session carry. *)
Lemma session_request_carries fl p ch u :
  session_request fl p ch u ->
  Scheme u = protocol fl
  /\ Host u = sourceHost fl
  /\ (Path u = "/app/update_secure" ->
      RawQuery u !! "challenge_md5" = Some ch
      /\ RawQuery u !! "user_id" = Some (userId fl)
      /\ RawQuery u !! "edition_id" = Some p).
Proof.
  intros [->|(d & ->)].
  - split; [reflexivity|]. split; [reflexivity|].
    intros Hp. cbn in Hp. discriminate Hp.
  - split; [reflexivity|]. split; [reflexivity|]. intros _.
    unfold poll_url. cbn [RawQuery].
    split; [|split].
    + rewrite lookup_insert_ne by discriminate. apply lookup_insert_eq.
    + do 2 (rewrite lookup_insert_ne by discriminate).
      apply lookup_insert_eq.
    + do 3 (rewrite lookup_insert_ne by discriminate).
      apply lookup_insert_eq.
Qed.

(** X8. Every request a session makes is either the file-name lookup of
    its product or a poll; and every poll goes to the host and scheme of
    the flags and carries the user id of the flags, the product id of
    the session and one and the same challenge, the MD5 of the licence
    key followed by the global [clientIp] as it was when the session
    began. *)
Theorem session_requests `{GoLib} (fl : flags) (p : string) (w : world) :
  exists t,
    w_trace (snd (getProduct fl p w)) = w_trace w ++ t
    /\ forall u,
         In (EvGet u) t ->
         session_request fl p (session_challenge fl w) u
         /\ Scheme u = protocol fl
         /\ Host u = sourceHost fl
         /\ (Path u = "/app/update_secure" ->
             RawQuery u !! "challenge_md5"
             = Some (md5hex (bytes_of_string (licenseKey fl)
                             ++ bytes_of_string (w_clientIp w)))
             /\ RawQuery u !! "user_id" = Some (userId fl)
             /\ RawQuery u !! "edition_id" = Some p).
Proof.
  destruct (getProduct_requests fl p w) as (t & Htrace & Hreq).
  exists t. split; [exact Htrace|].
  intros u Hin. split; [exact (Hreq u Hin)|].
  exact (session_request_carries fl p _ u (Hreq u Hin)).
Qed.

Lemma session_requests_witness :
  Forall
    (fun e =>
       match e with
       | EvGet u =>
           Path u = "/app/update_secure" ->
           RawQuery u !! "edition_id" = Some "506"
       | _ => True
       end)
    (w_trace
       (snd (@getProduct Sample.lib default_flags "506"
               (Sample.world_of
                  [Sample.ok (bytes_of_string "GeoLiteCity.dat");
                   Sample.ok Sample.gz_AAA; Sample.ok Sample.no_update]
                  [] ∅)))).
Proof.
  destruct (@session_requests Sample.lib default_flags "506"
              (Sample.world_of
                 [Sample.ok (bytes_of_string "GeoLiteCity.dat");
                  Sample.ok Sample.gz_AAA; Sample.ok Sample.no_update]
                 [] ∅))
    as (t & Htrace & Hreq).
  rewrite Htrace. change (w_trace (Sample.world_of _ _ _) ++ t) with t.
  apply Forall_forall. intros e He. apply list_elem_of_In in He.
  destruct e as [u| | | | | |]; try exact I.
  intros Hpath. apply (Hreq u He). exact Hpath.
Defined.

(** ** The run as a whole *)

Lemma getProduct_preserves `{GoLib} (fl : flags) (p : string) (w : world) :
  w_net (snd (getProduct fl p w)) = w_net w
  /\ w_clientIp (snd (getProduct fl p w)) = w_clientIp w
  /\ (w_sent w <= w_sent (snd (getProduct fl p w)) <= 7 + w_sent w)%nat.
Proof.
  destruct (getProduct_frame fl p w) as (n & t & Hnet & Hsent & Hn & _).
  split; [exact Hnet|]. split; [|lia].
  destruct (reply_body (w_net w (w_sent w))) as [b0|] eqn:Hb.
  - destruct (session_shape fl p w b0 Hb)
      as (n' & tl & _ & _ & [->|(u & ->)]); [reflexivity|].
    destruct (publish_preserves (session_filePath fl b0) u
                (advance n' tl (session_world fl p b0 w)))
      as (_ & _ & _ & _ & _ & Hip & _).
    rewrite Hip. reflexivity.
  - destruct (getProduct_no_session fl p w Hb) as (logs & ->). reflexivity.
Qed.

(** The loop of [main], whatever the sessions meet. *)
Lemma range_shape `{GoLib} (fl : flags) (ps : list string) (w : world) :
  w_net (snd (range_getProduct fl ps w)) = w_net w
  /\ w_clientIp (snd (range_getProduct fl ps w)) = w_clientIp w
  /\ (w_sent (snd (range_getProduct fl ps w))
      <= 7 * length ps + w_sent w)%nat
  /\ exists t,
      w_trace (snd (range_getProduct fl ps w)) = w_trace w ++ t
      /\ forall u,
           In (EvGet u) t ->
           exists p,
             In p ps /\ session_request fl p (session_challenge fl w) u.
Proof.
  revert w. induction ps as [|p ps IH]; intros w.
  - simpl. repeat split; try lia. exists []. rewrite app_nil_r.
    split; [reflexivity|]. intros u [].
  - simpl range_getProduct. unfold bind.
    destruct (getProduct_preserves fl p w) as (Hnet & Hip & Hsent).
    destruct (getProduct_requests fl p w) as (t & Htrace & Hreq).
    assert (Hhere : forall u, In (EvGet u) t ->
              exists p0, In p0 (p :: ps)
                /\ session_request fl p0 (session_challenge fl w) u).
    { intros u Hin. exists p. split; [left; reflexivity|auto]. }
    destruct (getProduct fl p w) as [[e|m|m|] w1];
      simpl in Hnet, Hip, Hsent, Htrace; cbn [fst snd];
      try (split; [exact Hnet|]; split; [exact Hip|];
           split; [simpl length; lia|]; exists t; split; assumption).
    destruct (IH w1) as (Hnet' & Hip' & Hsent' & t' & Htrace' & Hreq').
    split; [congruence|]. split; [congruence|].
    split; [simpl length; lia|].
    exists (t ++ t'). split; [rewrite Htrace', Htrace, app_assoc; reflexivity|].
    intros u Hin. apply in_app_iff in Hin as [Hin|Hin]; [auto|].
    destruct (Hreq' u Hin) as (p0 & Hp0 & Hu).
    exists p0. split; [right; exact Hp0|].
    unfold session_challenge in *. rewrite Hip in Hu. exact Hu.
Qed.

Lemma os_Symlink_shape old new w :
  exists e,
    fst (os_Symlink old new w) = Ret e
    /\ w_net (snd (os_Symlink old new w)) = w_net w
    /\ w_sent (snd (os_Symlink old new w)) = w_sent w
    /\ w_clientIp (snd (os_Symlink old new w)) = w_clientIp w
    /\ w_files (snd (os_Symlink old new w)) = w_files w
    /\ w_trace (snd (os_Symlink old new w)) = w_trace w ++ [EvSymlink old new].
Proof.
  unfold os_Symlink.
  destruct (w_fault w (w_ios w)); destruct (w_files w !! new);
    destruct (w_links w !! new); eexists; repeat split.
Qed.

(** [randInt64] with a bound that is not zero. *)
Lemma randInt64_nonzero (max : Z) (w : world) (bs : bytes) :
  w_entropy w = inr bs ->
  max <> 0 ->
  exists r, randInt64 max w = (Ret r, w) /\ 0 <= r < Z.abs max.
Proof.
  intros Hrand Hmax. unfold randInt64, rand_Read, bind. rewrite Hrand.
  cbv beta iota.
  destruct (Z.eqb_spec max 0) as [?|_]; [contradiction|].
  eexists. split; [reflexivity|].
  pose proof (land_int63_range
                (BigEndian_Uint64 (take 8 (bs ++ repeat x00 8)))) as Hd.
  rewrite int64_wrap_small by lia.
  split.
  - apply Z.rem_nonneg; lia.
  - pose proof (Z.rem_bound_abs
                  (Z.land (BigEndian_Uint64 (take 8 (bs ++ repeat x00 8)))
                     0x7fffffffffffffff) max Hmax) as Hb.
    pose proof (Z.rem_nonneg
                  (Z.land (BigEndian_Uint64 (take 8 (bs ++ repeat x00 8)))
                     0x7fffffffffffffff) max Hmax ltac:(lia)).
    lia.
Qed.

(** X9. The random number [randInt64] returns lies between zero and the
    absolute value of its bound, also when the bound is negative, and it
    reads the random bytes without changing anything else; when the
    random source fails it exits through [log.Fatal] before the
    division, whatever the bound. *)
Theorem randInt64_range (max : Z) (w : world) :
  match w_entropy w with
  | inl e => randInt64 max w = (Exit (FatalRand (errors_New e)), w)
  | inr _ =>
      max <> 0 ->
      exists r, randInt64 max w = (Ret r, w) /\ 0 <= r < Z.abs max
  end.
Proof.
  destruct (w_entropy w) as [e|bs] eqn:Hrand.
  - unfold randInt64, rand_Read, bind. rewrite Hrand. reflexivity.
  - intros Hmax. exact (randInt64_nonzero max w bs Hrand Hmax).
Qed.

Lemma randInt64_range_witness :
  exists r,
    randInt64 (-5000000000) (Sample.world_of [] [] ∅)
    = (Ret r, Sample.world_of [] [] ∅)
    /\ 0 <= r < 5000000000.
Proof.
  pose proof (randInt64_range (-5000000000) (Sample.world_of [] [] ∅)) as Hr.
  simpl w_entropy in Hr.
  destruct Hr as (r & Hrun & Hr); [discriminate|].
  exists r. split; [exact Hrun|exact Hr].
Defined.

(** X10. What the random delay does to a run.  When the flag does not
    parse, or the random source fails, [main] exits at once, before any
    request and any log line.  When it parses to a duration that is not
    zero, [main] logs the wait, sleeps for a time between zero and the
    absolute value of that duration, and then runs exactly as it would
    with the delay switched off. *)
Theorem startup_delay `{GoLib} (fl : flags) (w : world) :
  randomDelay fl <> "" ->
  match time_ParseDuration (randomDelay fl) with
  | inl e => main fl w = (Exit (FatalParseDuration (randomDelay fl) e), w)
  | inr dur =>
      match w_entropy w with
      | inl e => main fl w = (Exit (FatalRand (errors_New e)), w)
      | inr _ =>
          dur <> 0 ->
          exists r,
            0 <= r < Z.abs dur
            /\ main fl w
               = main (without_delay fl)
                   (emit (EvSleep r) (emit (EvLog (LogWaiting r dur)) w))
      end
  end.
Proof.
  intros Hset. apply String.eqb_neq in Hset.
  destruct (time_ParseDuration (randomDelay fl)) as [e|dur] eqn:Hparse.
  - unfold main, bind. rewrite Hset, Hparse. reflexivity.
  - destruct (w_entropy w) as [e|bs] eqn:Hrand.
    + unfold main. unfold bind at 1. rewrite Hset, Hparse. cbn [negb].
      unfold bind at 1. unfold randInt64, rand_Read, bind.
      rewrite Hrand. reflexivity.
    + intros Hdur.
      destruct (randInt64_nonzero dur w bs Hrand Hdur) as (r & Hrun & Hr).
      exists r. split; [exact Hr|].
      unfold main. unfold bind at 1. rewrite Hset, Hparse. cbn [negb].
      unfold bind at 1. rewrite Hrun.
      unfold bind at 1. unfold log_Printf at 1.
      unfold time_Sleep.
      reflexivity.
Qed.

Lemma startup_delay_witness :
  exists r,
    0 <= r < 5000000000
    /\ @main Sample.lib
         (Flags "updates.maxmind.com" "https" "/usr/local/var/GeoIP" "999999"
                "000000000000" true "506" "5s")
         (Sample.world_of [] [] ∅)
       = @main Sample.lib
           (Flags "updates.maxmind.com" "https" "/usr/local/var/GeoIP"
                  "999999" "000000000000" true "506" "")
           (emit (EvSleep r)
              (emit (EvLog (LogWaiting r 5000000000))
                 (Sample.world_of [] [] ∅))).
Proof.
  pose proof (@startup_delay Sample.lib
                (Flags "updates.maxmind.com" "https" "/usr/local/var/GeoIP"
                       "999999" "000000000000" true "506" "5s")
                (Sample.world_of [] [] ∅)) as Hd.
  change (@time_ParseDuration Sample.lib
            (randomDelay
               (Flags "updates.maxmind.com" "https" "/usr/local/var/GeoIP"
                      "999999" "000000000000" true "506" "5s")))
    with (@inr string Z 5000000000) in Hd.
  simpl w_entropy in Hd. cbv beta iota in Hd.
  destruct Hd as (r & Hr & Hrun); [discriminate|discriminate|].
  exists r. split; [exact Hr|exact Hrun].
Defined.

(** X11. When the address lookup at the start of a run is answered with a
    status code outside 200..209, or its body cannot be read, [main]
    exits through [log.Fatalf] with that error: it has made that one
    request, no product has been attempted, and the global [clientIp]
    and the files are as they were. *)
Theorem client_ip_failure_ends_run `{GoLib} (fl : flags) (w : world)
    (res : response) (body : string + bytes) :
  randomDelay fl = "" ->
  w_net w (w_sent w) = GetResponds res body ->
  reply_body (GetResponds res body) = None ->
  exists e logs,
    main fl w
    = (Exit (FatalClientIp e),
       advance 1
         (EvLog (LogUpdating (directory fl) (sourceHost fl) (protocol fl))
            :: EvGet (Url (protocol fl) (sourceHost fl)
                        "/app/update_getipaddr" ∅)
            :: map EvLog logs) w)
    /\ e = match body with
           | inl er => ReadBodyError er
           | inr _ => errors_New ("Status " +:+ Status res +:+ " received")
           end.
Proof.
  intros Hdelay Hnet Hnone.
  unfold main. rewrite Hdelay. cbn [String.eqb negb].
  unfold bind at 1. cbn [ret].
  unfold bind at 1. unfold log_Printf at 1.
  unfold bind at 1. unfold getClientIp. unfold bind at 1.
  destruct body as [er|data].
  - erewrite download_truncated; [|world_simpl; exact Hnet].
    exists (ReadBodyError er),
      [LogDownloadError
         (Url (protocol fl) (sourceHost fl) "/app/update_getipaddr" ∅) er].
    rewrite !emit_advance, requested_advance, !advance_advance.
    split; reflexivity.
  - erewrite download_body; [|world_simpl; exact Hnet].
    simpl in Hnone. destruct (isSuccess (StatusCode res)); [discriminate|].
    exists (errors_New ("Status " +:+ Status res +:+ " received")), [].
    rewrite emit_advance, requested_advance, advance_advance.
    split; reflexivity.
Qed.

Lemma client_ip_failure_ends_run_witness :
  exists w',
    @main Sample.lib default_flags
      (Sample.world_of
         [GetResponds (Response 403 "403 Forbidden") (inr [])] [] ∅)
    = (Exit (FatalClientIp (errors_New "Status 403 Forbidden received")), w')
    /\ w_files w' = ∅ /\ w_sent w' = 1%nat.
Proof.
  destruct (@client_ip_failure_ends_run Sample.lib default_flags
              (Sample.world_of
                 [GetResponds (Response 403 "403 Forbidden") (inr [])] [] ∅)
              (Response 403 "403 Forbidden") (inr [])
              eq_refl eq_refl eq_refl)
    as (e & logs & Hrun & ->).
  eexists. split; [exact Hrun|]. split; reflexivity.
Defined.

(** X12. In a run whose address lookup succeeds, the global [clientIp]
    is the body of that reply from then on, every poll of every session
    carries the challenge made from the licence key and that address,
    and the run makes at most one request for the address and seven per
    product, however it ends. *)
Theorem run_requests `{GoLib} (fl : flags) (w : world) (ip : bytes) :
  randomDelay fl = "" ->
  reply_body (w_net w (w_sent w)) = Some ip ->
  w_clientIp (snd (main fl w)) = string_of_bytes ip
  /\ (w_sent (snd (main fl w))
      <= 1 + 7 * length (strings_Split (productIds fl) ","%char) + w_sent w)%nat
  /\ exists t,
      w_trace (snd (main fl w)) = w_trace w ++ t
      /\ forall u,
           In (EvGet u) t ->
           Path u = "/app/update_secure" ->
           RawQuery u !! "challenge_md5"
           = Some (md5hex (bytes_of_string (licenseKey fl)
                           ++ bytes_of_string (string_of_bytes ip))).
Proof.
  intros Hdelay Hip.
  remember (main fl w) as R eqn:HR.
  unfold main in HR. rewrite Hdelay in HR. cbn [String.eqb negb] in HR.
  unfold bind at 1 in HR. cbn [ret] in HR.
  unfold bind at 1 in HR. unfold log_Printf at 1 in HR.
  unfold bind at 1 in HR.
  rewrite getClientIp_reply with (ip := ip) in HR by exact Hip.
  unfold bind at 1 in HR.
  match type of HR with
  | context [range_getProduct fl ?l ?w1] =>
      destruct (range_shape fl l w1)
        as (Hnet & Hcip & Hsent & t & Htrace & Hreq);
      destruct (range_getProduct fl l w1) as [[[]|m|m|] w2]
  end; world_simpl;
    assert (Hpoll : forall u,
      In (EvGet u) t ->
      Path u = "/app/update_secure" ->
      RawQuery u !! "challenge_md5"
      = Some (md5hex (bytes_of_string (licenseKey fl)
                      ++ bytes_of_string (string_of_bytes ip))))
    by (intros u Hin Hpath;
        destruct (Hreq u Hin) as (p0 & _ & Hu);
        apply (session_request_carries fl p0 _ u Hu); exact Hpath);
    try (subst R; cbn [fst snd]; split; [exact Hcip|]; split; [lia|];
         eexists; split; [rewrite Htrace; rewrite <- !app_assoc; reflexivity|];
         intros u Hin; simpl in Hin;
         destruct Hin as [[=]|[[= <-]|Hin]];
         [intros Hp; cbn in Hp; discriminate Hp|exact (Hpoll u Hin)]).
  unfold bind at 1 in HR.
  destruct (dolinks fl).
  - unfold bind at 1 in HR. unfold log_Printf at 1 in HR.
    unfold bind at 1 in HR.
    match type of HR with
    | context [os_Symlink ?a ?b ?w3] =>
        destruct (os_Symlink_shape a b w3)
          as (e1 & Hf1 & Hn1 & Hs1 & Hc1 & _ & Ht1);
        destruct (os_Symlink a b w3) as [o1 w4]
    end.
    world_simpl. subst o1.
    unfold bind at 1 in HR.
    match type of HR with
    | context [os_Symlink ?a ?b w4] =>
        destruct (os_Symlink_shape a b w4)
          as (e2 & Hf2 & Hn2 & Hs2 & Hc2 & _ & Ht2);
        destruct (os_Symlink a b w4) as [o2 w5]
    end.
    world_simpl. subst o2.
    unfold log_Printf in HR. world_simpl. subst R. world_simpl.
    split; [congruence|]. split; [lia|].
    eexists. split; [rewrite Ht2, Ht1, Htrace;
                     rewrite <- !app_assoc; reflexivity|].
    intros u Hin. simpl in Hin.
    destruct Hin as [[=]|[[= <-]|Hin]];
      [intros Hp; cbn in Hp; discriminate Hp|].
    apply in_app_iff in Hin as [Hin|Hin]; [exact (Hpoll u Hin)|].
    simpl in Hin. decompose [or] Hin; try discriminate; contradiction.
  - unfold log_Printf in HR. world_simpl. subst R. world_simpl.
    split; [exact Hcip|]. split; [lia|].
    eexists. split; [rewrite Htrace; rewrite <- !app_assoc; reflexivity|].
    intros u Hin. simpl in Hin.
    destruct Hin as [[=]|[[= <-]|Hin]];
      [intros Hp; cbn in Hp; discriminate Hp|].
    apply in_app_iff in Hin as [Hin|Hin]; [exact (Hpoll u Hin)|].
    simpl in Hin. decompose [or] Hin; try discriminate; contradiction.
Qed.

Lemma run_requests_witness :
  w_clientIp (snd (@main Sample.lib Sample.two_products Sample.body_breaks_off))
  = "192.0.2.7"
  /\ (w_sent (snd (@main Sample.lib Sample.two_products
                     Sample.body_breaks_off)) <= 15)%nat.
Proof.
  destruct (@run_requests Sample.lib Sample.two_products
              Sample.body_breaks_off (bytes_of_string "192.0.2.7")
              eq_refl eq_refl)
    as (Hip & Hsent & _).
  split; [exact Hip|exact Hsent].
Defined.

(** ** The digests, the reply classes and the product list *)

Lemma le_bytes_length n x : length (MD5.le_bytes n x) = n.
Proof. revert x. induction n as [|n IH]; intros x; simpl; auto. Qed.

Lemma MD5_sum_length data : length (MD5.sum data) = 16%nat.
Proof.
  unfold MD5.sum. cbv zeta. rewrite !length_app, !le_bytes_length. reflexivity.
Qed.

Lemma byte_to_Z_range b : 0 <= byte_to_Z b < 256.
Proof.
  unfold byte_to_Z. pose proof (Byte.to_N_bounded b). lia.
Qed.

Lemma hex_digit_in n :
  0 <= n < 16 ->
  In (Hex.digit n) (list_ascii_of_string "0123456789abcdef").
Proof.
  intros Hn. unfold Hex.digit. apply nth_In. simpl. lia.
Qed.

Lemma hex_encode_length bs :
  String.length (Hex.EncodeToString bs) = (2 * length bs)%nat.
Proof. induction bs as [|b bs IH]; simpl; [reflexivity|]. rewrite IH. lia. Qed.

Lemma hex_encode_digits bs :
  Forall (fun c => In c (list_ascii_of_string "0123456789abcdef"))
         (list_ascii_of_string (Hex.EncodeToString bs)).
Proof.
  induction bs as [|b bs IH]; [constructor|].
  pose proof (byte_to_Z_range b) as Hb.
  cbn [Hex.EncodeToString list_ascii_of_string].
  constructor; [apply hex_digit_in; split;
                [apply Z.div_pos; lia|apply Z.div_lt_upper_bound; lia]|].
  constructor; [apply hex_digit_in; apply Z.mod_pos_bound; lia|].
  exact IH.
Qed.

(** X13. The digest [md5File] returns is always a string of 32
    lower-case hexadecimal digits, whether it is the digest of the
    content or the all-zero digest of a file that could not be read; so
    is the digest of every payload. *)
Theorem digest_format (fn : string) (w : world) (data : bytes) :
  (exists d,
     fst (md5File fn w) = Ret d
     /\ String.length d = 32%nat
     /\ Forall (fun c => In c (list_ascii_of_string "0123456789abcdef"))
               (list_ascii_of_string d))
  /\ String.length (md5hex data) = 32%nat
  /\ Forall (fun c => In c (list_ascii_of_string "0123456789abcdef"))
            (list_ascii_of_string (md5hex data)).
Proof.
  assert (Hlen : forall x, String.length (md5hex x) = 32%nat).
  { intros x. unfold md5hex. rewrite hex_encode_length, MD5_sum_length.
    reflexivity. }
  assert (Hdig : forall x,
    Forall (fun c => In c (list_ascii_of_string "0123456789abcdef"))
           (list_ascii_of_string (md5hex x))).
  { intros x. apply hex_encode_digits. }
  split; [|split; [apply Hlen|apply Hdig]].
  rewrite md5File_local_digest. exists (local_digest fn w).
  split; [reflexivity|]. unfold local_digest.
  destruct (w_fault w (w_ios w)); destruct (w_files w !! fn);
    try (split; [apply Hlen|apply Hdig]);
    (split; [reflexivity|]); repeat constructor; simpl; tauto.
Qed.

Lemma HasPrefix_iff (s prefix : bytes) :
  HasPrefix s prefix = true <-> exists rest, s = prefix ++ rest.
Proof.
  revert s. induction prefix as [|p prefix IH]; intros s.
  - destruct s; simpl; split; eauto.
  - destruct s as [|c s]; simpl.
    + split; [discriminate|]. intros (rest & Hrest). discriminate.
    + rewrite andb_true_iff, IH. split.
      * intros [Hc (rest & ->)]. apply Byte.byte_dec_bl in Hc. subst c.
        eauto.
      * intros (rest & [= -> ->]). split; [apply Byte.byte_dec_lb; reflexivity|].
        eauto.
Qed.

Lemma strings_Split_nonempty s sep : strings_Split s sep <> [].
Proof.
  destruct s as [|c s]; simpl; [discriminate|].
  destruct (Ascii.eqb c sep); [discriminate|].
  destruct (strings_Split s sep); discriminate.
Qed.

(** X15. Splitting the product list loses nothing and invents nothing:
    the pieces joined by the separator give the flag back, no piece
    contains the separator, and there is one piece more than there are
    separators, so that an empty flag gives the one product id "" and
    two separators in a row give an empty product id between them. *)
Theorem products_split (s : string) (sep : ascii) :
  String.concat (String sep "") (strings_Split s sep) = s
  /\ Forall (fun p => count_sep sep p = 0%nat) (strings_Split s sep)
  /\ length (strings_Split s sep) = S (count_sep sep s).
Proof.
  induction s as [|c s (IHc & IHf & IHl)].
  - simpl. repeat split. repeat constructor.
  - pose proof (strings_Split_nonempty s sep) as Hne.
    simpl strings_Split. simpl count_sep.
    destruct (Ascii.eqb c sep) eqn:Hc.
    + apply Ascii.eqb_eq in Hc. subst c.
      split; [|split].
      * destruct (strings_Split s sep) as [|x xs] eqn:Hs; [contradiction|].
        change (String.concat (String sep "") ("" :: x :: xs))
          with (String sep (String.concat (String sep "") (x :: xs))).
        rewrite IHc. reflexivity.
      * constructor; [reflexivity|exact IHf].
      * simpl. rewrite IHl. reflexivity.
    + destruct (strings_Split s sep) as [|x xs] eqn:Hs; [contradiction|].
      apply Forall_cons in IHf as [Hx Hxs].
      split; [|split].
      * destruct xs as [|y ys].
        -- simpl in IHc. simpl. rewrite IHc. reflexivity.
        -- change (String.concat (String sep "") (String c x :: y :: ys))
             with (String c (String.concat (String sep "") (x :: y :: ys))).
           rewrite IHc. reflexivity.
      * constructor; [simpl; rewrite Hc, Hx; reflexivity|exact Hxs].
      * simpl in *. rewrite IHl. reflexivity.
Qed.

(** X16. [getProduct] never removes its temporary file.  When the write
    cannot open the file nothing changes; when it breaks off after [n]
    bytes the temporary file is left holding the first [n] bytes of the
    payload; when the rename fails it is left holding the whole payload;
    in all three cases the error is returned and the file path is as it
    was.  Only a rename that succeeds makes the temporary file
    disappear. *)
Theorem temporary_file_left_behind (fp : string) (data : bytes) (w : world) :
  let tmp := fp +:+ ".tmp" in
  let w' := snd (publish fp data w) in
  match w_fault w (w_ios w) with
  | Fault =>
      fst (publish fp data w) = Ret (Some (PathError "open" tmp))
      /\ w_files w' = w_files w
  | FaultAfter n =>
      fst (publish fp data w) = Ret (Some (PathError "write" tmp))
      /\ w_files w' = <[tmp := take n data]> (w_files w)
  | NoFault =>
      (w_fault w (S (w_ios w)) <> NoFault ->
       fst (publish fp data w) = Ret (Some (LinkError "rename" tmp fp))
       /\ w_files w' = <[tmp := data]> (w_files w))
      /\ (w_fault w (S (w_ios w)) = NoFault ->
          fst (publish fp data w) = Ret None
          /\ w_files w' !! tmp = None
          /\ w_files w' !! fp = Some data)
  end.
Proof.
  intros tmp w'. subst w'.
  pose proof (tmp_path_differs fp) as Htmp. fold tmp in Htmp.
  destruct (publish_cases fp data w)
    as [[Hf ->]|[(n & Hf & ->)|[(Hf1 & Hf2 & ->)|(Hf1 & Hf2 & ->)]]];
    fold tmp.
  - rewrite Hf. split; reflexivity.
  - rewrite Hf. split; reflexivity.
  - rewrite Hf1. split; [intros _; split; reflexivity|contradiction].
  - rewrite Hf1. split; [contradiction|]. intros _.
    world_simpl. split; [reflexivity|]. split.
    + rewrite lookup_insert_ne by congruence. apply lookup_delete_eq.
    + apply lookup_insert_eq.
Qed.

Lemma temporary_file_left_behind_witness :
  w_files
    (snd (publish "/usr/local/var/GeoIP/GeoLiteCity.dat"
            (bytes_of_string "AAA")
            (Sample.world_of [] [NoFault; Fault] ∅)))
  = {["/usr/local/var/GeoIP/GeoLiteCity.dat.tmp" := bytes_of_string "AAA"]}.
Proof.
  pose proof (temporary_file_left_behind
                "/usr/local/var/GeoIP/GeoLiteCity.dat"
                (bytes_of_string "AAA")
                (Sample.world_of [] [NoFault; Fault] ∅)) as Hleft.
  change (w_fault (Sample.world_of [] [NoFault; Fault] ∅)
            (w_ios (Sample.world_of [] [NoFault; Fault] ∅)))
    with NoFault in Hleft.
  cbv zeta beta iota in Hleft.
  destruct Hleft as [Hfail _].
  destruct Hfail as [_ Hfiles]; [discriminate|].
  rewrite Hfiles. reflexivity.
Defined.

(** * The run and the requests that cannot be sent *)

Lemma ends_at_unsendable_then {A B} (w w1 w2 : world) (a : A)
    (r : outcome B) :
  ends_at_unsendable w (Ret a) w1 ->
  ends_at_unsendable w1 r w2 ->
  ends_at_unsendable w r w2.
Proof.
  intros (Hnet1 & Hle1 & _ & Hall1) (Hnet2 & Hle2 & Hbut2 & Hres2).
  split; [congruence|]. split; [lia|]. split.
  - intros k Hk Hlast.
    destruct (Nat.lt_ge_cases k (w_sent w1)) as [Hlt|Hge].
    + apply Hall1. lia.
    + rewrite <- Hnet1. apply Hbut2; lia.
  - destruct r as [b|m|m|]; try contradiction.
    + intros k Hk.
      destruct (Nat.lt_ge_cases k (w_sent w1)) as [Hlt|Hge].
      * apply Hall1. lia.
      * rewrite <- Hnet1. apply Hres2. lia.
    + destruct Hres2 as (e & -> & Hlt & Hfail).
      exists e. split; [reflexivity|]. split; [lia|]. congruence.
Qed.

Lemma ends_at_unsendable_idle {A} (w w' : world) (a : A) :
  w_net w' = w_net w -> w_sent w' = w_sent w ->
  ends_at_unsendable w (Ret a) w'.
Proof.
  intros Hnet Hsent. split; [exact Hnet|]. split; [lia|].
  split; intros k Hk; lia.
Qed.

(** A request that could not be sent is the last one made, and the run
    exited with its error. *)
Lemma ends_at_unsendable_fails {A} (w w' : world) (r : outcome A) k e :
  ends_at_unsendable w r w' ->
  (w_sent w <= k < w_sent w')%nat ->
  w_net w k = GetFails e ->
  r = Exit (FatalGet e) /\ w_sent w' = S k.
Proof.
  intros (_ & _ & Hbut & Hres) Hk Hfail.
  assert (Hlast : w_sent w' = S k).
  { destruct (Nat.lt_ge_cases (S k) (w_sent w')) as [Hlt|Hge]; [|lia].
    pose proof (Hbut k ltac:(lia) Hlt) as Hs. rewrite Hfail in Hs.
    discriminate. }
  split; [|exact Hlast].
  destruct r as [a|m|m|]; try contradiction.
  - pose proof (Hres k Hk) as Hs. rewrite Hfail in Hs. discriminate.
  - destruct Hres as (e' & -> & _ & Hfail').
    rewrite Hlast in Hfail'. simpl in Hfail'. congruence.
Qed.

Section Unsendable.

Context `{GoLib}.
Variable fl : flags.

Lemma turn_unsendable p fn ch st w e :
  w_net w (w_sent w) = GetFails e ->
  getProduct_turn fl p fn ch st w
  = (Exit (FatalGet e), requested (poll_url fl p ch (oldDigest st)) w).
Proof.
  intros Hnet. unfold getProduct_turn, updateSecure, bind.
  rewrite (download_fails fl _ _ _ _ Hnet). reflexivity.
Qed.

Lemma turn_ends p fn ch st w :
  0 <= attempts st <= 5 ->
  ends_at_unsendable w (fst (getProduct_turn fl p fn ch st w))
    (snd (getProduct_turn fl p fn ch st w)).
Proof.
  intros Ha.
  destruct (w_net w (w_sent w)) as [e|res body] eqn:Hnet.
  - rewrite (turn_unsendable p fn ch st w e Hnet). unfold ends_at_unsendable; world_simpl.
    split; [reflexivity|]. split; [lia|]. split; [intros k Hk1 Hk2; lia|].
    exists e. split; [reflexivity|]. split; [lia|exact Hnet].
  - destruct (turn_frame fl p fn ch st w Ha) as (logs & Hw & Hres).
    rewrite Hw. unfold ends_at_unsendable; world_simpl.
    split; [reflexivity|]. split; [lia|]. split; [intros k Hk1 Hk2; lia|].
    assert (Hone : forall k,
      (w_sent w <= k < S (w_sent w))%nat -> sends (w_net w k) = true).
    { intros k Hk. replace k with (w_sent w) by lia. rewrite Hnet.
      reflexivity. }
    destruct (fst (getProduct_turn fl p fn ch st w)) as [t|m|m|];
      try contradiction; [exact Hone|].
    rewrite Hnet in Hres. discriminate.
Qed.

Lemma loop_ends p fn ch fuel st w :
  0 <= attempts st <= 5 ->
  6 - attempts st <= Z.of_nat fuel ->
  ends_at_unsendable w (fst (getProduct_loop fl fuel p fn ch st w))
    (snd (getProduct_loop fl fuel p fn ch st w)).
Proof.
  revert st w.
  induction fuel as [|fuel IH]; intros st w Ha Hfuel; [lia|].
  rewrite getProduct_loop_S.
  pose proof (turn_ends p fn ch st w Ha) as Hturn.
  destruct (turn_frame fl p fn ch st w Ha) as (logs & _ & Hres).
  destruct (getProduct_turn fl p fn ch st w) as [[[st'| |e]|m|m|] w'];
    cbn [fst snd] in *; try exact Hturn.
  destruct Hres as (b & u & _ & _ & -> & Hlt).
  eapply ends_at_unsendable_then; [exact Hturn|].
  apply IH; simpl; lia.
Qed.

Lemma publish_ends fp data w :
  exists e,
    fst (publish fp data w) = Ret e
    /\ ends_at_unsendable w (Ret e) (snd (publish fp data w)).
Proof.
  destruct (publish_frame fp data w) as (e & t & Hfst & Hnet & Hsent & _).
  exists e. split; [exact Hfst|].
  apply ends_at_unsendable_idle; assumption.
Qed.

Lemma getProduct_ends p w :
  ends_at_unsendable w (fst (getProduct fl p w)) (snd (getProduct fl p w)).
Proof.
  destruct (reply_body (w_net w (w_sent w))) as [b0|] eqn:Hb.
  - assert (Hfirst : ends_at_unsendable w (Ret tt) (session_world fl p b0 w)).
    { unfold ends_at_unsendable; world_simpl. split; [reflexivity|]. split; [lia|].
      split; [intros k Hk1 Hk2; lia|].
      intros k Hk. replace k with (w_sent w) by lia.
      apply reply_body_inv in Hb as (res & -> & _). reflexivity. }
    rewrite (getProduct_session fl p w b0 Hb).
    pose proof (loop_ends p (session_filename b0) (session_challenge fl w) 6
                  (Session 0 [] (local_digest (session_filePath fl b0) w))
                  (session_world fl p b0 w)
                  ltac:(simpl; lia) ltac:(simpl; lia)) as Hloop.
    destruct (getProduct_loop fl 6 p (session_filename b0)
                (session_challenge fl w)
                (Session 0 [] (local_digest (session_filePath fl b0) w))
                (session_world fl p b0 w)) as [[[e|st]|m|m|] w1];
      cbn [fst snd] in *.
    + exact (ends_at_unsendable_then _ _ _ _ _ Hfirst Hloop).
    + destruct (publish_ends (session_filePath fl b0) (uncompressed st) w1)
        as (e & Hfst & Hpub).
      rewrite Hfst.
      exact (ends_at_unsendable_then _ _ _ _ _
               (ends_at_unsendable_then _ _ _ _ _ Hfirst Hloop) Hpub).
    + exact (ends_at_unsendable_then _ _ _ _ _ Hfirst Hloop).
    + exact (ends_at_unsendable_then _ _ _ _ _ Hfirst Hloop).
    + exact (ends_at_unsendable_then _ _ _ _ _ Hfirst Hloop).
  - unfold getProduct, bind.
    destruct (w_net w (w_sent w)) as [e|res [e|data]] eqn:Hnet.
    + rewrite (download_fails fl _ _ _ _ Hnet). unfold ends_at_unsendable; world_simpl.
      split; [reflexivity|]. split; [lia|]. split; [intros k Hk1 Hk2; lia|].
      exists e. split; [reflexivity|]. split; [lia|exact Hnet].
    + rewrite (download_truncated fl _ _ _ _ _ Hnet). unfold ends_at_unsendable; world_simpl.
      split; [reflexivity|]. split; [lia|]. split; [intros k Hk1 Hk2; lia|].
      intros k Hk. replace k with (w_sent w) by lia. rewrite Hnet.
      reflexivity.
    + rewrite (download_body fl _ _ _ _ _ Hnet).
      simpl in Hb. destruct (isSuccess (StatusCode res)); [discriminate|].
      unfold ends_at_unsendable; cbn [negb]; world_simpl.
      split; [reflexivity|]. split; [lia|]. split; [intros k Hk1 Hk2; lia|].
      intros k Hk. replace k with (w_sent w) by lia. rewrite Hnet.
      reflexivity.
Qed.

(** The loop of [main]: its requests, and the products it got to. *)
Lemma range_ends ps w :
  ends_at_unsendable w (fst (range_getProduct fl ps w))
    (snd (range_getProduct fl ps w))
  /\ exists t,
      w_trace (snd (range_getProduct fl ps w)) = w_trace w ++ t
      /\ (exists rest, ps = attempted t ++ rest)
      /\ (forall u, fst (range_getProduct fl ps w) = Ret u ->
          attempted t = ps).
Proof.
  revert w. induction ps as [|p ps IH]; intros w.
  - simpl. split; [apply ends_at_unsendable_idle; reflexivity|].
    exists []. rewrite app_nil_r. split; [reflexivity|].
    split; [exists []; reflexivity|reflexivity].
  - simpl range_getProduct. unfold bind.
    pose proof (getProduct_ends p w) as Hends.
    destruct (getProduct_frame fl p w)
      as (n & t & _ & _ & _ & Htrace & Hatt & _).
    destruct (getProduct fl p w) as [[e|m|m|] w1]; cbn [fst snd] in *.
    + destruct (IH w1) as (Hends' & t' & Htrace' & (rest & Hrest) & Hall).
      split; [exact (ends_at_unsendable_then _ _ _ _ _ Hends Hends')|].
      exists (EvGet (filename_url fl p) :: t ++ t').
      split; [rewrite Htrace', Htrace, <- app_assoc; reflexivity|].
      rewrite attempted_filename, attempted_app, Hatt. simpl.
      split; [exists rest; congruence|].
      intros u Hu. rewrite (Hall u Hu). reflexivity.
    + split; [exact Hends|].
      exists (EvGet (filename_url fl p) :: t).
      split; [exact Htrace|]. rewrite attempted_filename, Hatt.
      split; [exists ps; reflexivity|discriminate].
    + destruct Hends as (_ & _ & _ & []).
    + destruct Hends as (_ & _ & _ & []).
Qed.

End Unsendable.

Section UnsendableRun.

Context `{GoLib}.
Variable fl : flags.

(** [main] after an address lookup that was answered: the loop over the
    products decides how the run ends, and what follows the loop makes no
    request. *)
Lemma main_after_lookup w ip :
  randomDelay fl = "" ->
  reply_body (w_net w (w_sent w)) = Some ip ->
  exists w1,
    w_net w1 = w_net w
    /\ w_sent w1 = S (w_sent w)
    /\ w_trace w1
       = w_trace w ++
         [EvLog (LogUpdating (directory fl) (sourceHost fl) (protocol fl));
          EvGet (Url (protocol fl) (sourceHost fl) "/app/update_getipaddr" ∅)]
    /\ fst (main fl w)
       = fst (range_getProduct fl (strings_Split (productIds fl) ","%char) w1)
    /\ w_net (snd (main fl w))
       = w_net (snd (range_getProduct fl
                       (strings_Split (productIds fl) ","%char) w1))
    /\ w_sent (snd (main fl w))
       = w_sent (snd (range_getProduct fl
                        (strings_Split (productIds fl) ","%char) w1))
    /\ exists t,
        w_trace (snd (main fl w))
        = w_trace (snd (range_getProduct fl
                          (strings_Split (productIds fl) ","%char) w1)) ++ t
        /\ attempted t = [].
Proof.
  intros Hdelay Hip.
  remember (main fl w) as R eqn:HR.
  unfold main in HR. rewrite Hdelay in HR. cbn [String.eqb negb] in HR.
  unfold bind at 1 in HR. cbn [ret] in HR.
  unfold bind at 1 in HR. unfold log_Printf at 1 in HR.
  unfold bind at 1 in HR.
  rewrite getClientIp_reply with (ip := ip) in HR by exact Hip.
  unfold bind at 1 in HR.
  match type of HR with
  | context [range_getProduct fl ?l ?w1] =>
      exists w1; destruct (range_getProduct fl l w1) as [[[]|m|m|] w2]
  end; world_simpl;
    (split; [reflexivity|]); (split; [reflexivity|]);
    (split; [rewrite <- app_assoc; reflexivity|]);
    try (subst R; cbn [fst snd]; repeat (split; [reflexivity|]);
         exists []; rewrite app_nil_r; split; reflexivity).
  unfold bind at 1 in HR.
  destruct (dolinks fl).
  - unfold bind at 1 in HR. unfold log_Printf at 1 in HR.
    unfold bind at 1 in HR.
    match type of HR with
    | context [os_Symlink ?a ?b ?w3] =>
        destruct (os_Symlink_shape a b w3)
          as (e1 & Hf1 & Hn1 & Hs1 & _ & _ & Ht1);
        destruct (os_Symlink a b w3) as [o1 w4]
    end.
    world_simpl. subst o1.
    unfold bind at 1 in HR.
    match type of HR with
    | context [os_Symlink ?a ?b w4] =>
        destruct (os_Symlink_shape a b w4)
          as (e2 & Hf2 & Hn2 & Hs2 & _ & _ & Ht2);
        destruct (os_Symlink a b w4) as [o2 w5]
    end.
    world_simpl. subst o2.
    unfold log_Printf in HR. world_simpl. subst R. world_simpl.
    split; [reflexivity|]. split; [congruence|]. split; [congruence|].
    eexists. split; [rewrite Ht2, Ht1; rewrite <- ?app_assoc; reflexivity|].
    reflexivity.
  - unfold log_Printf in HR. world_simpl. subst R. world_simpl.
    split; [reflexivity|]. split; [reflexivity|]. split; [reflexivity|].
    eexists. split; [reflexivity|]. reflexivity.
Qed.

(** [main] when the address lookup was not answered with a body. *)
Lemma main_without_lookup w :
  randomDelay fl = "" ->
  reply_body (w_net w (w_sent w)) = None ->
  w_sent (snd (main fl w)) = S (w_sent w)
  /\ w_trace (snd (main fl w))
     = w_trace w ++
       EvLog (LogUpdating (directory fl) (sourceHost fl) (protocol fl))
       :: EvGet (Url (protocol fl) (sourceHost fl) "/app/update_getipaddr" ∅)
       :: match w_net w (w_sent w) with
          | GetResponds _ (inl e) =>
              [EvLog (LogDownloadError
                        (Url (protocol fl) (sourceHost fl)
                           "/app/update_getipaddr" ∅) e)]
          | _ => []
          end
  /\ forall e, w_net w (w_sent w) = GetFails e ->
               fst (main fl w) = Exit (FatalGet e).
Proof.
  intros Hdelay Hnone.
  remember (main fl w) as R eqn:HR.
  unfold main in HR. rewrite Hdelay in HR. cbn [String.eqb negb] in HR.
  unfold bind at 1 in HR. cbn [ret] in HR.
  unfold bind at 1 in HR. unfold log_Printf at 1 in HR.
  unfold bind at 1 in HR. unfold getClientIp in HR. unfold bind at 1 in HR.
  destruct (w_net w (w_sent w)) as [e|res [e|data]] eqn:Hnet.
  - erewrite download_fails in HR; [|world_simpl; exact Hnet].
    subst R. world_simpl.
    split; [reflexivity|]. split; [rewrite <- app_assoc; reflexivity|].
    intros e' [= <-]. reflexivity.
  - erewrite download_truncated in HR; [|world_simpl; exact Hnet].
    subst R. unfold log_Fatal. world_simpl.
    split; [reflexivity|]. split; [rewrite <- ?app_assoc; reflexivity|].
    discriminate.
  - erewrite download_body in HR; [|world_simpl; exact Hnet].
    simpl in Hnone. destruct (isSuccess (StatusCode res)); [discriminate|].
    cbn [negb] in HR. subst R. unfold log_Fatal. world_simpl.
    split; [reflexivity|]. split; [rewrite <- ?app_assoc; reflexivity|].
    discriminate.
Qed.

End UnsendableRun.

(** C4, as the program has it.  An error that [getProduct] returns, the
    failure to read a response body among them, ends the session of that
    product only: as long as every request can be sent, the loop of
    [main] asks for the file name of every product of the list, in
    order, and returns; and [main] itself, when no random delay is set
    and the address lookup at its start is answered with a status code in
    200..209, runs to its end, having attempted every product of
    [-products].  A request that cannot be sent, be it a file-name
    lookup, a poll of any session of the loop or, in [main] without
    random delay, the address lookup, ends the whole run through
    [log.Fatal] with the error of that request: it is the last request
    made, and the products attempted are a part of the list from its
    start. *)
Theorem every_product_attempted `{GoLib} (fl : flags) (w : world)
    (ps : list string) :
  ((forall k, (w_sent w <= k)%nat -> sends (w_net w k) = true) ->
   exists w' t,
     range_getProduct fl ps w = (Ret tt, w')
     /\ w_trace w' = w_trace w ++ t
     /\ attempted t = ps)
  /\ ((forall k, (w_sent w <= k)%nat -> sends (w_net w k) = true) ->
      randomDelay fl = "" ->
      forall ip,
        reply_body (w_net w (w_sent w)) = Some ip ->
        exists w' t,
          main fl w = (Ret tt, w')
          /\ w_trace w' = w_trace w ++ t
          /\ attempted t = strings_Split (productIds fl) ","%char)
  /\ (forall k e,
        (w_sent w <= k < w_sent (snd (range_getProduct fl ps w)))%nat ->
        w_net w k = GetFails e ->
        fst (range_getProduct fl ps w) = Exit (FatalGet e)
        /\ w_sent (snd (range_getProduct fl ps w)) = S k
        /\ exists t rest,
            w_trace (snd (range_getProduct fl ps w)) = w_trace w ++ t
            /\ ps = attempted t ++ rest)
  /\ (randomDelay fl = "" ->
      forall k e,
        (w_sent w <= k < w_sent (snd (main fl w)))%nat ->
        w_net w k = GetFails e ->
        fst (main fl w) = Exit (FatalGet e)
        /\ w_sent (snd (main fl w)) = S k
        /\ exists t rest,
            w_trace (snd (main fl w)) = w_trace w ++ t
            /\ strings_Split (productIds fl) ","%char = attempted t ++ rest).
Proof.
  split; [|split; [|split]].
  - intros Hsends.
    destruct (range_frame fl ps w Hsends) as (w' & t & Hrun & _ & _ & Ht & Ha).
    exists w', t. auto.
  - intros Hsends Hdelay ip Hip.
    destruct (main_after_lookup fl w ip Hdelay Hip)
      as (w1 & Hnet1 & Hsent1 & Htrace1 & Hfst & _ & _ & t' & Htrace & Hatt).
    destruct (range_frame fl (strings_Split (productIds fl) ","%char) w1)
      as (w2 & t & Hrun & _ & _ & Ht & Ha).
    { intros k Hk. rewrite Hnet1. apply Hsends. lia. }
    rewrite Hrun in Hfst, Htrace. cbn [fst snd] in Hfst, Htrace.
    destruct (main fl w) as [r w']. cbn [fst snd] in Hfst, Htrace. subst r.
    exists w'. eexists. split; [reflexivity|].
    split; [rewrite Htrace, Ht, Htrace1, <- ?app_assoc; reflexivity|].
    rewrite !attempted_app, Ha, Hatt, app_nil_r. reflexivity.
  - intros k e Hk Hfail.
    destruct (range_ends fl ps w) as (Hends & t & Htrace & Hrest & _).
    destruct (ends_at_unsendable_fails _ _ _ k e Hends Hk Hfail)
      as (Hfst & Hsent).
    split; [exact Hfst|]. split; [exact Hsent|].
    destruct Hrest as (rest & Hrest). exists t, rest. auto.
  - intros Hdelay k e Hk Hfail.
    destruct (reply_body (w_net w (w_sent w))) as [ip|] eqn:Hip.
    + destruct (main_after_lookup fl w ip Hdelay Hip)
        as (w1 & Hnet1 & Hsent1 & Htrace1 & Hfst & _ & Hsent & t' & Htrace
            & Hatt).
      destruct (range_ends fl (strings_Split (productIds fl) ","%char) w1)
        as (Hends & t & Ht & (rest & Hrest) & _).
      assert (Hk1 : (w_sent w1
                     <= k
                     < w_sent (snd (range_getProduct fl
                          (strings_Split (productIds fl) ","%char) w1)))%nat).
      { rewrite <- Hsent. split; [|lia].
        destruct (Nat.eq_dec k (w_sent w)) as [->|Hne]; [|lia].
        apply reply_body_inv in Hip as (res & Hnet & _).
        rewrite Hnet in Hfail. discriminate. }
      rewrite <- Hnet1 in Hfail.
      destruct (ends_at_unsendable_fails _ _ _ k e Hends Hk1 Hfail)
        as (Hexit & Hlast).
      split; [congruence|]. split; [congruence|].
      exists ([EvLog (LogUpdating (directory fl) (sourceHost fl) (protocol fl));
               EvGet (Url (protocol fl) (sourceHost fl)
                        "/app/update_getipaddr" ∅)] ++ t ++ t'), rest.
      split; [rewrite Htrace, Ht, Htrace1, <- ?app_assoc; reflexivity|].
      rewrite !attempted_app, Hatt, app_nil_r. exact Hrest.
    + destruct (main_without_lookup fl w Hdelay Hip)
        as (Hsent & Htrace & Hexit).
      assert (k = w_sent w) as -> by lia.
      split; [exact (Hexit e Hfail)|]. split; [exact Hsent|].
      eexists. exists (strings_Split (productIds fl) ","%char).
      split; [exact Htrace|].
      rewrite Hfail. reflexivity.
Qed.

Lemma every_product_attempted_witness :
  (exists w',
     @main Sample.lib Sample.two_products Sample.body_breaks_off = (Ret tt, w')
     /\ attempted (w_trace w') = ["506"; "533"])
  /\ fst (@main Sample.lib default_flags Sample.unreachable_after_payload)
     = Exit (FatalGet "connection refused")
  /\ w_sent (snd (@main Sample.lib default_flags
                    Sample.unreachable_after_payload)) = 4%nat.
Proof.
  split.
  - destruct (@every_product_attempted Sample.lib Sample.two_products
                Sample.body_breaks_off [])
      as (_ & Hmain & _).
    destruct Hmain with (ip := bytes_of_string "192.0.2.7")
      as (w' & t & Hrun & Htrace & Hatt);
      [intros k _; do 5 (destruct k as [|k]; [reflexivity|]); reflexivity
      |reflexivity|reflexivity|].
    exists w'. split; [exact Hrun|]. rewrite Htrace. exact Hatt.
  - destruct (@every_product_attempted Sample.lib default_flags
                Sample.unreachable_after_payload [])
      as (_ & _ & _ & Hmain).
    destruct (Hmain eq_refl 3%nat "connection refused")
      as (Hexit & Hsent & _).
    + vm_compute. lia.
    + reflexivity.
    + split; [exact Hexit|exact Hsent].
Defined.

(** * An empty payload in any round *)

(** C9. Whether the loop publishes is decided by the length of the last
    payload, not by whether a round took place.  After any number of
    earlier rounds, when the payload of a round decompresses to no bytes
    and the next reply is the no-update text, [getProduct] returns nil
    through the "No new updates available" branch: the payloads of the
    earlier rounds are dropped, the last poll carried the digest of the
    empty payload, no file is written or renamed, and the files and the
    links are as they were. *)
Theorem empty_payload_is_noop `{GoLib} (fl : flags) (p : string) (w : world)
    (b0 : bytes) (bs us : list bytes) (bn done : bytes) :
  Forall2 payload bs us ->
  (length bs <= 4)%nat ->
  classify bn = GzipPayload ->
  gunzip bn = inr [] ->
  classify done = NoUpdate ->
  served (w_net w) (w_sent w) (b0 :: bs ++ [bn; done]) ->
  exists w',
    getProduct fl p w = (Ret None, w')
    /\ w_files w' = w_files w
    /\ w_links w' = w_links w
    /\ w_sent w' = (length bs + 3 + w_sent w)%nat
    /\ w_trace w'
       = w_trace w ++
         [EvGet (filename_url fl p);
          EvLog (LogAttempting (session_filename b0));
          EvReadFile (session_filePath fl b0)]
         ++ round_polls fl p (session_challenge fl w)
              (local_digest (session_filePath fl b0) w) (us ++ [[]])
         ++ [EvGet (poll_url fl p (session_challenge fl w) (md5hex []));
             EvLog (LogNoNewUpdates (session_filename b0))]
    /\ Forall (fun e => writes e = false)
         (round_polls fl p (session_challenge fl w)
            (local_digest (session_filePath fl b0) w) (us ++ [[]]))
    /\ length (poll_digests
                 (round_polls fl p (session_challenge fl w)
                    (local_digest (session_filePath fl b0) w) (us ++ [[]])))
       = S (length bs).
Proof.
  intros Hpay Hlen Hcn Hun Hdone [H0 Hs].
  change (bs ++ [bn; done]) with (bs ++ [bn] ++ [done]) in Hs.
  rewrite app_assoc in Hs.
  apply served_app in Hs as [Hbs [Hlast _]].
  rewrite length_app in Hlast. simpl length in Hlast.
  assert (Hpay' : Forall2 payload (bs ++ [bn]) (us ++ [[]])).
  { apply Forall2_app; [exact Hpay|]. constructor; [split; assumption|].
    constructor. }
  pose proof (Forall2_length _ _ _ Hpay) as Hus.
  rewrite (getProduct_session fl p w b0 H0).
  replace 6%nat with (length (bs ++ [bn]) + S (4 - length bs))%nat
    by (rewrite length_app; simpl; lia).
  rewrite (loop_rounds fl _ _ _ (bs ++ [bn]) (us ++ [[]]) _ _ _ Hpay');
    [|world_simpl; exact Hbs|simpl; lia
     |rewrite length_app; simpl; lia].
  rewrite getProduct_loop_S.
  rewrite (turn_no_update_noop fl _ _ _ _ _ done);
    [|world_simpl; rewrite length_app; simpl; exact Hlast|exact Hdone
     |rewrite round_state_last; reflexivity].
  rewrite round_state_last. cbn [uncompressed oldDigest].
  eexists. split; [reflexivity|].
  split; [reflexivity|]. split; [reflexivity|].
  split; [world_simpl; rewrite length_app; simpl; lia|].
  split; [world_simpl; rewrite <- ?app_assoc; reflexivity|].
  split; [apply round_polls_writes|].
  rewrite round_polls_digests, length_app. simpl. lia.
Qed.

Lemma empty_payload_is_noop_witness :
  exists w',
    @getProduct Sample.lib default_flags "506" Sample.empty_second_payload
    = (Ret None, w')
    /\ w_files w' !! "/usr/local/var/GeoIP/GeoLiteCity.dat"
       = Some (bytes_of_string "old")
    /\ poll_digests (w_trace w')
       = ["149603e6c03516362a8da23f624db945";
          "e1faffb3e614e6c2fba74296962386b7";
          "d41d8cd98f00b204e9800998ecf8427e"]
    /\ Forall (fun e => writes e = false) (w_trace w').
Proof.
  destruct (@empty_payload_is_noop Sample.lib default_flags "506"
              Sample.empty_second_payload
              (bytes_of_string "GeoLiteCity.dat")
              [Sample.gz_AAA] [bytes_of_string "AAA"]
              Sample.gz_empty Sample.no_update)
    as (w' & Hrun & Hfiles & _ & _ & Htrace & _).
  - repeat constructor.
  - simpl. lia.
  - reflexivity.
  - reflexivity.
  - reflexivity.
  - simpl. repeat split; reflexivity.
  - exists w'. split; [exact Hrun|].
    split; [rewrite Hfiles; reflexivity|].
    rewrite Htrace. split; [vm_compute; reflexivity|].
    vm_compute. repeat constructor.
Defined.

(** ** How a turn of the loop reads a reply *)

Lemma gzip_magic_not_text (b : bytes) :
  HasPrefix b [x1f; x8b] = true ->
  HasPrefix b (bytes_of_string "No new updates available") = false.
Proof.
  destruct b as [|c b]; [discriminate|].
  simpl. destruct (Byte.eqb c x1f) eqn:Hc; [|discriminate].
  apply Byte.byte_dec_bl in Hc. subst c. reflexivity.
Qed.

Ltac settle_shape :=
  repeat match goal with
         | |- _ /\ _ => split
         | |- _ <-> _ => split
         | |- ~ _ => intro
         | |- _ -> _ => intro
         | H : _ \/ _ |- _ => destruct H
         | H : _ /\ _ |- _ => destruct H
         | H : exists _, _ |- _ => destruct H
         | H : ?P -> _, H' : ?P |- _ => specialize (H H')
         end;
  try congruence; try lia; auto.

(** X14. What one turn of the loop of [getProduct] does with a reply of
    a success status is decided by how the body starts.  The turn leaves
    the loop, to publish or with nil, exactly when the body is the text
    "No new updates available" followed by anything at all, and of the
    two it is the payload held that decides; it takes the body for a
    payload, which it counts and decompresses or refuses as one too
    many, exactly when the body starts with the bytes 1f 8b; and it
    returns "Not a gzip file" exactly when the body starts in neither
    way, as the empty body does. *)
Theorem reply_decides_turn `{GoLib} (fl : flags) (p fn ch : string)
    (st : session) (w : world) (b : bytes) :
  reply_body (w_net w (w_sent w)) = Some b ->
  0 <= attempts st <= 5 ->
  let r := fst (getProduct_turn fl p fn ch st w) in
  ((exists rest, b = bytes_of_string "No new updates available" ++ rest) <->
   r = Ret Break \/ r = Ret (Return None))
  /\ (r = Ret Break -> uncompressed st <> [])
  /\ (r = Ret (Return None) -> uncompressed st = [])
  /\ ((exists rest, b = x1f :: x8b :: rest) <->
      (exists u,
         r = Ret (Continue (Session (attempts st + 1) u (md5hex u)))
         /\ gunzip b = inr u /\ attempts st < 5)
      \/ (exists e,
            r = Ret (Return (Some (GzipError e)))
            /\ gunzip b = inl e /\ attempts st < 5)
      \/ (r = Ret (Return
                     (Some (errors_New "Too many attempts at downloading file")))
          /\ attempts st = 5))
  /\ (~ (exists rest,
           b = bytes_of_string "No new updates available" ++ rest)
      /\ ~ (exists rest, b = x1f :: x8b :: rest) <->
      r = Ret (Return (Some (errors_New "Not a gzip file"))))
  /\ (b = [] -> r = Ret (Return (Some (errors_New "Not a gzip file")))).
Proof.
  intros Hb Ha r.
  assert (Hno : (exists rest,
                   b = bytes_of_string "No new updates available" ++ rest)
                <-> HasPrefix b (bytes_of_string "No new updates available")
                    = true)
    by (symmetry; apply HasPrefix_iff).
  assert (Hgz : (exists rest, b = x1f :: x8b :: rest)
                <-> HasPrefix b [x1f; x8b] = true)
    by (symmetry; apply (HasPrefix_iff b [x1f; x8b])).
  rewrite Hno, Hgz. clear Hno Hgz.
  pose proof (gzip_magic_not_text b) as Hexcl.
  assert (Hempty : b = [] -> classify b = Malformed) by (intros ->; reflexivity).
  destruct (classify b) eqn:Hc.
  - pose proof Hc as Hp. apply classify_NoUpdate in Hp.
    destruct (HasPrefix b [x1f; x8b]) eqn:Hg;
      [rewrite (Hexcl eq_refl) in Hp; discriminate|].
    destruct (list_eq_nil_dec (uncompressed st)) as [Hu|Hu].
    + subst r. rewrite (turn_no_update_noop fl p fn ch st w b Hb Hc Hu).
      cbn [fst]. rewrite Hp. settle_shape.
    + subst r. rewrite (turn_no_update_break fl p fn ch st w b Hb Hc Hu).
      cbn [fst]. rewrite Hp. settle_shape.
  - pose proof Hc as Hp. apply classify_GzipPayload in Hp as [Hn Hg].
    destruct (Z.eq_dec (attempts st) 5) as [H5|H5].
    + subst r. rewrite (turn_too_many fl p fn ch st w b Hb Hc H5).
      cbn [fst]. rewrite Hn, Hg.
      split; [settle_shape|]. split; [settle_shape|]. split; [settle_shape|].
      split; [|split; [settle_shape|settle_shape]].
      split; [intros _; right; right; split; [reflexivity|exact H5]|].
      reflexivity.
    + destruct (gunzip b) as [e|u] eqn:Hu.
      * subst r.
        rewrite (turn_gunzip_fails fl p fn ch st w b e Hb Hc ltac:(lia) Hu).
        cbn [fst]. rewrite Hn, Hg.
        split; [settle_shape|]. split; [settle_shape|].
        split; [settle_shape|].
        split; [|split; [settle_shape|settle_shape]].
        split; [intros _; right; left; exists e;
                split; [reflexivity|split; [reflexivity|lia]]|].
        reflexivity.
      * subst r.
        rewrite (turn_gzip fl p fn ch st w b u Hb Hc ltac:(lia) Hu).
        cbn [fst]. rewrite Hn, Hg.
        split; [settle_shape|]. split; [settle_shape|].
        split; [settle_shape|].
        split; [|split; [settle_shape|settle_shape]].
        split; [intros _; left; exists u;
                split; [reflexivity|split; [reflexivity|lia]]|].
        reflexivity.
  - pose proof Hc as Hp. apply classify_Malformed in Hp as [Hn Hg].
    subst r. rewrite (turn_malformed fl p fn ch st w b Hb Hc).
    cbn [fst]. rewrite Hn, Hg.
    split; [settle_shape|]. split; [settle_shape|]. split; [settle_shape|].
    split; [settle_shape|]. split; [|reflexivity].
    split; [reflexivity|]. intros _. split; discriminate.
Qed.

Lemma reply_decides_turn_witness :
  fst (@getProduct_turn Sample.lib default_flags "506" "GeoLiteCity.dat" "c"
         (Session 1 (bytes_of_string "AAA") "e1faffb3e614e6c2fba74296962386b7")
         (Sample.world_of
            [Sample.ok
               (bytes_of_string "No new updates available for this product")]
            [] ∅))
  = Ret Break.
Proof.
  destruct (@reply_decides_turn Sample.lib default_flags "506"
              "GeoLiteCity.dat" "c"
              (Session 1 (bytes_of_string "AAA")
                 "e1faffb3e614e6c2fba74296962386b7")
              (Sample.world_of
                 [Sample.ok
                    (bytes_of_string
                       "No new updates available for this product")]
                 [] ∅)
              (bytes_of_string "No new updates available for this product")
              eq_refl ltac:(simpl; lia))
    as ([Hno _] & _ & Hnil & _).
  destruct Hno as [Hbreak|Hnone].
  - exists (bytes_of_string " for this product"). reflexivity.
  - exact Hbreak.
  - discriminate (Hnil Hnone).
Defined.
